(** * Stock price prediction with a linear regression: model and properties

    A shallow embedding of [stock_price_lr.py] (the single code cell of
    [stockprice.ipynb]): [download_data], [make_features], [train_model],
    [plot_results] and [main], together with the parts of pandas,
    scikit-learn, joblib, argparse, pathlib and the file system that these
    functions call.

    Conventions.
    - A float is the rational it denotes ([Q]); a cell that may hold NaN is
      an [option Q] with [None] for NaN.  The arithmetic of the estimators
      and of the metrics is exact.  The one product whose rounding decides
      what the program does, [test_size * n_samples] in the split, is
      rounded to binary64 ([float_mul]).
    - A [DataFrame] is the list of its rows in positional order, each row
      paired with its index label.
    - Python exceptions are values of [exn]; effectful functions live in the
      monad [M], which threads the file system and the log of observable
      events and keeps both when an exception is raised.
    - The file system maps resolved paths (the names of the components
      from the root) to files and directories; a path name is resolved
      against the working directory, through [.] and [..], before it is
      used.  Path names are POSIX path names; symbolic links and
      permissions are not modelled. *)

From Stdlib Require Import QArith Qround Qabs Lqa Qpower.
From stdpp Require Import gmap strings list sorting.
From Stdlib Require Ascii.

Local Open Scope Z_scope.

(** ** Data model *)

(** One row of the table the provider returns: the date (days since some
    epoch) and the five OHLCV cells, any of which may be missing. *)
Record PriceRow := mkPrice {
  Date   : Z;
  Open   : option Q;
  High   : option Q;
  Low    : option Q;
  Close  : option Q;
  Volume : option Q
}.

(** The row of [make_features]: the price columns plus [Day] and the three
    lag columns. *)
Record FeatureRow := mkFeature {
  price      : PriceRow;
  Day        : Z;
  Close_lag1 : option Q;
  Close_lag2 : option Q;
  Close_lag3 : option Q
}.

(** A frame: rows in positional order, each with its index label. *)
Abbreviation DataFrame R := (list (nat * R)).

Definition labels {R} (df : DataFrame R) : list nat := map fst df.
Definition rows {R} (df : DataFrame R) : list R := map snd df.

(** [df.reset_index()]: a fresh [RangeIndex], labels equal positions. *)
Definition reset_index {R} (rs : list R) : DataFrame R :=
  zip (seq 0 (length rs)) rs.

(** [df.tail(k)]: the last [k] rows, labels kept. *)
Definition tail {R} (k : nat) (df : DataFrame R) : DataFrame R :=
  drop (length df - k) df.

(** [df.loc[lbl]]: the first row carrying label [lbl]. *)
Definition loc {R} (df : DataFrame R) (lbl : nat) : option R :=
  snd <$> List.find (fun p => Nat.eqb (fst p) lbl) df.

Definition notna {A} (c : option A) : bool :=
  match c with Some _ => true | None => false end.

Definition price_complete (r : PriceRow) : bool :=
  notna (Open r) && notna (High r) && notna (Low r) && notna (Close r)
  && notna (Volume r).

Definition feature_complete (r : FeatureRow) : bool :=
  price_complete (price r) && notna (Close_lag1 r) && notna (Close_lag2 r)
  && notna (Close_lag3 r).

(** [df.dropna()]: keep the rows without a missing cell; labels are kept. *)
Definition dropna {R} (complete : R -> bool) (df : DataFrame R) : DataFrame R :=
  List.filter (fun p => complete (snd p)) df.

(** [Series.shift(k)]: the value at position [i] moves to position [i+k];
    the first [k] positions become NaN and the length is unchanged. *)
Definition shift {A} (k : nat) (col : list (option A)) : list (option A) :=
  take (length col) (replicate k None ++ col).

(** ** Feature Builder *)

(** [make_features]: [Day] is [np.arange(len(df))], [Close_lag<k>] is
    [df["Close"].shift(k)] for k = 1, 2, 3, then [dropna]. *)
Definition add_features (df : DataFrame PriceRow) : DataFrame FeatureRow :=
  let close := map Close (rows df) in
  let day   := seq 0 (length df) in
  let lag1  := shift 1 close in
  let lag2  := shift 2 close in
  let lag3  := shift 3 close in
  map (fun '(lbl, r, d, l1, l2, l3) => (lbl, mkFeature r (Z.of_nat d) l1 l2 l3))
      (zip (zip (zip (zip df day) lag1) lag2) lag3).

Definition make_features (df : DataFrame PriceRow) : DataFrame FeatureRow :=
  dropna feature_complete (add_features df).

(** ** Numeric helpers (numpy) *)

Definition Qsum (xs : list Q) : Q := fold_right Qplus 0%Q xs.

Definition Qlen {A} (xs : list A) : Q := inject_Z (Z.of_nat (length xs)).

Definition mean (xs : list Q) : Q := (Qsum xs / Qlen xs)%Q.

(** Population variance, as [np.var] with [ddof=0]. *)
Definition variance (xs : list Q) : Q :=
  let m := mean xs in mean (map (fun x => (x - m) * (x - m))%Q xs).

Definition dot (xs ys : list Q) : Q :=
  Qsum (map (fun p => (fst p * snd p)%Q) (combine xs ys)).

(** A matrix is the list of its rows. *)
Definition n_features {A} (X : list (list A)) : nat :=
  match X with [] => 0%nat | r :: _ => length r end.

Definition column (j : nat) (X : list (list Q)) : list Q :=
  map (fun r => nth j r 0%Q) X.

Definition columns (X : list (list Q)) : list (list Q) :=
  map (fun j => column j X) (seq 0 (n_features X)).

(** ** Binary floating point

    Python's [float] is IEEE binary64.  [round_float x] is the number with
    a 53-bit significand nearest to [x], the one with the even significand
    when two are equally near.  The exponent is not bounded: the products
    of the program, a fraction below 1 by a row count, neither overflow
    nor lose bits to underflow. *)

Definition pow2 (k : Z) : Q := Qpower 2 k.

(** floor(log2 x) of a positive rational. *)
Definition Qlog2 (x : Q) : Z :=
  let d := Z.log2 (Qnum x) - Z.log2 (Zpos (Qden x)) in
  if Qle_bool (pow2 d) x then d else d - 1.

(** The integer nearest to [x], the even one of two that are equally
    near. *)
Definition round_half_even (x : Q) : Z :=
  let f := Qfloor x in
  match Qcompare (x - inject_Z f) (1 # 2) with
  | Lt => f
  | Gt => f + 1
  | Eq => if Z.even f then f else f + 1
  end.

Definition round_float (x : Q) : Q :=
  match Qcompare x 0 with
  | Eq => 0%Q
  | Gt =>
      let e := Qlog2 x - 52 in
      Qred (inject_Z (round_half_even (x / pow2 e)) * pow2 e)
  | Lt =>
      let e := Qlog2 (- x) - 52 in
      Qred (- (inject_Z (round_half_even (- x / pow2 e)) * pow2 e))
  end.

(** [x * y] on floats: each operand is the float of its value (for an
    [int] operand this is the conversion Python makes), and the product is
    rounded. *)
Definition float_mul (x y : Q) : Q :=
  round_float (round_float x * round_float y).

(** ** Exceptions *)

Inductive value_error :=
  | InvalidTestSize        (* test_size outside (0, 1) *)
  | EmptyTrainSet          (* "the resulting train set will be empty" *)
  | NoSamples              (* "Found array with 0 sample(s)" *)
  | InputContainsNaN
  | FeatureCountMismatch   (* "X has n features, but ... is expecting m" *)
  | InconsistentLengths
  | OtherValueError.

Inductive exn :=
  | SystemExit (status : Z)
  | ValueError (why : value_error)
  | AttributeError
  | IndexError
  | KeyError
  | EOFError
  | FileNotFoundError
  | FileExistsError
  | IsADirectoryError
  | NotADirectoryError
  | UnpicklingError
  | OtherError (class_name : string).

Definition result (A : Type) : Type := exn + A.

Definition result_bind {A B} (r : result A) (k : A -> result B) : result B :=
  match r with inl e => inl e | inr a => k a end.

(** The floats of a column once it is known to hold no NaN. *)
Definition values (xs : list (option Q)) : list Q := map (default 0%Q) xs.

(** [check_array] on a vector: no NaN. *)
Definition all_finite (xs : list (option Q)) : result (list Q) :=
  if forallb notna xs then inr (values xs)
  else inl (ValueError InputContainsNaN).

(** [check_array] on a matrix: at least one sample and no NaN. *)
Definition check_array (X : list (list (option Q))) : result (list (list Q)) :=
  match X with
  | [] => inl (ValueError NoSamples)
  | _ =>
      if forallb (forallb notna) X then inr (map values X)
      else inl (ValueError InputContainsNaN)
  end.

(** ** The fitted estimators (scikit-learn) *)

Record StandardScaler := mkScaler {
  mean_  : list Q;
  var_   : list Q;
  scale_ : list Q
}.

Record LinearRegression := mkLinear {
  coef_      : list Q;
  intercept_ : Q
}.

(** A Python object as [joblib.load] may return it: the pipeline this
    program saves, another object that has a [predict] method (given by
    what the method returns or raises on a matrix), or an object without
    one (a dict, a number, ...). *)
Inductive pyobj :=
  | PyPipeline (scaler : StandardScaler) (lr : LinearRegression)
  | PyEstimator (predict_method : list (list (option Q)) -> result (list Q))
  | PyOther (repr : string).

(** [StandardScaler.transform] on one row. *)
Definition scale_row (sc : StandardScaler) (x : list Q) : list Q :=
  map (fun '(xi, m, s) => ((xi - m) / s)%Q)
      (combine (combine x (mean_ sc)) (scale_ sc)).

(** [LinearRegression.predict] on one row. *)
Definition linear_predict (lr : LinearRegression) (x : list Q) : Q :=
  (dot x (coef_ lr) + intercept_ lr)%Q.

Definition has_n_features (n : nat) (X : list (list Q)) : bool :=
  forallb (fun r => Nat.eqb (length r) n) X.

(** [Pipeline.predict]: validate, scale, apply the linear model. *)
Definition Pipeline_predict (sc : StandardScaler) (lr : LinearRegression)
    (X : list (list (option Q))) : result (list Q) :=
  result_bind (check_array X) (fun Y =>
  if negb (has_n_features (length (mean_ sc)) Y) then
    inl (ValueError FeatureCountMismatch)
  else
    let Xt := map (scale_row sc) Y in
    if negb (has_n_features (length (coef_ lr)) Xt) then
      inl (ValueError FeatureCountMismatch)
    else inr (map (linear_predict lr) Xt)).

(** [obj.predict(X)] on an arbitrary loaded object. *)
Definition predict (o : pyobj) (X : list (list (option Q))) : result (list Q) :=
  match o with
  | PyPipeline sc lr => Pipeline_predict sc lr X
  | PyEstimator predict_method => predict_method X
  | PyOther _ => inl AttributeError
  end.

(** ** Metrics (sklearn.metrics) *)

Definition mean_absolute_error (y_true : list (option Q)) (y_pred : list Q)
    : result Q :=
  if negb (Nat.eqb (length y_true) (length y_pred)) then
    inl (ValueError InconsistentLengths)
  else
    result_bind (all_finite y_true) (fun y =>
    match y with
    | [] => inl (ValueError NoSamples)
    | _ => inr (mean (map (fun p => Qabs (fst p - snd p)) (combine y y_pred)))
    end).

(** [r2_score]: NaN ([None]) with fewer than two samples; for a constant
    [y_true] the score is 1 on a perfect fit and 0 otherwise. *)
Definition r2_score (y_true : list (option Q)) (y_pred : list Q)
    : result (option Q) :=
  if negb (Nat.eqb (length y_true) (length y_pred)) then
    inl (ValueError InconsistentLengths)
  else
    result_bind (all_finite y_true) (fun y =>
    match y with
    | [] => inl (ValueError NoSamples)
    | [_] => inr None
    | _ =>
        let ss_res :=
          Qsum (map (fun p => (fst p - snd p) * (fst p - snd p))%Q
                    (combine y y_pred)) in
        let ss_tot := (variance y * Qlen y)%Q in
        if negb (Qeq_bool ss_tot 0) then inr (Some (1 - ss_res / ss_tot)%Q)
        else if Qeq_bool ss_res 0 then inr (Some 1%Q)
        else inr (Some 0%Q)
    end).

(** ** Chronological split (sklearn.model_selection) *)

(** [_validate_shuffle_split] for a float [test_size] and no [train_size]:
    [n_test = ceil(test_size * n_samples)], the product being a product of
    floats, and [n_train = n_samples - n_test]. *)
Definition validate_shuffle_split (n_samples : nat) (test_size : Q)
    : result (Z * Z) :=
  if Qle_bool test_size 0 || Qle_bool 1 test_size then
    inl (ValueError InvalidTestSize)
  else
    let n_test :=
      Qceiling (float_mul test_size (inject_Z (Z.of_nat n_samples))) in
    let n_train := Z.of_nat n_samples - n_test in
    if n_train =? 0 then inl (ValueError EmptyTrainSet)
    else inr (n_train, n_test).

(** Positions [lo, hi) of a sequence, as [arr[lo:hi]]. *)
Definition slice {A} (lo hi : Z) (xs : list A) : list A :=
  take (Z.to_nat hi - Z.to_nat lo) (drop (Z.to_nat lo) xs).

(** [train_test_split(X, y, test_size=t, shuffle=False)]: the training
    rows are positions [0, n_train), the test rows positions
    [n_train, n_train + n_test); both arrays are cut at the same place. *)
Definition train_test_split {A B} (X : list A) (y : list B) (test_size : Q)
    : result (list A * list A * list B * list B) :=
  if negb (Nat.eqb (length X) (length y)) then
    inl (ValueError InconsistentLengths)
  else
    result_bind (validate_shuffle_split (length X) test_size)
      (fun '(n_train, n_test) =>
         inr (slice 0 n_train X, slice n_train (n_train + n_test) X,
              slice 0 n_train y, slice n_train (n_train + n_test) y)).

(** ** Strings and path names (str, pathlib) *)

Definition lower_ascii (c : Ascii.ascii) : Ascii.ascii :=
  let n := Ascii.nat_of_ascii c in
  if (Nat.leb 65 n && Nat.leb n 90)%bool then Ascii.ascii_of_nat (n + 32)
  else c.

(** [str.lower] on ASCII text: the letters A-Z are folded. *)
Fixpoint lower_ascii_text (s : string) : string :=
  match s with
  | EmptyString => EmptyString
  | String c s' => String (lower_ascii c) (lower_ascii_text s')
  end.

(** Every character of [s] is an ASCII character. *)
Fixpoint is_ascii (s : string) : bool :=
  match s with
  | EmptyString => true
  | String c s' => Nat.ltb (Ascii.nat_of_ascii c) 128 && is_ascii s'
  end.

Definition slash : Ascii.ascii := Ascii.ascii_of_nat 47.

Definition is_absolute (p : string) : bool :=
  match p with String c _ => Ascii.eqb c slash | EmptyString => false end.

(** [Path(d) / name]: an absolute right operand replaces the left one. *)
Definition path_join (d name : string) : string :=
  if is_absolute name then name else d +:+ "/" +:+ name.

(** The pieces of a path name between its slashes, empty pieces
    included. *)
Fixpoint components (p : string) : list string :=
  match p with
  | EmptyString => [EmptyString]
  | String c p' =>
      if Ascii.eqb c slash then EmptyString :: components p'
      else
        match components p' with
        | [] => [String c EmptyString]
        | x :: xs => String c x :: xs
        end
  end.

(** An empty piece and [.] name the directory they are met in. *)
Definition stays (c : string) : bool := String.eqb c "" || String.eqb c ".".

(** The parts of [Path(p)]: pathlib drops the empty pieces and the
    pieces [.], and keeps [..]. *)
Definition parts (p : string) : list string :=
  List.filter (fun c => negb (stays c)) (components p).

(** A resolved path: the names from the root down. *)
Abbreviation path := (list string).

Definition parent (k : path) : path := take (length k - 1) k.

(** One piece further from the directory [cur]. *)
Definition step (cur : path) (c : string) : path :=
  if stays c then cur
  else if String.eqb c ".." then parent cur
  else cur ++ [c].

(** ** Command line (argparse) *)

(** The options as they occur on the command line: [None] for an option
    that is not given; [--test_size] already converted by [float]. *)
Record CommandLine := mkCommandLine {
  cl_ticker     : option string;
  cl_period     : option string;
  cl_test_size  : option Q;
  cl_model_path : option string;
  cl_predict    : bool
}.

(** The [Namespace] returned by [parse_args]. *)
Record Namespace := mkNamespace {
  ticker     : string;
  period     : string;
  test_size  : Q;
  model_path : option string;
  predict_flag : bool
}.

(** ** Observable events *)

(** The two "saved" lines print the resolved path of the file. *)
Inductive message :=
  | MsgMetrics (mae : Q) (r2 : option Q)          (* "MAE: ..\nR² : .." *)
  | MsgForecast (ticker : string) (pred : Q)      (* "Predicted next close for .." *)
  | MsgModelSaved (resolved : path)
  | MsgPlotSaved (resolved : path).

Inductive event :=
  | Fetch (ticker period : string)   (* one [yf.download] request *)
  | Stdout (m : message)
  | Stderr (usage_error : string).

(** ** Figures (matplotlib) *)

Record Line := mkLine {
  line_label  : string;
  line_x      : list Z;
  line_y      : list (option Q);
  line_dashed : bool
}.

Record Figure := mkFigure {
  fig_title  : string;
  fig_xlabel : string;
  fig_ylabel : string;
  fig_lines  : list Line
}.

(** ** What [train_model] returns *)

Record TrainResult := mkTrainResult {
  tr_pipe      : pyobj;
  tr_train_idx : list nat;
  tr_test_idx  : list nat;
  tr_y_train   : list (option Q);
  tr_y_test    : list (option Q);
  tr_pred      : list Q
}.

(** The four feature columns of a row, in the order the model receives
    them, and the target column. *)
Definition feature_vector (r : FeatureRow) : list (option Q) :=
  [Some (inject_Z (Day r)); Close_lag1 r; Close_lag2 r; Close_lag3 r].

Definition select_X (df : DataFrame FeatureRow) : DataFrame (list (option Q)) :=
  map (fun p => (fst p, feature_vector (snd p))) df.

Definition select_y (df : DataFrame FeatureRow) : list (option Q) :=
  map (fun p => Close (price (snd p))) df.

(** ** Auxiliary notions used by the statements *)

(** The close price at position [i] of a frame. *)
Definition close_at (df : DataFrame PriceRow) (i : nat) : option Q :=
  df !! i ≫= (fun p => Close (snd p)).

(** The dates of a frame of Feature Rows, in positional order. *)
Definition dates (df : DataFrame FeatureRow) : list Z :=
  map (fun p => Date (price (snd p))) df.

(** The split point as the specification words it:
    floor(len * (1 - test_fraction)). *)
Definition spec_split_point (len : nat) (test_fraction : Q) : Z :=
  Qfloor (inject_Z (Z.of_nat len) * (1 - test_fraction)).

(** The sizes the code computes: the test count
    [ceil(test_size * n_samples)], with the product of floats, and the
    training count, which is where the rows are cut. *)
Definition n_test_of (n : nat) (t : Q) : Z :=
  Qceiling (float_mul t (inject_Z (Z.of_nat n))).

Definition split_point (n : nat) (t : Q) : Z := Z.of_nat n - n_test_of n t.

(** The four feature columns of a frame whose rows miss no lag, as
    numbers. *)
Definition feature_columns (df : DataFrame FeatureRow) : list (list Q) :=
  [map (fun p => inject_Z (Day (snd p))) df;
   map (fun p => default 0%Q (Close_lag1 (snd p))) df;
   map (fun p => default 0%Q (Close_lag2 (snd p))) df;
   map (fun p => default 0%Q (Close_lag3 (snd p))) df].

(** Mean and variance as the specification names them: the average of a
    column, and the average squared deviation from it. *)
Definition average (xs : list Q) : Q :=
  (Qsum xs / inject_Z (Z.of_nat (length xs)))%Q.

Definition mean_square_deviation (xs : list Q) : Q :=
  average (map (fun x => (x - average xs) * (x - average xs))%Q xs).

(** [x] is a float. *)
Definition is_float (x : Q) : Prop := (round_float x == x)%Q.

(** Every row of the matrix has [n] cells. *)
Definition rect {A} (n : nat) (X : list (list A)) : Prop :=
  Forall (fun r => length r = n) X.

(** The scaler of a fitted pipeline. *)
Definition pipe_scaler (o : pyobj) : option StandardScaler :=
  match o with PyPipeline sc _ => Some sc | _ => None end.

(** The shape of the pipeline this program trains: a scaler and a linear
    model over exactly four features. *)
Definition four_features (o : pyobj) : bool :=
  match o with
  | PyPipeline sc lr =>
      Nat.eqb (length (mean_ sc)) 4 && Nat.eqb (length (scale_ sc)) 4
      && Nat.eqb (length (coef_ lr)) 4
  | _ => false
  end.

(** ** The program

    The collaborators outside the repository form an interface of the
    model: the market-data provider, the floating-point square root of
    numpy, the least-squares solver behind [LinearRegression.fit], the
    serialization of joblib, the renderer of matplotlib and the case
    tables of Unicode.  [blob] is the type of file contents. *)
Class Collaborators (blob : Type) := {
  (** [yf.download(ticker, period=period, interval="1d", auto_adjust=True)]:
      the rows the provider answers with, oldest first, at the time of
      the run; yfinance reports a failed download on standard error and
      answers with an empty table.  A run makes at most one request, so
      one answer per request is all a run can see; what the provider
      answers on another day is another instance (see [with_provider]). *)
  yf_download : string -> string -> list PriceRow;
  (** [np.sqrt]. *)
  sqrtQ : Q -> Q;
  (** [scipy.linalg.lstsq(X, y)]: the coefficient vector. *)
  lstsq : list (list Q) -> list Q -> list Q;
  (** The serialization behind [joblib.dump] and [joblib.load]: [loads]
      yields [None] on content that cannot be deserialized, and
      [load_failure] is the exception [joblib.load] raises on it
      (UnpicklingError, EOFError, KeyError, ValueError, ...: it depends on
      the bytes). *)
  dumps : pyobj -> blob;
  loads : blob -> option pyobj;
  load_failure : blob -> exn;
  (** [plt.savefig]: the rendered image. *)
  savefig : Figure -> blob;
  (** [str.lower] on text that is not pure ASCII. *)
  unicode_lower : string -> string
}.

Section World.

Context {blob : Type}.

(** *** File system, event log and the monad of effects *)

Inductive node :=
  | File (content : blob)
  | Dir.

(** The entries of the file system by resolved path, and the working
    directory.  The root, the working directory and the directories above
    it exist without an entry. *)
Record files := mkFiles {
  entries : gmap path node;
  cwd     : path
}.

Record world := mkWorld {
  fs  : files;
  log : list event
}.

Definition is_directory (f : files) (k : path) : bool :=
  bool_decide (k `prefix_of` cwd f) ||
  match entries f !! k with Some Dir => true | _ => false end.

(** The error for a piece that is looked up in something that is no
    directory. *)
Definition not_a_directory (f : files) (k : path) : exn :=
  match entries f !! k with
  | Some (File _) => NotADirectoryError
  | _ => FileNotFoundError
  end.

(** Where the resolution of a path name starts. *)
Definition start (f : files) (p : string) : path :=
  if is_absolute p then [] else cwd f.

(** Resolution of the pieces [cs] from the directory [cur]: every piece
    is looked up in a directory. *)
Fixpoint walk (f : files) (cur : path) (cs : list string) : result path :=
  match cs with
  | [] => inr cur
  | c :: cs' =>
      if is_directory f cur then walk f (step cur c) cs'
      else inl (not_a_directory f cur)
  end.

(** The resolved path that the operating system finds for the name [p];
    the last piece need not exist. *)
Definition resolve (f : files) (p : string) : result path :=
  if String.eqb p "" then inl FileNotFoundError
  else walk f (start f p) (components p).

(** [Path(p).resolve()]: the path of [p] from the root, whether it exists
    or not. *)
Definition realpath (f : files) (p : string) : path :=
  fold_left step (components p) (start f p).

(** What the name [p] holds: looking a name up in the file system
    ([f !! p]) resolves it first. *)
Definition stat (f : files) (p : string) : option node :=
  match resolve f p with
  | inr k => if is_directory f k then Some Dir else entries f !! k
  | inl _ => None
  end.

#[global] Instance files_lookup : Lookup string node files :=
  fun p f => stat f p.

Definition put (k : path) (x : node) (f : files) : files :=
  mkFiles (<[k := x]> (entries f)) (cwd f).

(** [<[p := x]> f] enters [x] under the name [p] where the name resolves. *)
#[global] Instance files_insert : Insert string node files :=
  fun p x f => match resolve f p with inr k => put k x f | inl _ => f end.

(** The empty file system, with the root as working directory. *)
#[global] Instance files_empty : Empty files := mkFiles ∅ [].

Definition M (A : Type) : Type := world -> result A * world.

#[local] Instance M_ret : MRet M := fun A a w => (inr a, w).

#[local] Instance M_bind : MBind M := fun A B k m w =>
  match m w with
  | (inl e, w') => (inl e, w')
  | (inr a, w') => k a w'
  end.

Definition raise {A} (e : exn) : M A := fun w => (inl e, w).

Definition lift {A} (r : result A) : M A := fun w => (r, w).

Definition emit (ev : event) : M unit :=
  fun w => (inr tt, mkWorld (fs w) (log w ++ [ev])).

(** [os.mkdir] on the resolved path [k] when something may be there
    already: a directory is left as it is, a regular file is an error
    ([FileExistsError] for the path to make, [NotADirectoryError] for a
    directory on the way to it). *)
Definition ensure_dir (f : files) (k : path) (last : bool)
    : result unit * files :=
  if is_directory f k then (inr tt, f)
  else
    match entries f !! k with
    | Some (File _) =>
        (inl (if last then FileExistsError else NotADirectoryError), f)
    | _ => (inr tt, put k Dir f)
    end.

(** [Path(name).mkdir(exist_ok=True)]: the parent has to exist. *)
Definition mkdir_exist_ok (name : string) : M unit := fun w =>
  match resolve (fs w) name with
  | inl e => (inl e, w)
  | inr k =>
      let '(r, f) := ensure_dir (fs w) k true in (r, mkWorld f (log w))
  end.

(** The directories [cs] below [cur], made where they are missing. *)
Fixpoint mkdirs (f : files) (cur : path) (cs : list string)
    : result unit * files :=
  match cs with
  | [] => ensure_dir f cur true
  | c :: cs' =>
      match ensure_dir f cur false with
      | (inl e, f') => (inl e, f')
      | (inr _, f') => mkdirs f' (step cur c) cs'
      end
  end.

(** [Path(p).mkdir(exist_ok=True, parents=True)]. *)
Definition mkdir_parents (p : string) : M unit := fun w =>
  let '(r, f) := mkdirs (fs w) (start (fs w) p) (parts p) in
  (r, mkWorld f (log w)).

(** [open(p, "wb").write(content)]. *)
Definition write_file (p : string) (content : blob) : M unit := fun w =>
  match resolve (fs w) p with
  | inl e => (inl e, w)
  | inr k =>
      if is_directory (fs w) k then (inl IsADirectoryError, w)
      else (inr tt, mkWorld (put k (File content) (fs w)) (log w))
  end.

(** [open(p, "rb").read()]. *)
Definition read_file (p : string) : M blob := fun w =>
  match resolve (fs w) p with
  | inl e => (inl e, w)
  | inr k =>
      if is_directory (fs w) k then (inl IsADirectoryError, w)
      else
        match entries (fs w) !! k with
        | Some (File b) => (inr b, w)
        | _ => (inl FileNotFoundError, w)
        end
  end.

End World.

Arguments node : clear implicits.
Arguments files : clear implicits.
Arguments world : clear implicits.
Arguments M : clear implicits.

Section Program.

Context {blob : Type} `{!Collaborators blob}.

#[local] Existing Instances M_ret M_bind.

(** [str.lower]. *)
Definition lower (s : string) : string :=
  if is_ascii s then lower_ascii_text s else unicode_lower s.

(** *** Persistence (joblib) *)

Definition joblib_dump (o : pyobj) (p : string) : M blob unit :=
  write_file p (dumps o).

Definition joblib_load (p : string) : M blob pyobj :=
  b ← read_file p;
  match loads b with
  | Some o => mret o
  | None => raise (load_failure b)
  end.

(** *** Data Fetcher *)

Definition download_data (ticker period : string) : M blob (DataFrame PriceRow) :=
  emit (Fetch ticker period);;
  mret (dropna price_complete (reset_index (yf_download ticker period))).

(** *** Trainer *)

(** [np.finfo(np.float64).eps], 2^-52. *)
Definition float_eps : Q := 1 # 4503599627370496.

(** [_is_constant_feature(var, mean, n_samples)]: the variance does not
    exceed what rounding alone gives on a constant column. *)
Definition is_constant_feature (var mean : Q) (n_samples : nat) : bool :=
  let n := inject_Z (Z.of_nat n_samples) in
  Qle_bool var (n * float_eps * var
                + (n * mean * float_eps) * (n * mean * float_eps))%Q.

(** [_handle_zeros_in_scale(scale, constant_mask=..)] on one feature. *)
Definition handle_zeros_in_scale (s : Q) (constant : bool) : Q :=
  if constant then 1%Q else s.

(** [StandardScaler.fit]: per-column mean, variance and scale. *)
Definition StandardScaler_fit (X : list (list Q)) : StandardScaler :=
  let cols := columns X in
  let n_samples_seen := length X in
  mkScaler (map mean cols) (map variance cols)
           (map (fun c =>
                   handle_zeros_in_scale
                     (sqrtQ (variance c))
                     (is_constant_feature (variance c) (mean c) n_samples_seen))
                cols).

(** [LinearRegression.fit] with an intercept: centre [X] and [y], solve
    the least-squares problem, recover the intercept. *)
Definition LinearRegression_fit (X : list (list Q)) (y : list Q)
    : LinearRegression :=
  let X_offset := map mean (columns X) in
  let y_offset := mean y in
  let Xc := map (fun r => map (fun p => (fst p - snd p)%Q)
                              (combine r X_offset)) X in
  let yc := map (fun v => (v - y_offset)%Q) y in
  let coef := lstsq Xc yc in
  mkLinear coef (y_offset - dot X_offset coef)%Q.

(** [Pipeline([("scaler", ..), ("lr", ..)]).fit(X, y)]: a NaN in [X] or
    [y] makes the fit raise ValueError (in [LinearRegression.fit], the
    scaler lets NaN through); otherwise the scaler is fitted on [X] and the
    linear model on the scaled [X]. *)
Definition Pipeline_fit (X : list (list (option Q))) (y : list (option Q))
    : result pyobj :=
  result_bind (check_array X) (fun Xv =>
  result_bind (all_finite y) (fun yv =>
    let sc := StandardScaler_fit Xv in
    inr (PyPipeline sc (LinearRegression_fit (map (scale_row sc) Xv) yv)))).

Definition train_model (df : DataFrame FeatureRow) (test_size : Q)
    : M blob TrainResult :=
  let X := select_X df in
  let y := select_y df in
  '(X_train, X_test, y_train, y_test) ← lift (train_test_split X y test_size);
  pipe ← lift (Pipeline_fit (rows X_train) y_train);
  pred ← lift (predict pipe (rows X_test));
  mae ← lift (mean_absolute_error y_test pred);
  r2 ← lift (r2_score y_test pred);
  emit (Stdout (MsgMetrics mae r2));;
  mret (mkTrainResult pipe (labels X_train) (labels X_test)
                      y_train y_test pred).

(** *** Reporter *)

(** [df.loc[idx, "Date"]]. *)
Definition loc_dates (df : DataFrame FeatureRow) (idx : list nat)
    : result (list Z) :=
  match mapM (fun lbl => (fun r => Date (price r)) <$> loc df lbl) idx with
  | Some ds => inr ds
  | None => inl KeyError
  end.

(** [plt.plot(x, y, label=.., linestyle=..)]. *)
Definition plt_plot (x : list Z) (y : list (option Q)) (label : string)
    (dashed : bool) : result Line :=
  if Nat.eqb (length x) (length y) then inr (mkLine label x y dashed)
  else inl (ValueError InconsistentLengths).

(** [print(f".. {p.resolve()}")] for a path name [p]. *)
Definition print_resolved (msg : path -> message) (p : string) : M blob unit :=
  fun w => emit (Stdout (msg (realpath (fs w) p))) w.

Definition plot_results (df : DataFrame FeatureRow)
    (train_idx test_idx : list nat) (y_train y_test : list (option Q))
    (pred : list Q) (ticker out_dir : string) : M blob unit :=
  train_dates ← lift (loc_dates df train_idx);
  l1 ← lift (plt_plot train_dates y_train "Train" false);
  test_dates ← lift (loc_dates df test_idx);
  l2 ← lift (plt_plot test_dates y_test "Test – Actual" false);
  l3 ← lift (plt_plot test_dates (map Some pred) "Test – Predicted" true);
  let fig := mkFigure (ticker +:+ " – Linear Regression forecast")
                      "Date" "Close Price" [l1; l2; l3] in
  mkdir_parents out_dir;;
  let img_path := path_join out_dir (lower ticker +:+ "_lr_plot.png") in
  write_file img_path (savefig fig);;
  print_resolved MsgPlotSaved img_path.

(** *** CLI Driver *)

(** [ap.error(msg)]: usage and message on standard error, exit status 2. *)
Definition ap_error {A} (msg : string) : M blob A :=
  emit (Stderr msg);; raise (SystemExit 2).

(** [ap.parse_args()]: [--ticker] is required; [--period] defaults to
    ["5y"] and [--test_size] to 0.2. *)
Definition parse_args (cl : CommandLine) : M blob Namespace :=
  match cl_ticker cl with
  | None => ap_error "the following arguments are required: --ticker"
  | Some t =>
      mret (mkNamespace t (default "5y" (cl_period cl))
                        (default (2 # 10)%Q (cl_test_size cl))
                        (cl_model_path cl) (cl_predict cl))
  end.

(** [not args.model_path]: absent or empty. *)
Definition model_path_missing (p : option string) : bool :=
  match p with
  | None => true
  | Some s => String.eqb s ""
  end.

Definition main (cl : CommandLine) : M blob unit :=
  args ← parse_args cl;
  if predict_flag args then
    (if model_path_missing (model_path args) then
       ap_error "--model_path is required with --predict"
     else mret tt);;
    pipe ← joblib_load (default "" (model_path args));
    fetched ← download_data (ticker args) "10d";
    let latest := tail 4 fetched in
    let latest := tail 1 (make_features latest) in
    let X_latest := select_X latest in
    preds ← lift (predict pipe (rows X_latest));
    match preds with
    | [] => raise IndexError
    | pred :: _ => emit (Stdout (MsgForecast (ticker args) pred))
    end
  else
    raw ← download_data (ticker args) (period args);
    let df := make_features raw in
    r ← train_model df (test_size args);
    mkdir_exist_ok "models";;
    let model_fp := path_join "models" (lower (ticker args) +:+ "_lr.pkl") in
    joblib_dump (tr_pipe r) model_fp;;
    print_resolved MsgModelSaved model_fp;;
    plot_results df (tr_train_idx r) (tr_test_idx r) (tr_y_train r)
                 (tr_y_test r) (tr_pred r) (ticker args) "reports".

End Program.

(** ** Further notions used by the statements *)

(** The [Day] column of a frame of Feature Rows. *)
Definition days (df : DataFrame FeatureRow) : list Z :=
  map (fun p => Day (snd p)) df.

(** No ["/"] occurs in [s]. *)
Fixpoint no_slash (s : string) : bool :=
  match s with
  | EmptyString => true
  | String c s' => negb (Ascii.eqb c slash) && no_slash s'
  end.

(** A piece that names an entry: not empty, not [.], not [..]. *)
Definition names_entry (c : string) : bool :=
  negb (stays c) && negb (String.eqb c "..").

(** The file system once the directory [k] is there. *)
Definition with_dir {blob} (f : files blob) (k : path) : files blob :=
  if is_directory f k then f else put k Dir f.

(** The name resolves to a regular file, respectively to a directory. *)
Definition holds_file {blob} (f : files blob) (p : string) : bool :=
  match f !! p with Some (File _) => true | _ => false end.

Definition holds_dir {blob} (f : files blob) (p : string) : bool :=
  match f !! p with Some Dir => true | _ => false end.

(** Nothing at the resolved path [k] keeps a directory, respectively a
    regular file, from being made there. *)
Definition free_for_dir {blob} (f : files blob) (k : path) : Prop :=
  forall b, entries f !! k <> Some (File b).

Definition free_for_file {blob} (f : files blob) (k : path) : Prop :=
  entries f !! k <> Some Dir.

(** The cells of a Feature Row that the Trainer reads: the target and the
    three lags ([Day] is never missing). *)
Definition model_complete (r : FeatureRow) : bool :=
  notna (Close (price r)) && forallb notna (feature_vector r).

Definition is_fetch (ev : event) : bool :=
  match ev with Fetch _ _ => true | _ => false end.

(** [m] takes every world [w] to a world related to [w] by [P], whether it
    returns or raises. *)
Definition preserves {blob A} (P : relation (world blob)) (m : M blob A) : Prop :=
  forall w, P w (snd (m w)).

(** The files are the same. *)
Definition same_files {blob} (w w' : world blob) : Prop := fs w' = fs w.

(** The working directory is the same, and the entries that none of the
    names resolves to are the same. *)
Definition same_outside {blob} (names : list string) (w w' : world blob) : Prop :=
  cwd (fs w') = cwd (fs w) /\
  forall k, k ∉ map (realpath (fs w)) names ->
            entries (fs w') !! k = entries (fs w) !! k.

(** The log has grown, by at most [n] requests to the provider. *)
Definition fetches_at_most {blob} (n : nat) (w w' : world blob) : Prop :=
  exists l, log w' = log w ++ l /\ (length (List.filter is_fetch l) <= n)%nat.

(** The collaborators on another day: the provider answers with
    [provider], the others are as they were. *)
Definition with_provider {blob} (C : Collaborators blob)
    (provider : string -> string -> list PriceRow) : Collaborators blob :=
  {| yf_download := provider;
     sqrtQ := @sqrtQ blob C;
     lstsq := @lstsq blob C;
     dumps := @dumps blob C;
     loads := @loads blob C;
     load_failure := @load_failure blob C;
     savefig := @savefig blob C;
     unicode_lower := @unicode_lower blob C |}.

(** ** Sample data and sample collaborators *)

Module Sample.

(** A trading day whose five price cells are all present. *)
Definition day_row (d : Z) (c : Q) : PriceRow :=
  mkPrice d (Some c) (Some c) (Some c) (Some c) (Some 1000%Q).

(** Eight consecutive days with closes 10, 11, .., 17. *)
Definition history : list PriceRow :=
  map (fun i => day_row (100 + i) (inject_Z (10 + i))) (seqZ 0 8).

(** The same days with another close on the seventh: among the Feature
    Rows only the last one gets different feature columns (and the one
    before it another target). *)
Definition history' : list PriceRow :=
  take 6 history ++ [day_row 106 (50 # 1); day_row 107 (17 # 1)].

(** Newton iteration for the square root, four steps from 1. *)
Definition newton_sqrt (q : Q) : Q :=
  if Qle_bool q 0 then 0%Q
  else Nat.iter 4 (fun x => Qred ((x + q / x) / 2)) 1%Q.

(** A stand-in solver: regress on the first column, zero elsewhere. *)
Definition first_column_lstsq (X : list (list Q)) (y : list Q) : list Q :=
  match n_features X with
  | O => []
  | S m =>
      let x0 := column 0 X in
      Qred (dot x0 y / dot x0 x0) :: replicate m 0%Q
  end.

(** Sample collaborators: a provider that knows one ticker, the two
    stand-in numeric kernels, and files whose content is the pickled
    object, or [None] for any other bytes. *)
#[global] Instance collaborators : Collaborators (option pyobj) := {|
  yf_download := fun ticker _ =>
    if String.eqb ticker "AAPL" then history else [];
  sqrtQ := newton_sqrt;
  lstsq := first_column_lstsq;
  dumps := Some;
  loads := id;
  load_failure := fun _ => EOFError;
  savefig := fun _ => None;
  unicode_lower := id
|}.

Definition features : DataFrame FeatureRow :=
  make_features (reset_index history).

Definition features' : DataFrame FeatureRow :=
  make_features (reset_index history').

(** One Feature Row: the features of a four-day history. *)
Definition single_row : DataFrame FeatureRow :=
  make_features (reset_index (take 4 history)).

(** Three Feature Rows: the features of a six-day history. *)
Definition three_rows : DataFrame FeatureRow :=
  make_features (reset_index (take 6 history)).

(** The float that the numeral 0.6666666666666667 denotes. *)
Definition two_thirds : Q := 6004799503160662 # 9007199254740992.

Definition pipeline : pyobj :=
  PyPipeline (mkScaler [3; 12; 11; 10] [1; 1; 1; 1] [1; 1; 1; 1])%Q
             (mkLinear [0; 1; 0; 0] 1)%Q.

(** A pipeline over three features. *)
Definition pipeline3 : pyobj :=
  PyPipeline (mkScaler [12; 11; 10] [1; 1; 1] [1; 1; 1])%Q
             (mkLinear [1; 0; 0] 1)%Q.

Definition empty_world : world (option pyobj) := mkWorld ∅ [].

(** A world with the models directory and no model in it. *)
Definition fresh_world : world (option pyobj) := mkWorld (<["models" := Dir]> ∅) [].

(** A world where a trained model has been saved. *)
Definition saved_world : world (option pyobj) :=
  mkWorld (<["models/aapl_lr.pkl" := File (Some pipeline)]>
             (<["models" := Dir]> ∅)) [].

(** A world whose model file holds a three-feature pipeline. *)
Definition other_world : world (option pyobj) :=
  mkWorld (<["models/aapl_lr.pkl" := File (Some pipeline3)]>
             (<["models" := Dir]> ∅)) [].

Definition train_args : CommandLine :=
  mkCommandLine (Some "AAPL") None None None false.

Definition predict_args : CommandLine :=
  mkCommandLine (Some "AAPL") None None (Some "models/aapl_lr.pkl") true.

Definition predict_args_no_model : CommandLine :=
  mkCommandLine (Some "AAPL") None None None true.

Definition unknown_ticker_args : CommandLine :=
  mkCommandLine (Some "NOPE") None None None false.

End Sample.

(** ** Further sample inputs *)

Module Cases.

(** The sample Feature Rows with the first lag of the second row missing. *)
Definition features_with_gap : DataFrame FeatureRow :=
  take 1 Sample.features ++
  [(4%nat, mkFeature (Sample.day_row 104 (14 # 1)) 4 None
                     (Some (12 # 1)) (Some (11 # 1)))] ++
  drop 2 Sample.features.

(** A world where the name models is taken by a regular file. *)
Definition models_is_file : world (option pyobj) :=
  mkWorld (<["models" := File None]> ∅) [].

(** A world where the name reports is taken by a regular file. *)
Definition reports_is_file : world (option pyobj) :=
  mkWorld (<["reports" := File None]> ∅) [].

(** A world whose model file holds a dict. *)
Definition dict_world : world (option pyobj) :=
  mkWorld (<["model.pkl" := File (Some (PyOther "dict"))]> ∅) [].

Definition wide_test_size_args : CommandLine :=
  mkCommandLine (Some "AAPL") None (Some (3 # 2)) None false.

Definition predict_unknown_ticker_args : CommandLine :=
  mkCommandLine (Some "NOPE") None None (Some "models/aapl_lr.pkl") true.

End Cases.
(** * Properties *)

(** ** Feature Builder *)

Lemma lookup_map {A B} (f : A -> B) (l : list A) (i : nat) :
  map f l !! i = f <$> l !! i.
Proof. exact (list_lookup_fmap f l i). Qed.

Lemma length_shift {A} k (col : list (option A)) :
  length (shift k col) = length col.
Proof. unfold shift. rewrite length_take, length_app. lia. Qed.

Lemma lookup_shift_lt {A} k (col : list (option A)) i :
  (i < k)%nat -> (i < length col)%nat -> shift k col !! i = Some None.
Proof.
  intros Hk Hn. unfold shift. rewrite lookup_take_lt by done.
  rewrite lookup_app_l by (rewrite length_replicate; done).
  by apply lookup_replicate_2.
Qed.

Lemma lookup_shift_ge {A} k (col : list (option A)) i :
  (i + k < length col)%nat -> shift k col !! (i + k)%nat = col !! i.
Proof.
  intros Hn. unfold shift. rewrite lookup_take_lt by lia.
  rewrite lookup_app_r by (rewrite length_replicate; lia).
  rewrite length_replicate. f_equal. lia.
Qed.

Lemma length_add_features df : length (add_features df) = length df.
Proof.
  unfold add_features. rewrite length_map, !length_zip_with, !length_shift.
  rewrite length_map, length_seq. unfold rows. rewrite length_map. lia.
Qed.

Lemma lookup_add_features df i lbl r :
  df !! i = Some (lbl, r) ->
  add_features df !! i =
    Some (lbl, mkFeature r (Z.of_nat i)
                 (mjoin (shift 1 (map Close (rows df)) !! i))
                 (mjoin (shift 2 (map Close (rows df)) !! i))
                 (mjoin (shift 3 (map Close (rows df)) !! i))).
Proof.
  intros Hi. assert (Hlt : (i < length df)%nat) by (by eapply lookup_lt_Some).
  assert (Hs : forall k, is_Some (shift k (map Close (rows df)) !! i)).
  { intros k. apply lookup_lt_is_Some. rewrite length_shift.
    unfold rows. by rewrite !length_map. }
  destruct (Hs 1%nat) as [l1 H1], (Hs 2%nat) as [l2 H2], (Hs 3%nat) as [l3 H3].
  unfold add_features. rewrite lookup_map, !lookup_zip_with.
  rewrite Hi, H1, H2, H3, lookup_seq_lt by done. reflexivity.
Qed.

Lemma filter_all_false {A} (f : A -> bool) (l : list A) :
  Forall (fun x => f x = false) l -> List.filter f l = [].
Proof. induction 1 as [|x l Hx _ IH]; simpl; [done|]. by rewrite Hx. Qed.

Lemma filter_all_true {A} (f : A -> bool) (l : list A) :
  Forall (fun x => f x = true) l -> List.filter f l = l.
Proof. induction 1 as [|x l Hx _ IH]; simpl; [done|]. by rewrite Hx, IH. Qed.

Lemma lookup_close_column df i :
  map Close (rows df) !! i = Some (close_at df i) \/
  (map Close (rows df) !! i = None /\ close_at df i = None).
Proof.
  unfold close_at, rows. rewrite !lookup_map.
  destruct (df !! i) as [[lbl r]|]; simpl; auto.
Qed.

Lemma lag_column df k i :
  (k <= i < length df)%nat ->
  mjoin (shift k (map Close (rows df)) !! i) = close_at df (i - k).
Proof.
  intros Hlt. replace i with (i - k + k)%nat at 1 by lia.
  rewrite lookup_shift_ge by (unfold rows; rewrite !length_map; lia).
  destruct (lookup_close_column df (i - k)) as [-> | [-> ->]]; done.
Qed.

Lemma close_at_complete df i :
  Forall (fun p => price_complete (snd p) = true) df ->
  (i < length df)%nat -> is_Some (close_at df i).
Proof.
  intros Hc Hlt. unfold close_at.
  destruct (lookup_lt_is_Some_2 df i Hlt) as [[lbl r] Hi]. rewrite Hi. simpl.
  rewrite Forall_lookup in Hc. specialize (Hc _ _ Hi). simpl in Hc.
  unfold price_complete in Hc. destruct (Close r); [by eexists|].
  rewrite !andb_false_r in Hc; simpl in Hc.
  by destruct (notna (Open r) && notna (High r) && notna (Low r)).
Qed.

(** A row at position [j + 3] gets its three lags from the three rows
    before it. *)
Lemma lookup_add_features_late df j lbl r :
  df !! (j + 3)%nat = Some (lbl, r) ->
  add_features df !! (j + 3)%nat =
    Some (lbl, mkFeature r (Z.of_nat (j + 3)) (close_at df (j + 2))
                 (close_at df (j + 1)) (close_at df j)).
Proof.
  intros Hi. assert (Hlt : (j + 3 < length df)%nat) by (by eapply lookup_lt_Some).
  rewrite (lookup_add_features _ _ _ _ Hi).
  rewrite !lag_column by lia. repeat f_equal; lia.
Qed.

Lemma make_features_drop df :
  Forall (fun p => price_complete (snd p) = true) df ->
  make_features df = drop 3 (add_features df).
Proof.
  intros Hc. unfold make_features, dropna.
  rewrite <- (take_drop 3 (add_features df)) at 1.
  rewrite List.filter_app, filter_all_false, filter_all_true; [done| |].
  - apply Forall_lookup. intros j [lbl f] Hj. rewrite lookup_drop in Hj.
    replace (3 + j)%nat with (j + 3)%nat in Hj by lia.
    assert (Hlt : (j + 3 < length df)%nat).
    { rewrite <- length_add_features. by eapply lookup_lt_Some. }
    destruct (lookup_lt_is_Some_2 df _ Hlt) as [[lbl' r] Hi].
    rewrite (lookup_add_features_late _ _ _ _ Hi) in Hj. simplify_eq. simpl.
    unfold feature_complete. simpl.
    destruct (close_at_complete df (j + 2) Hc) as [? ->]; [lia|].
    destruct (close_at_complete df (j + 1) Hc) as [? ->]; [lia|].
    destruct (close_at_complete df j Hc) as [? ->]; [lia|].
    rewrite Forall_lookup in Hc. specialize (Hc _ _ Hi). simpl in Hc.
    by rewrite Hc.
  - apply Forall_lookup. intros i [lbl f] Hi.
    apply lookup_take_Some in Hi as [Hi Hlt].
    assert (Hlen : (i < length df)%nat).
    { rewrite <- length_add_features. by eapply lookup_lt_Some. }
    destruct (lookup_lt_is_Some_2 df _ Hlen) as [[lbl' r] Hr].
    rewrite (lookup_add_features _ _ _ _ Hr) in Hi. simplify_eq. simpl.
    unfold feature_complete. simpl.
    rewrite (lookup_shift_lt 3); [|lia|unfold rows; by rewrite !length_map].
    simpl. by rewrite andb_false_r.
Qed.

(** What make_features returns on a frame without missing values. *)
Lemma make_features_spec (df : DataFrame PriceRow) :
  Forall (fun p => price_complete (snd p) = true) df ->
  length (make_features df) = (length df - 3)%nat /\
  forall j lbl r,
    df !! (j + 3)%nat = Some (lbl, r) ->
    make_features df !! j =
      Some (lbl, mkFeature r (Z.of_nat (j + 3)) (close_at df (j + 2))
                   (close_at df (j + 1)) (close_at df j)) /\
    is_Some (close_at df (j + 2)) /\ is_Some (close_at df (j + 1)) /\
    is_Some (close_at df j).
Proof.
  intros Hc. rewrite (make_features_drop df Hc). split.
  - by rewrite length_drop, length_add_features.
  - intros j lbl r Hi.
    assert (Hlt : (j + 3 < length df)%nat) by (by eapply lookup_lt_Some).
    rewrite lookup_drop. replace (3 + j)%nat with (j + 3)%nat by lia.
    split; [by apply lookup_add_features_late|].
    repeat split; apply close_at_complete; (done || lia).
Qed.

(** ** Binary floating point *)

Lemma pow2_pos k : (0 < pow2 k)%Q.
Proof. apply Qpower_0_lt. reflexivity. Qed.

Lemma pow2_add a b : (pow2 (a + b) == pow2 a * pow2 b)%Q.
Proof. apply Qpower_plus. discriminate. Qed.

Lemma pow2_le a b : a <= b -> (pow2 a <= pow2 b)%Q.
Proof. intros H. apply Qpower_le_compat_l; [done|discriminate]. Qed.

Lemma pow2_lt a b : a < b -> (pow2 a < pow2 b)%Q.
Proof. intros H. apply Qpower_lt_compat_l; [done|reflexivity]. Qed.

Lemma pow2_lt_inv a b : (pow2 a < pow2 b)%Q -> a < b.
Proof. intros H. eapply Qpower_lt_compat_l_inv; [exact H|reflexivity]. Qed.

Lemma pow2_nonneg k : 0 <= k -> (pow2 k == inject_Z (2 ^ k))%Q.
Proof. intros H. unfold pow2. by rewrite Zpower_Qpower. Qed.

Lemma pow2_succ k : (pow2 (k + 1) == 2 * pow2 k)%Q.
Proof. rewrite pow2_add. change (pow2 1) with 2%Q. ring. Qed.

Lemma pow2_div x k : (x / pow2 k == x * pow2 (- k))%Q.
Proof.
  unfold Qdiv. apply Qmult_comp; [reflexivity|].
  unfold pow2. by rewrite Qpower_opp.
Qed.

Lemma pow2_cancel k : (pow2 (- k) * pow2 k == 1)%Q.
Proof. rewrite <- pow2_add. by replace (- k + k) with 0 by lia. Qed.

Lemma Zlog2_pow2 (a : Z) :
  0 < a -> (pow2 (Z.log2 a) <= inject_Z a)%Q /\ (inject_Z a < pow2 (Z.log2 a + 1))%Q.
Proof.
  intros Ha. destruct (Z.log2_spec a Ha) as [H1 H2].
  pose proof (Z.log2_nonneg a) as Hl.
  rewrite !pow2_nonneg by lia. rewrite <- Zle_Qle, <- Zlt_Qlt.
  split; [done|]. by replace (Z.log2 a + 1) with (Z.succ (Z.log2 a)) by lia.
Qed.

Lemma Qlog2_spec (x : Q) :
  (0 < x)%Q -> (pow2 (Qlog2 x) <= x)%Q /\ (x < pow2 (Qlog2 x + 1))%Q.
Proof.
  intros Hx. unfold Qlog2.
  set (d := Z.log2 (Qnum x) - Z.log2 (Z.pos (Qden x))).
  assert (Ha : 0 < Qnum x).
  { destruct x as [a b]. unfold Qlt in Hx. simpl in *. lia. }
  destruct (Zlog2_pow2 (Qnum x) Ha) as [Ha1 Ha2].
  destruct (Zlog2_pow2 (Z.pos (Qden x)) ltac:(lia)) as [Hb1 Hb2].
  set (A := inject_Z (Qnum x)) in *. set (B := inject_Z (Z.pos (Qden x))) in *.
  set (la := Z.log2 (Qnum x)) in *. set (lb := Z.log2 (Z.pos (Qden x))) in *.
  assert (HB : (0 < B)%Q) by (subst B; change 0%Q with (inject_Z 0); rewrite <- Zlt_Qlt; lia).
  assert (HxB : (x * B == A)%Q).
  { subst A B. destruct x as [a b]. unfold Qeq, Qmult, inject_Z. simpl. lia. }
  assert (Hup : (x < pow2 (d + 1))%Q).
  { apply (Qmult_lt_r _ _ B HB). rewrite HxB.
    eapply Qlt_le_trans; [exact Ha2|].
    replace (la + 1) with ((d + 1) + lb) by (subst d; lia).
    rewrite pow2_add. apply Qmult_le_l; [apply pow2_pos|done]. }
  assert (Hlo : (pow2 (d - 1) < x)%Q).
  { apply (Qmult_lt_r _ _ B HB). rewrite HxB.
    eapply Qlt_le_trans; [|exact Ha1].
    replace la with ((d - 1) + (lb + 1)) by (subst d; lia).
    rewrite pow2_add. apply Qmult_lt_l; [apply pow2_pos|done]. }
  destruct (Qle_bool (pow2 d) x) eqn:E.
  - apply Qle_bool_iff in E. done.
  - apply not_true_iff_false in E. rewrite Qle_bool_iff in E.
    replace (d - 1 + 1) with d by lia. split; [by apply Qlt_le_weak|].
    by apply Qnot_le_lt.
Qed.

Lemma Qlog2_unique (x : Q) (k : Z) :
  (pow2 k <= x)%Q -> (x < pow2 (k + 1))%Q -> Qlog2 x = k.
Proof.
  intros H1 H2.
  assert (Hx : (0 < x)%Q) by (eapply Qlt_le_trans; [apply pow2_pos|done]).
  destruct (Qlog2_spec x Hx) as [H3 H4].
  assert (k < Qlog2 x + 1).
  { apply pow2_lt_inv. eapply Qle_lt_trans; done. }
  assert (Qlog2 x < k + 1).
  { apply pow2_lt_inv. eapply Qle_lt_trans; done. }
  lia.
Qed.

Lemma Qlog2_mono (x y : Q) : (0 < x)%Q -> (x <= y)%Q -> Qlog2 x <= Qlog2 y.
Proof.
  intros Hx Hxy.
  assert (Hy : (0 < y)%Q) by (eapply Qlt_le_trans; done).
  destruct (Qlog2_spec x Hx) as [H1 _]. destruct (Qlog2_spec y Hy) as [_ H2].
  assert (Qlog2 x < Qlog2 y + 1); [|lia].
  apply pow2_lt_inv. eapply Qle_lt_trans; [exact H1|].
  eapply Qle_lt_trans; done.
Qed.

(** *** Rounding to the nearest integer *)

Lemma round_half_even_cases (x : Q) :
  round_half_even x = Qfloor x \/ round_half_even x = Qfloor x + 1.
Proof.
  unfold round_half_even. destruct (Qcompare _ _); [destruct (Z.even _)|..]; auto.
Qed.

Lemma round_half_even_Z (z : Z) : round_half_even (inject_Z z) = z.
Proof.
  unfold round_half_even. rewrite Qfloor_Z.
  replace (Qcompare (inject_Z z - inject_Z z) (1 # 2)) with Lt; [done|].
  symmetry. rewrite <- Qlt_alt. generalize (inject_Z z). intros q. lra.
Qed.

Lemma round_half_even_comp (x y : Q) :
  (x == y)%Q -> round_half_even x = round_half_even y.
Proof.
  intros E. unfold round_half_even.
  rewrite (Qfloor_comp _ _ E).
  replace (Qcompare (x - inject_Z (Qfloor y)) (1 # 2))
    with (Qcompare (y - inject_Z (Qfloor y)) (1 # 2)); [done|].
  apply Qcompare_comp; [by rewrite E|reflexivity].
Qed.

Lemma round_half_even_mono (x y : Q) :
  (x <= y)%Q -> round_half_even x <= round_half_even y.
Proof.
  intros Hxy. pose proof (Qfloor_resp_le x y Hxy) as Hf.
  destruct (Z.eq_dec (Qfloor x) (Qfloor y)) as [E|N].
  - unfold round_half_even. rewrite E.
    destruct (Qcompare (x - inject_Z (Qfloor y)) (1 # 2)) eqn:Ex;
    destruct (Qcompare (y - inject_Z (Qfloor y)) (1 # 2)) eqn:Ey;
    try (destruct (Z.even (Qfloor y)); lia); try lia; exfalso.
    + rewrite <- Qeq_alt in Ex. rewrite <- Qlt_alt in Ey. lra.
    + rewrite <- Qgt_alt in Ex. rewrite <- Qeq_alt in Ey. lra.
    + rewrite <- Qgt_alt in Ex. rewrite <- Qlt_alt in Ey. lra.
  - destruct (round_half_even_cases x) as [-> | ->].
    + destruct (round_half_even_cases y) as [-> | ->]; lia.
    + destruct (round_half_even_cases y) as [-> | ->]; lia.
Qed.

Lemma round_half_even_ge (x : Q) (z : Z) :
  (inject_Z z <= x)%Q -> z <= round_half_even x.
Proof.
  intros H. rewrite <- (round_half_even_Z z). by apply round_half_even_mono.
Qed.

Lemma round_half_even_le (x : Q) (z : Z) :
  (x <= inject_Z z)%Q -> round_half_even x <= z.
Proof.
  intros H. rewrite <- (round_half_even_Z z). by apply round_half_even_mono.
Qed.

(** *** Rounding to binary64 *)

Lemma Qlog2_comp (x y : Q) : (0 < x)%Q -> (x == y)%Q -> Qlog2 x = Qlog2 y.
Proof.
  intros Hx E. assert (Hy : (0 < y)%Q) by (by rewrite <- E).
  destruct (Qlog2_spec y Hy) as [H1 H2].
  apply Qlog2_unique; by rewrite E.
Qed.

Lemma round_float_pos (x : Q) :
  (0 < x)%Q ->
  (round_float x ==
     inject_Z (round_half_even (x / pow2 (Qlog2 x - 52))) * pow2 (Qlog2 x - 52))%Q.
Proof.
  intros Hx. unfold round_float.
  replace (Qcompare x 0) with Gt by (symmetry; by rewrite <- Qgt_alt).
  cbv zeta. apply Qred_correct.
Qed.

Lemma round_float_zero (x : Q) : (x == 0)%Q -> round_float x = 0%Q.
Proof.
  intros E. unfold round_float.
  by replace (Qcompare x 0) with Eq by (symmetry; by rewrite <- Qeq_alt).
Qed.

(** The significand of a positive number lies between 2^52 and 2^53. *)
Lemma significand_bounds (x : Q) :
  (0 < x)%Q ->
  (pow2 52 <= x / pow2 (Qlog2 x - 52))%Q /\
  (x / pow2 (Qlog2 x - 52) < pow2 53)%Q.
Proof.
  intros Hx. destruct (Qlog2_spec x Hx) as [H1 H2].
  set (l := Qlog2 x) in *. rewrite pow2_div.
  replace (- (l - 52)) with (52 - l) by lia.
  pose proof (pow2_pos (52 - l)) as Hp. split.
  - replace 52 with (l + (52 - l)) at 1 by lia. rewrite pow2_add.
    by apply Qmult_le_r.
  - replace 53 with ((l + 1) + (52 - l)) by lia. rewrite pow2_add.
    by apply Qmult_lt_r.
Qed.

Lemma rounded_significand_bounds (x : Q) :
  (0 < x)%Q ->
  2 ^ 52 <= round_half_even (x / pow2 (Qlog2 x - 52)) <= 2 ^ 53.
Proof.
  intros Hx. destruct (significand_bounds x Hx) as [H1 H2].
  rewrite (pow2_nonneg 52) in H1 by lia. rewrite (pow2_nonneg 53) in H2 by lia.
  split.
  - by apply round_half_even_ge.
  - apply round_half_even_le. by apply Qlt_le_weak.
Qed.

(** A rounded positive number stays in the binade of the number. *)
Lemma round_float_binade (x : Q) :
  (0 < x)%Q ->
  (pow2 (Qlog2 x) <= round_float x)%Q /\ (round_float x <= pow2 (Qlog2 x + 1))%Q.
Proof.
  intros Hx. rewrite (round_float_pos x Hx).
  destruct (rounded_significand_bounds x Hx) as [H1 H2].
  set (m := round_half_even _) in *. set (l := Qlog2 x).
  pose proof (pow2_pos (l - 52)) as Hp. split.
  - replace l with (52 + (l - 52)) at 1 by lia. rewrite pow2_add.
    apply Qmult_le_r; [done|]. rewrite pow2_nonneg by lia. by rewrite <- Zle_Qle.
  - replace (l + 1) with (53 + (l - 52)) by lia. rewrite pow2_add.
    apply Qmult_le_r; [done|]. rewrite pow2_nonneg by lia. by rewrite <- Zle_Qle.
Qed.

Lemma round_float_pos_lt (x : Q) : (0 < x)%Q -> (0 < round_float x)%Q.
Proof.
  intros Hx. destruct (round_float_binade x Hx) as [H _].
  eapply Qlt_le_trans; [apply pow2_pos|done].
Qed.

Lemma round_float_nonneg (x : Q) : (0 <= x)%Q -> (0 <= round_float x)%Q.
Proof.
  intros Hx. destruct (Qlt_le_dec 0 x) as [H|H].
  - apply Qlt_le_weak. by apply round_float_pos_lt.
  - rewrite round_float_zero; [done|]. by apply Qle_antisym.
Qed.

Lemma round_float_mono (x y : Q) :
  (0 <= x)%Q -> (x <= y)%Q -> (round_float x <= round_float y)%Q.
Proof.
  intros Hx Hxy. destruct (Qlt_le_dec 0 x) as [Hx0|Hx0].
  2: { rewrite (round_float_zero x) by (by apply Qle_antisym).
       apply round_float_nonneg. by eapply Qle_trans. }
  assert (Hy0 : (0 < y)%Q) by (by eapply Qlt_le_trans).
  pose proof (Qlog2_mono x y Hx0 Hxy) as Hl.
  destruct (Z.eq_dec (Qlog2 x) (Qlog2 y)) as [E|N].
  - rewrite (round_float_pos x Hx0), (round_float_pos y Hy0), E.
    pose proof (pow2_pos (Qlog2 y - 52)) as Hp.
    apply Qmult_le_r; [done|]. rewrite <- Zle_Qle.
    apply round_half_even_mono. unfold Qdiv. apply Qmult_le_r; [|done].
    by apply Qinv_lt_0_compat.
  - destruct (round_float_binade x Hx0) as [_ H1].
    destruct (round_float_binade y Hy0) as [H2 _].
    eapply Qle_trans; [exact H1|]. eapply Qle_trans; [|exact H2].
    apply pow2_le. lia.
Qed.

(** A number whose significand is an integer is a float. *)
Lemma round_float_exact (x : Q) (m : Z) :
  (0 < x)%Q -> (x / pow2 (Qlog2 x - 52) == inject_Z m)%Q ->
  (round_float x == x)%Q.
Proof.
  intros Hx Hm. rewrite (round_float_pos x Hx).
  rewrite (round_half_even_comp _ _ Hm), round_half_even_Z, <- Hm.
  field. apply Qnot_eq_sym, Qlt_not_eq, pow2_pos.
Qed.

Lemma round_float_pow2 (k : Z) : (round_float (pow2 k) == pow2 k)%Q.
Proof.
  assert (Hl : Qlog2 (pow2 k) = k).
  { apply Qlog2_unique; [apply Qle_refl|apply pow2_lt; lia]. }
  apply (round_float_exact _ (2 ^ 52)); [apply pow2_pos|].
  rewrite Hl, pow2_div, <- pow2_add, <- pow2_nonneg by lia.
  by replace (k + - (k - 52)) with 52 by lia.
Qed.

(** Integers below 2^53 are floats. *)
Lemma round_float_Z (z : Z) :
  0 <= z < 2 ^ 53 -> (round_float (inject_Z z) == inject_Z z)%Q.
Proof.
  intros [H0 H1]. destruct (Z.eq_dec z 0) as [->|N].
  { by rewrite round_float_zero. }
  assert (Hz : 0 < z) by lia.
  destruct (Zlog2_pow2 z Hz) as [Hl1 Hl2].
  assert (Hl : Qlog2 (inject_Z z) = Z.log2 z) by (by apply Qlog2_unique).
  assert (Hlt : Z.log2 z < 53) by (apply Z.log2_lt_pow2; lia).
  pose proof (Z.log2_nonneg z) as Hge.
  apply (round_float_exact _ (z * 2 ^ (52 - Z.log2 z))).
  { change 0%Q with (inject_Z 0). rewrite <- Zlt_Qlt. lia. }
  rewrite Hl, pow2_div, inject_Z_mult, <- pow2_nonneg by lia.
  by replace (- (Z.log2 z - 52)) with (52 - Z.log2 z) by lia.
Qed.

Lemma round_float_nat (n : nat) :
  Z.of_nat n < 2 ^ 53 ->
  (round_float (inject_Z (Z.of_nat n)) == inject_Z (Z.of_nat n))%Q.
Proof. intros H. apply round_float_Z. lia. Qed.

Lemma round_float_comp (x y : Q) :
  (0 <= x)%Q -> (x == y)%Q -> (round_float x == round_float y)%Q.
Proof.
  intros Hx E. assert (Hy : (0 <= y)%Q) by (by rewrite <- E).
  apply Qle_antisym; apply round_float_mono; try done; rewrite E; apply Qle_refl.
Qed.

Lemma round_float_one : (round_float 1 == 1)%Q.
Proof. exact (round_float_pow2 0). Qed.

Lemma round_float_half : (round_float (1 # 2) == 1 # 2)%Q.
Proof. exact (round_float_pow2 (-1)). Qed.

Lemma inject_nat_nonneg (n : nat) : (0 <= inject_Z (Z.of_nat n))%Q.
Proof. change 0%Q with (inject_Z 0). rewrite <- Zle_Qle. lia. Qed.

Lemma inject_nat_pos (n : nat) : (0 < n)%nat -> (0 < inject_Z (Z.of_nat n))%Q.
Proof. intros H. change 0%Q with (inject_Z 0). rewrite <- Zlt_Qlt. lia. Qed.

Lemma Qceiling_pos (x : Q) : (0 < x)%Q -> 1 <= Qceiling x.
Proof.
  intros Hx. pose proof (Qle_ceiling x) as H.
  assert (Hc : (0 < inject_Z (Qceiling x))%Q) by (by eapply Qlt_le_trans).
  change 0%Q with (inject_Z 0) in Hc. rewrite <- Zlt_Qlt in Hc. lia.
Qed.

Lemma Qceiling_le_Z (x : Q) (z : Z) : (x <= inject_Z z)%Q -> Qceiling x <= z.
Proof. intros H. rewrite <- (Qceiling_Z z). by apply Qceiling_resp_le. Qed.

Lemma Qceiling_ge_Z (x : Q) (z : Z) : (inject_Z z <= x)%Q -> z <= Qceiling x.
Proof. intros H. rewrite <- (Qceiling_Z z). by apply Qceiling_resp_le. Qed.

Lemma float_mul_nonneg (x y : Q) :
  (0 <= x)%Q -> (0 <= y)%Q -> (0 <= float_mul x y)%Q.
Proof.
  intros Hx Hy. apply round_float_nonneg.
  apply Qmult_le_0_compat; by apply round_float_nonneg.
Qed.

Lemma float_mul_pos (x y : Q) :
  (0 < x)%Q -> (0 < y)%Q -> (0 < float_mul x y)%Q.
Proof.
  intros Hx Hy. apply round_float_pos_lt.
  apply Qmult_lt_0_compat; by apply round_float_pos_lt.
Qed.

(** With no rows the test count is zero. *)
Lemma n_test_of_zero (t : Q) : n_test_of 0 t = 0.
Proof.
  unfold n_test_of, float_mul. change (inject_Z (Z.of_nat 0)) with 0%Q.
  rewrite (round_float_zero 0) by reflexivity.
  rewrite round_float_zero; [done|ring].
Qed.

Lemma n_test_of_nonneg (n : nat) (t : Q) : (0 <= t)%Q -> 0 <= n_test_of n t.
Proof.
  intros Ht. apply Qceiling_ge_Z.
  apply float_mul_nonneg; [done|apply inject_nat_nonneg].
Qed.

(** With a positive fraction and at least one row the test partition is
    never empty. *)
Lemma n_test_of_pos (n : nat) (t : Q) :
  (0 < t)%Q -> (0 < n)%nat -> 1 <= n_test_of n t.
Proof.
  intros Ht Hn. apply Qceiling_pos.
  apply float_mul_pos; [done|by apply inject_nat_pos].
Qed.

Lemma split_point_lt (n : nat) (t : Q) :
  (0 < t)%Q -> (0 < n)%nat -> split_point n t < Z.of_nat n.
Proof.
  intros Ht Hn. pose proof (n_test_of_pos n t Ht Hn). unfold split_point. lia.
Qed.

(** The product of a float in [0,1] by a row count below 2^53 is rounded
    to a value between the integers around the exact product. *)
Lemma float_product_bracket (n : nat) (t : Q) :
  (0 <= t)%Q -> (t <= 1)%Q -> (round_float t == t)%Q -> Z.of_nat n < 2 ^ 53 ->
  Qfloor (t * inject_Z (Z.of_nat n)) <= n_test_of n t
    <= Qceiling (t * inject_Z (Z.of_nat n)).
Proof.
  intros Ht Ht1 Hf Hn. unfold n_test_of, float_mul.
  pose proof (inject_nat_nonneg n) as Hn0.
  set (q := inject_Z (Z.of_nat n)) in *.
  assert (Hq : (round_float q == q)%Q) by (by apply round_float_nat).
  assert (Hx0 : (0 <= t * q)%Q) by (by apply Qmult_le_0_compat).
  assert (Hx : (round_float t * round_float q == t * q)%Q) by (by rewrite Hf, Hq).
  assert (Hxn : (t * q <= q)%Q).
  { rewrite <- (Qmult_1_l q) at 2. by apply Qmult_le_compat_r. }
  assert (Hx0' : (0 <= round_float t * round_float q)%Q) by (by rewrite Hx).
  rewrite (Qceiling_comp _ _ (round_float_comp _ _ Hx0' Hx)).
  assert (H0 : 0 <= Qfloor (t * q)).
  { rewrite <- (Qfloor_Z 0). by apply Qfloor_resp_le. }
  assert (H1 : Qceiling (t * q) <= Z.of_nat n) by (by apply Qceiling_le_Z).
  assert (H2 : Qfloor (t * q) <= Z.of_nat n).
  { rewrite <- (Qfloor_Z (Z.of_nat n)). by apply Qfloor_resp_le. }
  assert (H3 : 0 <= Qceiling (t * q)) by (by apply Qceiling_ge_Z).
  split.
  - apply Qceiling_ge_Z.
    rewrite <- (round_float_Z (Qfloor (t * q))) by lia.
    apply round_float_mono; [|apply Qfloor_le].
    change 0%Q with (inject_Z 0). by rewrite <- Zle_Qle.
  - apply Qceiling_le_Z.
    rewrite <- (round_float_Z (Qceiling (t * q))) by lia.
    apply round_float_mono; [done|apply Qle_ceiling].
Qed.

Lemma Qfloor_unique (z : Z) (x : Q) :
  (inject_Z z <= x)%Q -> (x < inject_Z (z + 1))%Q -> Qfloor x = z.
Proof.
  intros Hle Hlt.
  assert (H1 : z <= Qfloor x).
  { rewrite <- (Qfloor_Z z). by apply Qfloor_resp_le. }
  assert (H2 : Qfloor x < z + 1).
  { rewrite Zlt_Qlt. eapply Qle_lt_trans; [apply Qfloor_le|done]. }
  lia.
Qed.

Lemma split_point_ceiling (n : nat) (t : Q) :
  Z.of_nat n - Qceiling (t * inject_Z (Z.of_nat n)) = spec_split_point n t.
Proof.
  unfold spec_split_point, Qceiling. symmetry.
  set (x := (t * inject_Z (Z.of_nat n))%Q).
  pose proof (Qfloor_le (- x)) as Hle. pose proof (Qlt_floor (- x)) as Hlt.
  apply Qfloor_unique.
  - replace (Z.of_nat n - - Qfloor (- x)) with (Z.of_nat n + Qfloor (- x)) by lia.
    rewrite inject_Z_plus. subst x. lra.
  - replace (Z.of_nat n - - Qfloor (- x) + 1) with (Z.of_nat n + (Qfloor (- x) + 1)) by lia.
    rewrite inject_Z_plus. subst x. lra.
Qed.

Lemma Qfloor_ceiling (x : Q) : Qceiling x <= Qfloor x + 1.
Proof. apply Qceiling_le_Z. apply Qlt_le_weak, Qlt_floor. Qed.

(** For a float fraction and fewer than 2^53 rows, the training length
    the code computes is the split point of the specification or one
    more. *)
Lemma split_point_spec (n : nat) (t : Q) :
  (0 <= t)%Q -> (t <= 1)%Q -> (round_float t == t)%Q -> Z.of_nat n < 2 ^ 53 ->
  spec_split_point n t <= split_point n t <= spec_split_point n t + 1.
Proof.
  intros Ht Ht1 Hf Hn.
  destruct (float_product_bracket n t Ht Ht1 Hf Hn) as [H1 H2].
  pose proof (Qfloor_ceiling (t * inject_Z (Z.of_nat n))) as H3.
  unfold split_point. rewrite <- split_point_ceiling. lia.
Qed.

(** Up to one half, the fraction leaves a training row as soon as there
    are two rows, whatever their number. *)
Lemma n_test_of_half (n : nat) (t : Q) :
  (0 < t)%Q -> (t <= 1 # 2)%Q -> (2 <= n)%nat -> n_test_of n t <= Z.of_nat n - 1.
Proof.
  intros Ht Hh Hn. unfold n_test_of, float_mul.
  set (k := Z.log2_up (Z.of_nat n)).
  assert (Hk : 2 ^ (Z.pred k) < Z.of_nat n <= 2 ^ k).
  { subst k. apply Z.log2_up_spec. lia. }
  assert (Hk1 : 1 <= k).
  { pose proof (Z.log2_up_pos (Z.of_nat n)). lia. }
  replace (Z.pred k) with (k - 1) in Hk by lia.
  assert (Hrn : (round_float (inject_Z (Z.of_nat n)) <= pow2 k)%Q).
  { rewrite <- (round_float_pow2 k). apply round_float_mono; [apply inject_nat_nonneg|].
    rewrite pow2_nonneg by lia. rewrite <- Zle_Qle. lia. }
  assert (Hrt : (round_float t <= 1 # 2)%Q).
  { rewrite <- round_float_half. apply round_float_mono; [by apply Qlt_le_weak|done]. }
  assert (Hrt0 : (0 <= round_float t)%Q) by (apply round_float_nonneg; by apply Qlt_le_weak).
  assert (Hrn0 : (0 <= round_float (inject_Z (Z.of_nat n)))%Q)
    by (apply round_float_nonneg, inject_nat_nonneg).
  apply Qceiling_le_Z.
  apply Qle_trans with (pow2 (k - 1)).
  2: { rewrite pow2_nonneg by lia. rewrite <- Zle_Qle. lia. }
  rewrite <- (round_float_pow2 (k - 1)).
  apply round_float_mono; [by apply Qmult_le_0_compat|].
  apply Qle_trans with ((1 # 2) * pow2 k)%Q.
  - apply Qmult_le_compat_nonneg; split; done.
  - replace k with ((k - 1) + 1) at 1 by lia. rewrite pow2_succ.
    apply Qle_lteq. right. field.
Qed.

(** A single row leaves no training row. *)
Lemma n_test_of_one (t : Q) : (0 < t)%Q -> (t <= 1)%Q -> n_test_of 1 t = 1.
Proof.
  intros Ht Ht1. pose proof (n_test_of_pos 1 t Ht ltac:(lia)) as H.
  assert (n_test_of 1 t <= 1); [|lia].
  unfold n_test_of, float_mul. apply Qceiling_le_Z.
  change (inject_Z (Z.of_nat 1)) with 1%Q. change (inject_Z 1) with 1%Q.
  assert (Hrt : (round_float t <= 1)%Q).
  { rewrite <- round_float_one. apply round_float_mono; [by apply Qlt_le_weak|done]. }
  assert (Hrt0 : (0 <= round_float t)%Q)
    by (apply round_float_nonneg; by apply Qlt_le_weak).
  apply Qle_trans with (round_float 1); [|by rewrite round_float_one].
  apply round_float_mono.
  - apply Qmult_le_0_compat; [done|]. by rewrite round_float_one.
  - by rewrite round_float_one, Qmult_1_r.
Qed.

(** ** Split arithmetic *)

Lemma test_size_valid (t : Q) :
  (0 < t)%Q -> (t < 1)%Q -> Qle_bool t 0 || Qle_bool 1 t = false.
Proof.
  intros H0 H1. apply orb_false_intro; apply not_true_is_false;
    rewrite Qle_bool_iff; lra.
Qed.

Lemma validate_shuffle_split_eq (n : nat) (t : Q) :
  (0 < t)%Q -> (t < 1)%Q ->
  validate_shuffle_split n t =
    if split_point n t =? 0 then inl (ValueError EmptyTrainSet)
    else inr (split_point n t, n_test_of n t).
Proof.
  intros H0 H1. unfold validate_shuffle_split.
  by rewrite test_size_valid by done.
Qed.

Lemma slice_prefix {A} (k : Z) (xs : list A) :
  slice 0 k xs = take (Z.to_nat k) xs.
Proof. unfold slice. simpl. by rewrite Nat.sub_0_r. Qed.

Lemma slice_suffix {A} (k m : Z) (xs : list A) :
  k + m = Z.of_nat (length xs) ->
  slice k (k + m) xs = drop (Z.to_nat k) xs.
Proof.
  intros Hlen. unfold slice. apply take_ge. rewrite length_drop. lia.
Qed.

Lemma train_test_split_eq {A B} (X : list A) (y : list B) (t : Q) :
  length X = length y -> (0 < t)%Q -> (t < 1)%Q ->
  train_test_split X y t =
    let k := split_point (length X) t in
    if k =? 0 then inl (ValueError EmptyTrainSet)
    else inr (take (Z.to_nat k) X, drop (Z.to_nat k) X,
              take (Z.to_nat k) y, drop (Z.to_nat k) y).
Proof.
  intros Hlen H0 H1. unfold train_test_split.
  rewrite Hlen, Nat.eqb_refl. simpl.
  rewrite <- Hlen, validate_shuffle_split_eq by done. cbv zeta.
  destruct (split_point (length X) t =? 0); [done|]. simpl.
  rewrite !slice_prefix, !slice_suffix; [done|unfold split_point; lia..].
Qed.

(** ** Fitting and prediction *)

Lemma has_n_features_rect n (X : list (list Q)) :
  rect n X -> has_n_features n X = true.
Proof.
  intros HX. unfold has_n_features. apply forallb_forall. intros r Hr.
  apply Nat.eqb_eq. unfold rect in HX. rewrite Forall_forall in HX.
  apply HX. by apply list_elem_of_In.
Qed.

Lemma rect_values n (X : list (list (option Q))) :
  rect n X -> rect n (map values X).
Proof.
  unfold rect. intros HX. apply Forall_map. eapply Forall_impl; [done|].
  intros r Hr. simpl. unfold values. by rewrite length_map.
Qed.

Lemma n_features_rect {A} n (X : list (list A)) :
  rect n X -> X <> [] -> n_features X = n.
Proof. intros HX Hne. destruct X as [|r X]; [done|]. by inversion HX. Qed.

Lemma length_columns (X : list (list Q)) : length (columns X) = n_features X.
Proof. unfold columns. by rewrite length_map, length_seq. Qed.

Section Fitting.

Context {blob : Type} `{!Collaborators blob}.
Hypothesis lstsq_length : forall X y, length (lstsq X y) = n_features X.

Lemma length_scaler_mean (X : list (list Q)) :
  length (mean_ (StandardScaler_fit X)) = n_features X.
Proof. unfold StandardScaler_fit. simpl. by rewrite length_map, length_columns. Qed.

Lemma length_scaler_scale (X : list (list Q)) :
  length (scale_ (StandardScaler_fit X)) = n_features X.
Proof.
  unfold StandardScaler_fit. simpl. by rewrite !length_map, length_columns.
Qed.

Lemma length_scale_row sc (x : list Q) n :
  length (mean_ sc) = n -> length (scale_ sc) = n -> length x = n ->
  length (scale_row sc x) = n.
Proof.
  intros Hm Hs Hx. unfold scale_row.
  rewrite length_map, !length_combine. lia.
Qed.

Lemma rect_scaled sc n (X : list (list Q)) :
  length (mean_ sc) = n -> length (scale_ sc) = n -> rect n X ->
  rect n (map (scale_row sc) X).
Proof.
  intros Hm Hs HX. apply Forall_map. eapply Forall_impl; [exact HX|].
  intros r Hr. simpl. by apply length_scale_row.
Qed.

Lemma length_coef n (X : list (list Q)) (y : list Q) :
  rect n X -> X <> [] -> length (coef_ (LinearRegression_fit X y)) = n.
Proof.
  intros HX Hne. unfold LinearRegression_fit. simpl. rewrite lstsq_length.
  destruct X as [|r X]; [done|]. simpl.
  rewrite length_map, length_combine, length_map, length_columns. simpl.
  inversion HX; subst. lia.
Qed.

Lemma check_array_ok (X : list (list (option Q))) :
  X <> [] -> Forall (fun r => forallb notna r = true) X ->
  check_array X = inr (map values X).
Proof.
  intros Hne HX. destruct X as [|r X]; [done|]. unfold check_array.
  replace (forallb (forallb notna) (r :: X)) with true; [done|].
  symmetry. apply forallb_forall. intros x Hx.
  rewrite Forall_forall in HX. apply HX. by apply list_elem_of_In.
Qed.

Lemma all_finite_ok (y : list (option Q)) :
  Forall (fun c => notna c = true) y -> all_finite y = inr (values y).
Proof.
  intros Hy. unfold all_finite.
  replace (forallb notna y) with true; [done|].
  symmetry. apply forallb_forall. intros x Hx.
  rewrite Forall_forall in Hy. apply Hy. by apply list_elem_of_In.
Qed.

(** Fitting on a complete, rectangular, non-empty training matrix
    succeeds; the scaler is fitted on that matrix alone, and the fitted
    pipeline predicts one value per row of any complete non-empty matrix
    of the same width. *)
Lemma fit_then_predict n (Xtr Xte : list (list (option Q)))
    (ytr : list (option Q)) :
  Xtr <> [] -> Xte <> [] -> rect n Xtr -> rect n Xte ->
  Forall (fun r => forallb notna r = true) Xtr ->
  Forall (fun r => forallb notna r = true) Xte ->
  Forall (fun c => notna c = true) ytr ->
  exists lr pred,
    Pipeline_fit Xtr ytr
      = inr (PyPipeline (StandardScaler_fit (map values Xtr)) lr) /\
    predict (PyPipeline (StandardScaler_fit (map values Xtr)) lr) Xte
      = inr pred /\
    length pred = length Xte /\
    length (mean_ (StandardScaler_fit (map values Xtr))) = n /\
    length (scale_ (StandardScaler_fit (map values Xtr))) = n /\
    length (coef_ lr) = n.
Proof.
  intros Hne1 Hne2 Hr1 Hr2 Hc1 Hc2 Hy.
  set (sc := StandardScaler_fit (map values Xtr)).
  set (lr := LinearRegression_fit (map (scale_row sc) (map values Xtr)) (values ytr)).
  assert (Hv1 : rect n (map values Xtr)) by (by apply rect_values).
  assert (Hv1ne : map values Xtr <> []) by (by destruct Xtr).
  assert (Hm : length (mean_ sc) = n).
  { subst sc. rewrite length_scaler_mean. by apply n_features_rect. }
  assert (Hs : length (scale_ sc) = n).
  { subst sc. rewrite length_scaler_scale. by apply n_features_rect. }
  assert (Hco : length (coef_ lr) = n).
  { subst lr. apply length_coef; [by apply rect_scaled|].
    by destruct (map values Xtr). }
  exists lr, (map (linear_predict lr) (map (scale_row sc) (map values Xte))).
  split; [|split; [|split; [|done]]].
  - unfold Pipeline_fit. rewrite check_array_ok, all_finite_ok by done. done.
  - unfold predict, Pipeline_predict, result_bind.
    rewrite check_array_ok by done.
    rewrite Hm, has_n_features_rect by (by apply rect_values).
    cbn [negb]. cbv zeta. fold sc.
    rewrite Hco, has_n_features_rect; [done|].
    apply rect_scaled; [done..|by apply rect_values].
  - by rewrite !length_map.
Qed.

Lemma mean_absolute_error_ok (y : list (option Q)) (pred : list Q) :
  y <> [] -> length y = length pred ->
  Forall (fun c => notna c = true) y ->
  exists mae, mean_absolute_error y pred = inr mae.
Proof.
  intros Hne Hlen Hy. unfold mean_absolute_error.
  rewrite Hlen, Nat.eqb_refl, all_finite_ok by done. simpl.
  destruct y; [done|]. simpl. eauto.
Qed.

Lemma r2_score_ok (y : list (option Q)) (pred : list Q) :
  y <> [] -> length y = length pred ->
  Forall (fun c => notna c = true) y ->
  exists r2, r2_score y pred = inr r2.
Proof.
  intros Hne Hlen Hy. unfold r2_score.
  rewrite Hlen, Nat.eqb_refl, all_finite_ok by done. simpl.
  destruct y as [|a [|b y]]; [done|simpl; eauto|].
  unfold values. cbn [map]. cbv zeta.
  repeat match goal with |- context [if ?c then _ else _] => destruct c end;
    eauto.
Qed.

End Fitting.

(** ** Trainer *)

Lemma labels_select_X (df : DataFrame FeatureRow) :
  labels (select_X df) = labels df.
Proof. unfold labels, select_X. rewrite map_map. by apply map_ext. Qed.

Lemma rows_select_X (df : DataFrame FeatureRow) :
  rows (select_X df) = map feature_vector (rows df).
Proof. unfold rows, select_X. by rewrite !map_map. Qed.

Lemma take_select_X k (df : DataFrame FeatureRow) :
  take k (select_X df) = select_X (take k df).
Proof. unfold select_X. apply firstn_map. Qed.

Lemma drop_select_X k (df : DataFrame FeatureRow) :
  drop k (select_X df) = select_X (drop k df).
Proof. unfold select_X. apply skipn_map. Qed.

Lemma take_select_y k (df : DataFrame FeatureRow) :
  take k (select_y df) = select_y (take k df).
Proof. unfold select_y. apply firstn_map. Qed.

Lemma drop_select_y k (df : DataFrame FeatureRow) :
  drop k (select_y df) = select_y (drop k df).
Proof. unfold select_y. apply skipn_map. Qed.

Lemma rect_select_X (df : DataFrame FeatureRow) : rect 4 (rows (select_X df)).
Proof. rewrite rows_select_X. apply Forall_map. by apply Forall_true. Qed.

Lemma complete_select_X (df : DataFrame FeatureRow) :
  Forall (fun p => feature_complete (snd p) = true) df ->
  Forall (fun r => forallb notna r = true) (rows (select_X df)).
Proof.
  intros Hc. rewrite rows_select_X. unfold rows. rewrite map_map.
  apply Forall_map. eapply Forall_impl; [exact Hc|].
  intros [lbl r] Hr. simpl in *. unfold feature_complete in Hr.
  apply andb_prop in Hr as [Hr H3]. apply andb_prop in Hr as [Hr H2].
  apply andb_prop in Hr as [_ H1]. by rewrite H1, H2, H3.
Qed.

Lemma complete_select_y (df : DataFrame FeatureRow) :
  Forall (fun p => feature_complete (snd p) = true) df ->
  Forall (fun c => notna c = true) (select_y df).
Proof.
  intros Hc. unfold select_y. apply Forall_map.
  eapply Forall_impl; [exact Hc|].
  intros [lbl r] Hr. simpl in *. unfold feature_complete in Hr.
  apply andb_prop in Hr as [Hr _]. apply andb_prop in Hr as [Hr _].
  apply andb_prop in Hr as [Hr _]. unfold price_complete in Hr.
  apply andb_prop in Hr as [Hr _]. by apply andb_prop in Hr as [_ Hr].
Qed.

Section Training.

Context {blob : Type} `{!Collaborators blob}.

(** [train_model] step by step: every failure leaves the world as it
    was; success appends the metrics line to the log. *)
Lemma train_model_unfold (df : DataFrame FeatureRow) (t : Q) (w : world blob) :
  train_model df t w =
    match train_test_split (select_X df) (select_y df) t with
    | inl e => (inl e, w)
    | inr (X_train, X_test, y_train, y_test) =>
        match Pipeline_fit (rows X_train) y_train with
        | inl e => (inl e, w)
        | inr pipe =>
            match predict pipe (rows X_test) with
            | inl e => (inl e, w)
            | inr pred =>
                match mean_absolute_error y_test pred with
                | inl e => (inl e, w)
                | inr mae =>
                    match r2_score y_test pred with
                    | inl e => (inl e, w)
                    | inr r2 =>
                        (inr (mkTrainResult pipe (labels X_train)
                                (labels X_test) y_train y_test pred),
                         mkWorld (fs w)
                                 (log w ++ [Stdout (MsgMetrics mae r2)]))
                    end
                end
            end
        end
    end.
Proof.
  unfold train_model, mbind, M_bind, lift, mret, M_ret, emit.
  destruct (train_test_split _ _ _) as [e|[[[Xtr Xte] ytr] yte]]; [done|].
  destruct (Pipeline_fit _ _) as [e|pipe]; [done|].
  destruct (predict _ _) as [e|pred]; [done|].
  destruct (mean_absolute_error _ _) as [e|mae]; [done|].
  by destruct (r2_score _ _) as [e|r2].
Qed.

Lemma train_model_split (df : DataFrame FeatureRow) (t : Q) :
  (0 < t)%Q -> (t < 1)%Q ->
  train_test_split (select_X df) (select_y df) t =
    let k := split_point (length df) t in
    if k =? 0 then inl (ValueError EmptyTrainSet)
    else inr (select_X (take (Z.to_nat k) df), select_X (drop (Z.to_nat k) df),
              select_y (take (Z.to_nat k) df), select_y (drop (Z.to_nat k) df)).
Proof.
  intros H0 H1. rewrite train_test_split_eq; [|unfold select_X, select_y; by rewrite !length_map|done..].
  unfold select_X at 1. rewrite length_map. cbv zeta.
  by rewrite take_select_X, drop_select_X, take_select_y, drop_select_y.
Qed.

Hypothesis lstsq_length : forall X y, length (lstsq X y) = n_features X.

(** With complete rows and a non-empty training prefix the Trainer
    succeeds: the partitions are the prefix and the suffix at the split
    point, and the scaler is fitted on the prefix. *)
Lemma train_model_ok (df : DataFrame FeatureRow) (t : Q) (w : world blob) :
  Forall (fun p => feature_complete (snd p) = true) df ->
  (0 < t)%Q -> (t < 1)%Q -> 1 <= split_point (length df) t ->
  let k := Z.to_nat (split_point (length df) t) in
  exists lr pred mae r2,
    train_model df t w =
      (inr (mkTrainResult
              (PyPipeline
                 (StandardScaler_fit (map values (rows (select_X (take k df)))))
                 lr)
              (labels (take k df)) (labels (drop k df))
              (select_y (take k df)) (select_y (drop k df)) pred),
       mkWorld (fs w) (log w ++ [Stdout (MsgMetrics mae r2)])) /\
    length pred = length (drop k df) /\
    four_features
      (PyPipeline
         (StandardScaler_fit (map values (rows (select_X (take k df)))))
         lr) = true.
Proof.
  intros Hc H0 H1 Hk k.
  assert (Hn : (0 < length df)%nat).
  { pose proof (n_test_of_nonneg (length df) t (Qlt_le_weak _ _ H0)).
    unfold split_point in Hk. lia. }
  pose proof (split_point_lt (length df) t H0 Hn) as Hlt.
  assert (Htr : take k df <> []).
  { intros E. apply (f_equal length) in E. rewrite length_take in E.
    simpl in E. lia. }
  assert (Hte : drop k df <> []).
  { intros E. apply (f_equal length) in E. rewrite length_drop in E.
    simpl in E. lia. }
  assert (Hctr : Forall (fun p => feature_complete (snd p) = true) (take k df))
    by (by apply Forall_take).
  assert (Hcte : Forall (fun p => feature_complete (snd p) = true) (drop k df))
    by (by apply Forall_drop).
  destruct (fit_then_predict lstsq_length 4
              (rows (select_X (take k df))) (rows (select_X (drop k df)))
              (select_y (take k df)))
    as (lr & pred & Hfit & Hpred & Hlen & Hme & Hsc & Hco).
  { rewrite rows_select_X. unfold rows. destruct (take k df); done. }
  { rewrite rows_select_X. unfold rows. destruct (drop k df); done. }
  { apply rect_select_X. } { apply rect_select_X. }
  { by apply complete_select_X. } { by apply complete_select_X. }
  { by apply complete_select_y. }
  assert (Hlen' : length pred = length (drop k df)).
  { rewrite Hlen. unfold rows, select_X. by rewrite !length_map. }
  destruct (mean_absolute_error_ok (select_y (drop k df)) pred) as [mae Hmae].
  { unfold select_y. destruct (drop k df); done. }
  { unfold select_y. by rewrite length_map. }
  { by apply complete_select_y. }
  destruct (r2_score_ok (select_y (drop k df)) pred) as [r2 Hr2].
  { unfold select_y. destruct (drop k df); done. }
  { unfold select_y. by rewrite length_map. }
  { by apply complete_select_y. }
  exists lr, pred, mae, r2. split; [|split; [done|]].
  2: { unfold four_features. by rewrite Hme, Hsc, Hco. }
  rewrite train_model_unfold, train_model_split by done. cbv zeta.
  replace (split_point (length df) t =? 0) with false
    by (symmetry; apply Z.eqb_neq; lia).
  fold k. rewrite Hfit, Hpred, Hmae, Hr2. by rewrite !labels_select_X.
Qed.

End Training.

Lemma sorted_prefix_suffix (k : nat) (l : list Z) :
  StronglySorted Z.lt l ->
  forall a b, a ∈ take k l -> b ∈ drop k l -> a < b.
Proof.
  intros Hs a b Ha Hb. rewrite <- (take_drop k l) in Hs.
  by eapply (StronglySorted_app_1_elem_of Z.lt).
Qed.

Lemma take_dates k (df : DataFrame FeatureRow) :
  take k (dates df) = dates (take k df).
Proof. unfold dates. apply firstn_map. Qed.

Lemma drop_dates k (df : DataFrame FeatureRow) :
  drop k (dates df) = dates (drop k df).
Proof. unfold dates. apply skipn_map. Qed.

Lemma validate_shuffle_split_range (n : nat) (t : Q) (r : Z * Z) :
  validate_shuffle_split n t = inr r -> (0 < t)%Q /\ (t < 1)%Q.
Proof.
  unfold validate_shuffle_split.
  destruct (Qle_bool t 0) eqn:E0; [done|].
  destruct (Qle_bool 1 t) eqn:E1; [done|]. intros _.
  apply not_true_iff_false in E0, E1. rewrite Qle_bool_iff in E0, E1.
  split; lra.
Qed.

Lemma train_test_split_range {A B} (X : list A) (y : list B) (t : Q) r :
  train_test_split X y t = inr r -> (0 < t)%Q /\ (t < 1)%Q.
Proof.
  unfold train_test_split. destruct (negb _); [done|].
  destruct (validate_shuffle_split (length X) t) as [e|r'] eqn:E; [done|].
  intros _. by eapply validate_shuffle_split_range.
Qed.


(** ** What the Trainer does *)

Lemma columns_select_X (df : DataFrame FeatureRow) :
  df <> [] ->
  columns (map values (rows (select_X df))) = feature_columns df.
Proof.
  intros Hne. destruct df as [|[lbl r] df]; [done|].
  unfold columns, feature_columns, column, rows, select_X.
  rewrite !map_map. cbn [n_features map fst snd feature_vector values length seq].
  repeat f_equal; rewrite ?map_map; reflexivity.
Qed.

Lemma check_array_inv (X : list (list (option Q))) (Y : list (list Q)) :
  check_array X = inr Y ->
  X <> [] /\ Forall (fun r => forallb notna r = true) X /\ Y = map values X.
Proof.
  unfold check_array. destruct X as [|r X]; [done|].
  destruct (forallb (forallb notna) (r :: X)) eqn:E; [|done].
  intros [= <-]. split; [done|]. split; [|done].
  apply Forall_forall. intros x Hx. rewrite forallb_forall in E.
  apply E. by apply list_elem_of_In.
Qed.

Lemma check_array_error (X : list (list (option Q))) (e : exn) :
  check_array X = inl e ->
  e = ValueError NoSamples \/ e = ValueError InputContainsNaN.
Proof.
  unfold check_array. destruct X as [|r X]; [intros [= <-]; by left|].
  destruct (forallb _ _); [done|]. intros [= <-]. by right.
Qed.

Lemma all_finite_error (y : list (option Q)) (e : exn) :
  all_finite y = inl e -> e = ValueError InputContainsNaN.
Proof. unfold all_finite. destruct (forallb _ _); [done|]. by intros [= <-]. Qed.

Lemma Pipeline_predict_error sc lr (X : list (list (option Q))) (e : exn) :
  Pipeline_predict sc lr X = inl e -> e <> ValueError EmptyTrainSet.
Proof.
  unfold Pipeline_predict, result_bind.
  destruct (check_array X) as [e'|Y] eqn:E.
  - intros [= <-]. by destruct (check_array_error _ _ E) as [-> | ->].
  - destruct (negb _); [by intros [= <-]|]. cbv zeta.
    destruct (negb _); [by intros [= <-]|done].
Qed.

Lemma mean_absolute_error_error (y : list (option Q)) (pred : list Q) (e : exn) :
  mean_absolute_error y pred = inl e -> e <> ValueError EmptyTrainSet.
Proof.
  unfold mean_absolute_error, result_bind.
  destruct (negb _); [by intros [= <-]|].
  destruct (all_finite y) as [e'|v] eqn:E.
  - intros [= <-]. by rewrite (all_finite_error _ _ E).
  - destruct v; [by intros [= <-]|done].
Qed.

Lemma r2_score_error (y : list (option Q)) (pred : list Q) (e : exn) :
  r2_score y pred = inl e -> e <> ValueError EmptyTrainSet.
Proof.
  unfold r2_score, result_bind.
  destruct (negb _); [by intros [= <-]|].
  destruct (all_finite y) as [e'|v] eqn:E.
  - intros [= <-]. by rewrite (all_finite_error _ _ E).
  - destruct v as [|a [|b v]]; [by intros [= <-]|done|]. cbv zeta.
    repeat match goal with |- context [if ?c then _ else _] => destruct c end;
      done.
Qed.

Section Claims.

Context {blob : Type} `{!Collaborators blob}.

Lemma Pipeline_fit_inv (X : list (list (option Q))) (y : list (option Q))
    (o : pyobj) :
  Pipeline_fit X y = inr o ->
  X <> [] /\ Forall (fun r => forallb notna r = true) X /\
  Forall (fun c => notna c = true) y /\
  o = PyPipeline (StandardScaler_fit (map values X))
        (LinearRegression_fit
           (map (scale_row (StandardScaler_fit (map values X))) (map values X))
           (values y)).
Proof.
  unfold Pipeline_fit, result_bind.
  destruct (check_array X) as [e|Y] eqn:E; [done|].
  destruct (check_array_inv _ _ E) as (Hne & Hc & ->).
  unfold all_finite. destruct (forallb notna y) eqn:Ey; [|done].
  intros [= <-]. repeat split; try done.
  apply Forall_forall. intros x Hx. rewrite forallb_forall in Ey.
  apply Ey. by apply list_elem_of_In.
Qed.

Lemma Pipeline_fit_error (X : list (list (option Q))) (y : list (option Q))
    (e : exn) :
  Pipeline_fit X y = inl e -> e <> ValueError EmptyTrainSet.
Proof.
  unfold Pipeline_fit, result_bind.
  destruct (check_array X) as [e'|Y] eqn:E.
  - intros [= <-]. by destruct (check_array_error _ _ E) as [-> | ->].
  - destruct (all_finite y) as [e'|v] eqn:Ey; [|done].
    intros [= <-]. by rewrite (all_finite_error _ _ Ey).
Qed.

(** The scaler of a successfully fitted pipeline is the one fitted on
    the matrix handed to [fit]. *)
Lemma Pipeline_fit_scaler (X : list (list (option Q))) (y : list (option Q))
    (o : pyobj) :
  Pipeline_fit X y = inr o ->
  pipe_scaler o = Some (StandardScaler_fit (map values X)).
Proof. intros Hf. by destruct (Pipeline_fit_inv _ _ _ Hf) as (_ & _ & _ & ->). Qed.

(** What a successful run of the Trainer went through. *)
Lemma train_model_success (df : DataFrame FeatureRow) (t : Q)
    (w w' : world blob) (r : TrainResult) :
  train_model df t w = (inr r, w') ->
  let k := Z.to_nat (split_point (length df) t) in
  (0 < t)%Q /\ (t < 1)%Q /\
  1 <= split_point (length df) t < Z.of_nat (length df) /\
  tr_train_idx r = labels (take k df) /\
  tr_test_idx r = labels (drop k df) /\
  tr_y_train r = select_y (take k df) /\
  tr_y_test r = select_y (drop k df) /\
  Pipeline_fit (rows (select_X (take k df))) (select_y (take k df))
    = inr (tr_pipe r) /\
  predict (tr_pipe r) (rows (select_X (drop k df))) = inr (tr_pred r) /\
  exists mae r2,
    mean_absolute_error (select_y (drop k df)) (tr_pred r) = inr mae /\
    r2_score (select_y (drop k df)) (tr_pred r) = inr r2 /\
    w' = mkWorld (fs w) (log w ++ [Stdout (MsgMetrics mae r2)]).
Proof.
  intros Hrun k. rewrite train_model_unfold in Hrun.
  destruct (train_test_split _ _ _) as [e|[[[Xtr Xte] ytr] yte]] eqn:Es; [done|].
  destruct (train_test_split_range _ _ _ _ Es) as [H0 H1].
  rewrite train_model_split in Es by done. cbv zeta in Es.
  destruct (split_point (length df) t =? 0) eqn:Ek; [done|].
  apply Z.eqb_neq in Ek. fold k in Es. injection Es as <- <- <- <-.
  destruct (Pipeline_fit _ _) as [e|pipe] eqn:Ef; [done|].
  destruct (predict _ _) as [e|pred] eqn:Ep; [done|].
  destruct (mean_absolute_error _ _) as [e|mae] eqn:Em; [done|].
  destruct (r2_score _ _) as [e|r2] eqn:Er; [done|].
  injection Hrun as <- <-. cbn [tr_pipe tr_train_idx tr_test_idx tr_y_train
                                tr_y_test tr_pred].
  rewrite !labels_select_X.
  destruct (Pipeline_fit_inv _ _ _ Ef) as (Hne & _).
  assert (Hk : 1 <= split_point (length df) t).
  { destruct (Z_lt_le_dec (split_point (length df) t) 1) as [Hlt|]; [|done].
    exfalso. apply Hne. subst k.
    replace (Z.to_nat (split_point (length df) t)) with 0%nat by lia.
    reflexivity. }
  assert (Hn : (0 < length df)%nat).
  { pose proof (n_test_of_nonneg (length df) t (Qlt_le_weak _ _ H0)).
    unfold split_point in Hk. lia. }
  pose proof (split_point_lt (length df) t H0 Hn) as Hlt.
  repeat split; try done. by exists mae, r2.
Qed.

(** A successful training run fitted its scaler on the feature columns
    of the training prefix. *)
Lemma train_model_scaler (df : DataFrame FeatureRow) (t : Q) (w w' : world blob)
    (r : TrainResult) :
  train_model df t w = (inr r, w') ->
  pipe_scaler (tr_pipe r) =
    Some (StandardScaler_fit
            (map values
               (rows (select_X
                        (take (Z.to_nat (split_point (length df) t)) df))))).
Proof.
  intros Hrun.
  destruct (train_model_success _ _ _ _ _ Hrun)
    as (_ & _ & _ & _ & _ & _ & _ & Hf & _).
  by apply Pipeline_fit_scaler in Hf.
Qed.

Lemma train_model_empty_train (df : DataFrame FeatureRow) (t : Q) (w : world blob) :
  (0 < t)%Q -> (t < 1)%Q -> split_point (length df) t = 0 ->
  train_model df t w = (inl (ValueError EmptyTrainSet), w).
Proof.
  intros H0 H1 Hk.
  rewrite train_model_unfold, train_model_split by done. cbv zeta.
  by rewrite Hk.
Qed.

(** The error of the split check comes from the split check only. *)
Lemma train_model_empty_train_inv (df : DataFrame FeatureRow) (t : Q)
    (w w' : world blob) :
  (0 < t)%Q -> (t < 1)%Q ->
  train_model df t w = (inl (ValueError EmptyTrainSet), w') ->
  split_point (length df) t = 0.
Proof.
  intros H0 H1. rewrite train_model_unfold, train_model_split by done.
  cbv zeta. destruct (split_point (length df) t =? 0) eqn:Ek.
  { intros _. by apply Z.eqb_eq. }
  destruct (Pipeline_fit _ _) as [e|pipe] eqn:Ef.
  { intros [= ->]. by apply Pipeline_fit_error in Ef. }
  destruct (Pipeline_fit_inv _ _ _ Ef) as (_ & _ & _ & ->).
  destruct (predict _ _) as [e|pred] eqn:Ep.
  { intros [= ->]. by apply Pipeline_predict_error in Ep. }
  destruct (mean_absolute_error _ _) as [e|mae] eqn:Em.
  { intros [= ->]. by apply mean_absolute_error_error in Em. }
  destruct (r2_score _ _) as [e|r2] eqn:Er; [|done].
  intros [= ->]. by apply r2_score_error in Er.
Qed.

(** C2 (amended). For Feature Rows without missing values and a test
    fraction t in (0,1), let k = len - ceil(t * len), the product being
    the float product the code computes.  When k >= 1, train_model
    succeeds; the training partition is the prefix of length k, the test
    partition the remaining, non-empty suffix, in the input order, and
    with strictly increasing dates every training date precedes every
    test date.  When k = 0, train_model raises the ValueError of the
    split check.  For a float t and fewer than 2^53 rows, k is
    floor(len * (1 - t)) or one more. *)
Theorem train_model_partition (df : DataFrame FeatureRow) (t : Q) (w : world blob) :
  (forall X y, length (lstsq X y) = n_features X) ->
  Forall (fun p => feature_complete (snd p) = true) df ->
  (0 < t)%Q -> (t < 1)%Q ->
  let n := length df in
  let k := Z.to_nat (split_point n t) in
  (1 <= split_point n t ->
   exists r w',
     train_model df t w = (inr r, w') /\
     tr_train_idx r = labels (take k df) /\
     tr_test_idx r = labels (drop k df) /\
     tr_y_train r = select_y (take k df) /\
     tr_y_test r = select_y (drop k df) /\
     length (take k df) = k /\ drop k df <> [] /\
     take k df ++ drop k df = df /\
     (StronglySorted Z.lt (dates df) ->
      forall a b, a ∈ dates (take k df) -> b ∈ dates (drop k df) -> a < b)) /\
  (split_point n t = 0 ->
   train_model df t w = (inl (ValueError EmptyTrainSet), w)) /\
  (is_float t -> Z.of_nat n < 2 ^ 53 ->
   spec_split_point n t <= split_point n t <= spec_split_point n t + 1).
Proof.
  intros Hl Hc H0 H1 n k. split; [|split].
  - intros Hk.
    destruct (train_model_ok Hl df t w Hc H0 H1 Hk)
      as (lr & pred & mae & r2 & Hrun & _ & _).
    destruct (train_model_success _ _ _ _ _ Hrun) as (_ & _ & [_ Hlt] & _).
    eexists _, _. split; [exact Hrun|]. simpl. repeat split.
    + rewrite length_take. subst k n. lia.
    + intros E. apply (f_equal length) in E. rewrite length_drop in E.
      simpl in E. subst k n. lia.
    + apply take_drop.
    + intros Hs a b Ha Hb'. rewrite <- take_dates in Ha.
      rewrite <- drop_dates in Hb'. by eapply sorted_prefix_suffix.
  - intros Hk. by apply train_model_empty_train.
  - intros Hf Hn. apply split_point_spec; [by apply Qlt_le_weak..|done|done].
Qed.

(** C3. The standardization parameters of the fitted pipeline are those
    of the training partition, the prefix of the rows that train_model
    returns as training labels: per feature column, the mean is the
    average over the training rows, the variance the average squared
    deviation from it, and the scale its square root, the standard
    deviation (1 for a column that is constant up to rounding error).
    No test row enters: any other input of the same length with the same
    feature columns on the training prefix gets the same parameters,
    whatever its test rows hold. *)
Theorem scaler_from_training_partition (df : DataFrame FeatureRow) (t : Q)
    (w w' : world blob) (r : TrainResult) :
  train_model df t w = (inr r, w') ->
  let k := length (tr_train_idx r) in
  let cols := feature_columns (take k df) in
  Z.of_nat k = split_point (length df) t /\
  labels (take k df) = tr_train_idx r /\
  Forall (fun p => forallb notna (feature_vector (snd p)) = true) (take k df) /\
  (exists sc lr,
     tr_pipe r = PyPipeline sc lr /\
     mean_ sc = map average cols /\
     var_ sc = map mean_square_deviation cols /\
     scale_ sc =
       map (fun c =>
              if is_constant_feature (mean_square_deviation c) (average c) k
              then 1%Q else sqrtQ (mean_square_deviation c)) cols) /\
  forall (df' : DataFrame FeatureRow) (w1 w1' : world blob) (r' : TrainResult),
    length df' = length df ->
    select_X (take k df') = select_X (take k df) ->
    train_model df' t w1 = (inr r', w1') ->
    pipe_scaler (tr_pipe r') = pipe_scaler (tr_pipe r).
Proof.
  intros Hrun k cols.
  destruct (train_model_success _ _ _ _ _ Hrun)
    as (H0 & H1 & [Hk Hlt] & Htr & _ & _ & _ & Hf & _).
  set (k0 := Z.to_nat (split_point (length df) t)) in *.
  assert (Ek : k = k0).
  { subst k. rewrite Htr. unfold labels. rewrite length_map, length_take.
    subst k0. lia. }
  clearbody k. subst k.
  destruct (Pipeline_fit_inv _ _ _ Hf) as (Hne & Hc & _ & Hpipe).
  assert (Hne' : take k0 df <> []).
  { intros E. apply Hne. by rewrite E. }
  split; [subst k0; lia|]. split; [done|]. split.
  { rewrite rows_select_X in Hc. unfold rows in Hc. rewrite map_map in Hc.
    by apply Forall_map in Hc. }
  split.
  - eexists _, _. split; [exact Hpipe|].
    unfold StandardScaler_fit. cbn [mean_ var_ scale_].
    rewrite (columns_select_X _ Hne'). fold cols.
    replace (length (map values (rows (select_X (take k0 df))))) with k0.
    2: { unfold rows, select_X. rewrite !length_map, length_take.
         subst k0. lia. }
    done.
  - intros df' w1 w1' r' Hlen HX Hrun'.
    rewrite (train_model_scaler _ _ _ _ _ Hrun), (train_model_scaler _ _ _ _ _ Hrun').
    rewrite Hlen. fold k0. by rewrite HX.
Qed.

(** C4 (amended). For a test fraction in (0,1), train_model raises the
    ValueError of the split check of train_test_split (empty train set),
    with nothing fitted or printed and the world unchanged, exactly when
    len - ceil(t * len) = 0 for the float product the code computes.
    That is so with no rows; with rows the test partition is never
    empty.  For a float t and fewer than 2^53 rows it happens only where
    floor(len * (1 - t)) = 0, but not everywhere there. *)
Theorem train_model_insufficient (df : DataFrame FeatureRow) (t : Q)
    (w : world blob) :
  (0 < t)%Q -> (t < 1)%Q ->
  let n := length df in
  (split_point n t = 0 <->
   train_model df t w = (inl (ValueError EmptyTrainSet), w)) /\
  (n = 0%nat -> split_point n t = 0) /\
  ((0 < n)%nat -> 1 <= n_test_of n t) /\
  (is_float t -> Z.of_nat n < 2 ^ 53 ->
   split_point n t = 0 -> spec_split_point n t = 0).
Proof.
  intros H0 H1 n. split; [|split; [|split]].
  - split; [by apply train_model_empty_train|].
    by apply train_model_empty_train_inv.
  - intros Hn. unfold split_point. subst n. rewrite Hn, n_test_of_zero. done.
  - by apply n_test_of_pos.
  - intros Hf Hn Hk.
    pose proof (split_point_spec n t (Qlt_le_weak _ _ H0) (Qlt_le_weak _ _ H1)
                  Hf Hn) as [Hle _].
    assert (0 <= spec_split_point n t); [|lia].
    unfold spec_split_point. rewrite <- (Qfloor_Z 0). apply Qfloor_resp_le.
    apply Qmult_le_0_compat; [apply inject_nat_nonneg|lra].
Qed.

End Claims.

(** ** Path names *)

Lemma components_nonempty (p : string) : components p <> [].
Proof.
  destruct p as [|c p]; [done|]. simpl.
  destruct (Ascii.eqb c slash); [done|]. by destruct (components p).
Qed.

Lemma components_plain (s : string) : no_slash s = true -> components s = [s].
Proof.
  induction s as [|c s IH]; [done|]. simpl. intros H.
  apply andb_prop in H as [Hc Hs]. apply negb_true_iff in Hc.
  by rewrite Hc, IH.
Qed.

Lemma components_join (a b : string) :
  components (a +:+ "/" +:+ b) = components a ++ components b.
Proof.
  induction a as [|c a IH]; [done|].
  change (String c a +:+ "/" +:+ b) with (String c (a +:+ "/" +:+ b)).
  cbn [components]. rewrite IH. destruct (Ascii.eqb c slash); [done|].
  pose proof (components_nonempty a). by destruct (components a).
Qed.

Lemma is_absolute_no_slash (name : string) :
  no_slash name = true -> is_absolute name = false.
Proof.
  destruct name as [|c s]; [done|]. simpl. intros H.
  apply andb_prop in H as [H _]. by apply negb_true_iff in H.
Qed.

Lemma path_join_relative (d name : string) :
  no_slash name = true -> path_join d name = d +:+ "/" +:+ name.
Proof. intros Hn. unfold path_join. by rewrite is_absolute_no_slash. Qed.

Lemma is_absolute_join (d name : string) :
  is_absolute d = false -> d <> "" -> is_absolute (d +:+ "/" +:+ name) = false.
Proof. by destruct d. Qed.

Lemma names_entry_long (c : string) :
  (2 < String.length c)%nat -> names_entry c = true.
Proof.
  destruct c as [|a [|b [|d c]]]; simpl; try lia. intros _.
  unfold names_entry, stays. simpl.
  repeat match goal with
         | |- context [Ascii.eqb ?x ?y] => destruct (Ascii.eqb x y)
         end; done.
Qed.

Lemma lower_ascii_slash (c : Ascii.ascii) :
  Ascii.eqb (lower_ascii c) slash = Ascii.eqb c slash.
Proof.
  unfold lower_ascii.
  destruct (Nat.leb 65 (Ascii.nat_of_ascii c) && Nat.leb (Ascii.nat_of_ascii c) 90)%bool
    eqn:E; [|done].
  apply andb_prop in E as [E1 E2]. apply Nat.leb_le in E1, E2.
  destruct (Ascii.eqb c slash) eqn:Ec.
  - apply Ascii.eqb_eq in Ec. subst c. vm_compute in E1. lia.
  - apply Ascii.eqb_neq. intros E.
    apply (f_equal Ascii.nat_of_ascii) in E.
    rewrite Ascii.nat_ascii_embedding in E by lia.
    change (Ascii.nat_of_ascii slash) with 47%nat in E. lia.
Qed.

Lemma no_slash_lower_ascii_text (s : string) :
  no_slash (lower_ascii_text s) = no_slash s.
Proof.
  induction s as [|c s IH]; [done|]. simpl. by rewrite lower_ascii_slash, IH.
Qed.

Lemma no_slash_app (a b : string) :
  no_slash (a +:+ b) = no_slash a && no_slash b.
Proof.
  induction a as [|c a IH]; [done|].
  change (String c a +:+ b) with (String c (a +:+ b)).
  cbn [no_slash]. by rewrite IH, andb_assoc.
Qed.

Lemma length_app_string (a b : string) :
  String.length (a +:+ b) = (String.length a + String.length b)%nat.
Proof.
  induction a as [|c a IH]; [done|].
  change (String c a +:+ b) with (String c (a +:+ b)).
  cbn [String.length]. by rewrite IH.
Qed.

(** ** File system steps *)

Section FileSystem.

Context {blob : Type}.

Implicit Types (f : files blob) (w : world blob) (k cur : path).

Lemma step_names_entry cur (c : string) :
  names_entry c = true -> step cur c = cur ++ [c].
Proof.
  unfold names_entry, step. intros H. apply andb_prop in H as [H1 H2].
  apply negb_true_iff in H1, H2. by rewrite H1, H2.
Qed.

Lemma is_directory_cwd f : is_directory f (cwd f) = true.
Proof. unfold is_directory. by rewrite bool_decide_eq_true_2. Qed.

Lemma is_directory_start f (p : string) : is_directory f (start f p) = true.
Proof.
  unfold start. destruct (is_absolute p); [|apply is_directory_cwd].
  unfold is_directory. rewrite bool_decide_eq_true_2; [done|].
  apply prefix_nil.
Qed.

Lemma not_prefix_below (l rel : path) : rel <> [] -> ~ (l ++ rel) `prefix_of` l.
Proof.
  intros Hne Hp. apply prefix_length in Hp. rewrite length_app in Hp.
  destruct rel; [done|]. simpl in Hp. lia.
Qed.

(** Below the working directory, the directories are the entries that
    are directories. *)
Lemma is_directory_below f (rel : path) :
  rel <> [] ->
  is_directory f (cwd f ++ rel) =
    match entries f !! (cwd f ++ rel) with Some Dir => true | _ => false end.
Proof.
  intros Hne. unfold is_directory.
  rewrite bool_decide_eq_false_2; [done|]. by apply not_prefix_below.
Qed.

Lemma is_directory_put_ne f k k' (x : node blob) :
  k <> k' -> is_directory (put k x f) k' = is_directory f k'.
Proof.
  intros Hne. unfold is_directory, put. cbn [entries cwd].
  by rewrite lookup_insert_ne.
Qed.

Lemma is_directory_put_dir f k : is_directory (put k Dir f) k = true.
Proof.
  unfold is_directory, put. cbn [entries cwd]. rewrite lookup_insert_eq.
  apply orb_true_r.
Qed.

Lemma is_directory_put_mono f k k' (x : node blob) :
  is_directory f k = false ->
  is_directory f k' = true -> is_directory (put k x f) k' = true.
Proof.
  intros Hk Hk'. destruct (decide (k = k')) as [->|Hne]; [congruence|].
  by rewrite is_directory_put_ne.
Qed.

(** Resolution ends where the pieces lead. *)
Lemma walk_realpath f cur (cs : list string) k :
  walk f cur cs = inr k -> k = fold_left step cs cur.
Proof.
  revert cur. induction cs as [|c cs IH]; intros cur; simpl.
  - by intros [= ->].
  - destruct (is_directory f cur); [apply IH|done].
Qed.

Lemma resolve_realpath f (p : string) k :
  resolve f p = inr k -> k = realpath f p.
Proof.
  unfold resolve, realpath. destruct (String.eqb p ""); [done|].
  apply walk_realpath.
Qed.

Lemma walk_error f cur (cs : list string) (e : exn) :
  walk f cur cs = inl e -> e = FileNotFoundError \/ e = NotADirectoryError.
Proof.
  revert cur. induction cs as [|c cs IH]; intros cur; simpl; [done|].
  destruct (is_directory f cur); [apply IH|].
  intros [= <-]. unfold not_a_directory.
  destruct (entries f !! cur) as [[b|]|]; auto.
Qed.

Lemma resolve_error f (p : string) (e : exn) :
  resolve f p = inl e -> e = FileNotFoundError \/ e = NotADirectoryError.
Proof.
  unfold resolve. destruct (String.eqb p ""); [intros [= <-]; by left|].
  apply walk_error.
Qed.

(** A name of one piece resolves to that piece of the working
    directory. *)
Lemma resolve_plain f (c : string) :
  no_slash c = true -> names_entry c = true ->
  resolve f c = inr (cwd f ++ [c]).
Proof.
  intros Hs Hn. unfold resolve.
  assert (Hne : String.eqb c "" = false).
  { unfold names_entry, stays in Hn. apply andb_prop in Hn as [Hn _].
    apply negb_true_iff in Hn. by apply orb_false_elim in Hn as [Hn _]. }
  rewrite Hne, components_plain by done. unfold start.
  rewrite is_absolute_no_slash by done. simpl.
  by rewrite is_directory_cwd, step_names_entry.
Qed.

(** A file name joined to a directory name of one piece. *)
Lemma resolve_join f (d name : string) :
  no_slash d = true -> names_entry d = true ->
  no_slash name = true -> names_entry name = true ->
  resolve f (path_join d name) =
    if is_directory f (cwd f ++ [d]) then inr (cwd f ++ [d; name])
    else inl (not_a_directory f (cwd f ++ [d])).
Proof.
  intros Hd1 Hd2 Hn1 Hn2. rewrite path_join_relative by done.
  unfold resolve.
  assert (Hne : d <> "").
  { intros ->. done. }
  replace (String.eqb (d +:+ "/" +:+ name) "") with false by (by destruct d).
  rewrite components_join, !components_plain by done.
  unfold start. rewrite is_absolute_join by (done || by apply is_absolute_no_slash).
  simpl. rewrite is_directory_cwd, step_names_entry by done.
  destruct (is_directory f (cwd f ++ [d])); [|done].
  rewrite step_names_entry by done. by rewrite <- app_assoc.
Qed.

Lemma realpath_plain f (c : string) :
  no_slash c = true -> names_entry c = true -> realpath f c = cwd f ++ [c].
Proof.
  intros Hs Hn. symmetry. apply resolve_realpath. by apply resolve_plain.
Qed.

Lemma realpath_join f (d name : string) :
  no_slash d = true -> names_entry d = true ->
  no_slash name = true -> names_entry name = true ->
  realpath f (path_join d name) = cwd f ++ [d; name].
Proof.
  intros Hd1 Hd2 Hn1 Hn2. rewrite path_join_relative by done.
  unfold realpath.
  rewrite components_join, !components_plain by done.
  unfold start.
  rewrite is_absolute_join;
    [|by apply is_absolute_no_slash|intros ->; done].
  simpl. rewrite !step_names_entry by done. by rewrite <- app_assoc.
Qed.

(** The resolved path of a name depends on the working directory only. *)
Lemma realpath_cwd f f' (p : string) :
  cwd f' = cwd f -> realpath f' p = realpath f p.
Proof. intros E. unfold realpath, start. by rewrite E. Qed.

(** Looking a name up. *)
Lemma lookup_plain f (c : string) :
  no_slash c = true -> names_entry c = true ->
  f !! c = if is_directory f (cwd f ++ [c]) then Some Dir
           else entries f !! (cwd f ++ [c]).
Proof.
  intros Hs Hn. unfold lookup, files_lookup, stat. by rewrite resolve_plain.
Qed.

Lemma holds_file_plain f (c : string) :
  no_slash c = true -> names_entry c = true ->
  holds_file f c =
    match entries f !! (cwd f ++ [c]) with Some (File _) => true | _ => false end.
Proof.
  intros Hs Hn. unfold holds_file. rewrite lookup_plain by done.
  rewrite (is_directory_below f [c]) by done.
  by destruct (entries f !! (cwd f ++ [c])) as [[b|]|].
Qed.

(** *** Reading *)

Lemma read_file_lookup (p : string) (b : blob) w :
  fs w !! p = Some (File b) -> read_file p w = (inr b, w).
Proof.
  unfold lookup, files_lookup, stat, read_file.
  destruct (resolve (fs w) p) as [e|k]; [done|].
  destruct (is_directory (fs w) k); [done|]. by intros ->.
Qed.

Lemma read_file_dir (p : string) w :
  fs w !! p = Some Dir -> read_file p w = (inl IsADirectoryError, w).
Proof.
  unfold lookup, files_lookup, stat, read_file.
  destruct (resolve (fs w) p) as [e|k]; [done|].
  destruct (is_directory (fs w) k) eqn:E; [done|]. intros H.
  unfold is_directory in E. rewrite H in E. by rewrite orb_true_r in E.
Qed.

Lemma read_file_missing (p : string) w :
  fs w !! p = None ->
  exists e, read_file p w = (inl e, w) /\
            (e = FileNotFoundError \/ e = NotADirectoryError).
Proof.
  unfold lookup, files_lookup, stat, read_file.
  destruct (resolve (fs w) p) as [e|k] eqn:E.
  - intros _. exists e. split; [done|]. by eapply resolve_error.
  - destruct (is_directory (fs w) k); [done|]. intros ->.
    exists FileNotFoundError. auto.
Qed.

Lemma read_file_world (p : string) w : snd (read_file p w) = w.
Proof.
  unfold read_file. destruct (resolve (fs w) p) as [e|k]; [done|].
  destruct (is_directory (fs w) k); [done|].
  by destruct (entries (fs w) !! k) as [[b|]|].
Qed.

(** *** Making directories *)

Lemma ensure_dir_file f k (b : blob) (last : bool) :
  is_directory f k = false -> entries f !! k = Some (File b) ->
  ensure_dir f k last =
    (inl (if last then FileExistsError else NotADirectoryError), f).
Proof. intros Hd He. unfold ensure_dir. by rewrite Hd, He. Qed.

Lemma ensure_dir_dir f k (last : bool) :
  is_directory f k = true -> ensure_dir f k last = (inr tt, f).
Proof. intros Hd. unfold ensure_dir. by rewrite Hd. Qed.

Lemma ensure_dir_ok f k (last : bool) :
  (forall b, entries f !! k <> Some (File b)) ->
  ensure_dir f k last = (inr tt, with_dir f k).
Proof.
  intros Hn. unfold ensure_dir, with_dir.
  destruct (is_directory f k); [done|].
  destruct (entries f !! k) as [[b|]|] eqn:E; [by destruct (Hn b)|done..].
Qed.

Lemma is_directory_with_dir f k : is_directory (with_dir f k) k = true.
Proof.
  unfold with_dir. destruct (is_directory f k) eqn:E; [done|].
  apply is_directory_put_dir.
Qed.

Lemma cwd_with_dir f k : cwd (with_dir f k) = cwd f.
Proof. unfold with_dir. by destruct (is_directory f k). Qed.

Lemma entries_with_dir_ne f k k' :
  k <> k' -> entries (with_dir f k) !! k' = entries f !! k'.
Proof.
  intros Hne. unfold with_dir. destruct (is_directory f k); [done|].
  unfold put. cbn [entries]. by rewrite lookup_insert_ne.
Qed.

Lemma is_directory_with_dir_ne f k k' :
  k <> k' -> is_directory (with_dir f k) k' = is_directory f k'.
Proof.
  intros Hne. unfold with_dir. destruct (is_directory f k); [done|].
  by apply is_directory_put_ne.
Qed.

Lemma ensure_dir_cwd f k (last : bool) : cwd (snd (ensure_dir f k last)) = cwd f.
Proof.
  unfold ensure_dir. destruct (is_directory f k); [done|].
  by destruct (entries f !! k) as [[b|]|].
Qed.

Lemma ensure_dir_entries f k k' (last : bool) :
  k <> k' -> entries (snd (ensure_dir f k last)) !! k' = entries f !! k'.
Proof.
  intros Hne. unfold ensure_dir. destruct (is_directory f k); [done|].
  destruct (entries f !! k) as [[b|]|]; try done;
    unfold put; cbn [snd entries]; by rewrite lookup_insert_ne.
Qed.

Lemma mkdir_exist_ok_plain (name : string) w :
  no_slash name = true -> names_entry name = true ->
  mkdir_exist_ok name w =
    (fst (ensure_dir (fs w) (cwd (fs w) ++ [name]) true),
     mkWorld (snd (ensure_dir (fs w) (cwd (fs w) ++ [name]) true)) (log w)).
Proof.
  intros Hs Hn. unfold mkdir_exist_ok. rewrite resolve_plain by done.
  by destruct (ensure_dir _ _ _).
Qed.

Lemma parts_plain (name : string) :
  no_slash name = true -> names_entry name = true -> parts name = [name].
Proof.
  intros Hs Hn. unfold parts. rewrite components_plain by done. simpl.
  unfold names_entry in Hn. apply andb_prop in Hn as [Hn _]. by rewrite Hn.
Qed.

(** For a name of one piece the two ways of making a directory agree. *)
Lemma mkdir_parents_plain (name : string) w :
  no_slash name = true -> names_entry name = true ->
  mkdir_parents name w = mkdir_exist_ok name w.
Proof.
  intros Hs Hn. rewrite mkdir_exist_ok_plain by done.
  unfold mkdir_parents. rewrite parts_plain by done. unfold start.
  rewrite is_absolute_no_slash by done. cbn [mkdirs].
  rewrite ensure_dir_dir by apply is_directory_cwd.
  rewrite step_names_entry by done. by destruct (ensure_dir _ _ _).
Qed.

(** Where the name resolves to a regular file, nothing is made. *)
Lemma mkdirs_file f cur (cs : list string) k (b : blob) :
  walk f cur cs = inr k -> is_directory f k = false ->
  entries f !! k = Some (File b) ->
  mkdirs f cur (List.filter (fun c => negb (stays c)) cs)
    = (inl FileExistsError, f).
Proof.
  revert cur. induction cs as [|c cs IH]; intros cur; simpl.
  - intros [= ->] Hd He. by apply ensure_dir_file with b.
  - destruct (is_directory f cur) eqn:Ec; [|done]. intros Hw Hd He.
    destruct (stays c) eqn:Es; simpl.
    + unfold step in Hw. rewrite Es in Hw. by apply IH.
    + rewrite ensure_dir_dir by done. by apply IH.
Qed.

Lemma mkdir_parents_file (p : string) w :
  holds_file (fs w) p = true -> mkdir_parents p w = (inl FileExistsError, w).
Proof.
  unfold holds_file, lookup, files_lookup, stat, resolve, mkdir_parents, parts.
  destruct (String.eqb p ""); [done|].
  destruct (walk (fs w) (start (fs w) p) (components p)) as [e|k] eqn:E; [done|].
  destruct (is_directory (fs w) k) eqn:Ed; [done|].
  destruct (entries (fs w) !! k) as [[b|]|] eqn:Ee; [|done..]. intros _.
  rewrite (mkdirs_file _ _ _ _ _ E Ed Ee). by destruct w.
Qed.

(** *** Writing *)

Lemma write_file_world (p : string) (c : blob) w :
  cwd (fs (snd (write_file p c w))) = cwd (fs w) /\
  log (snd (write_file p c w)) = log w /\
  forall k, k <> realpath (fs w) p ->
    entries (fs (snd (write_file p c w))) !! k = entries (fs w) !! k.
Proof.
  unfold write_file. destruct (resolve (fs w) p) as [e|k0] eqn:E; [done|].
  destruct (is_directory (fs w) k0); [done|]. cbn [snd fs log put cwd entries].
  repeat split. intros k Hk. apply resolve_realpath in E. subst k0.
  by rewrite lookup_insert_ne.
Qed.

Lemma mkdir_exist_ok_world (name : string) w :
  cwd (fs (snd (mkdir_exist_ok name w))) = cwd (fs w) /\
  log (snd (mkdir_exist_ok name w)) = log w /\
  forall k, k <> realpath (fs w) name ->
    entries (fs (snd (mkdir_exist_ok name w))) !! k = entries (fs w) !! k.
Proof.
  unfold mkdir_exist_ok. destruct (resolve (fs w) name) as [e|k0] eqn:E; [done|].
  apply resolve_realpath in E. subst k0.
  destruct (ensure_dir (fs w) (realpath (fs w) name) true) as [r f] eqn:Ee.
  cbn [snd fs log].
  replace f with (snd (ensure_dir (fs w) (realpath (fs w) name) true))
    by (by rewrite Ee).
  split; [apply ensure_dir_cwd|]. split; [done|].
  intros k Hk. by apply ensure_dir_entries.
Qed.

End FileSystem.

(** ** Driver *)

Lemma dropna_complete {R} (complete : R -> bool) (df : DataFrame R) :
  Forall (fun p => complete (snd p) = true) (dropna complete df).
Proof.
  apply Forall_forall. intros p Hp. apply list_elem_of_In in Hp.
  unfold dropna in Hp. by apply List.filter_In in Hp as [_ Hp].
Qed.

Lemma close_at_drop (df : DataFrame PriceRow) (k i : nat) :
  close_at (drop k df) i = close_at df (k + i).
Proof. unfold close_at. by rewrite lookup_drop. Qed.

(** The one Feature Row of predict mode: built from the last four rows of
    the fetched window, with [Day] 3. *)
Lemma latest_feature_row (fetched : DataFrame PriceRow) :
  Forall (fun p => price_complete (snd p) = true) fetched ->
  (4 <= length fetched)%nat ->
  let n := length fetched in
  exists lbl r c1 c2 c3,
    fetched !! (n - 1)%nat = Some (lbl, r) /\
    close_at fetched (n - 2) = Some c1 /\
    close_at fetched (n - 3) = Some c2 /\
    close_at fetched (n - 4) = Some c3 /\
    tail 1 (make_features (tail 4 fetched)) =
      [(lbl, mkFeature r 3 (Some c1) (Some c2) (Some c3))].
Proof.
  intros Hc Hn n. unfold tail at 2. fold n.
  set (win := drop (n - 4) fetched).
  assert (Hwc : Forall (fun p => price_complete (snd p) = true) win)
    by (by apply Forall_drop).
  assert (Hwl : length win = 4%nat) by (subst win; rewrite length_drop; lia).
  destruct (lookup_lt_is_Some_2 win 3) as [[lbl r] Hw3]; [lia|].
  destruct (make_features_spec win Hwc) as [Hlen Hrow].
  destruct (Hrow 0%nat lbl r Hw3) as (H0 & [c1 E1] & [c2 E2] & [c3 E3]).
  rewrite E1, E2, E3 in H0. rewrite Hwl in Hlen.
  exists lbl, r, c1, c2, c3.
  repeat split.
  - subst win. rewrite lookup_drop in Hw3. rewrite <- Hw3. f_equal. lia.
  - subst win. rewrite close_at_drop in E1. rewrite <- E1. f_equal. lia.
  - subst win. rewrite close_at_drop in E2. rewrite <- E2. f_equal. lia.
  - subst win. rewrite close_at_drop in E3. rewrite <- E3. f_equal. lia.
  - destruct (make_features win) as [|x [|y l]]; simpl in Hlen; try lia.
    simpl in H0. by injection H0 as ->.
Qed.

Section Driver.

Context {blob : Type} `{!Collaborators blob}.

Lemma download_data_eq (tk period : string) (w : world blob) :
  download_data tk period w =
    (inr (dropna price_complete (reset_index (yf_download tk period))),
     mkWorld (fs w) (log w ++ [Fetch tk period])).
Proof. reflexivity. Qed.


Lemma joblib_load_file (p : string) (b : blob) (w : world blob) :
  fs w !! p = Some (File b) ->
  joblib_load p w =
    (match loads b with Some o => inr o | None => inl (load_failure b) end, w).
Proof.
  intros Hp. unfold joblib_load, mbind, M_bind.
  rewrite (read_file_lookup _ _ _ Hp). by destruct (loads b).
Qed.

Lemma joblib_load_world (p : string) (w : world blob) :
  snd (joblib_load p w) = w.
Proof.
  unfold joblib_load, mbind, M_bind.
  pose proof (read_file_world p w) as Hw.
  destruct (read_file p w) as [[e|b] w1]; simpl in Hw; subst w1; [done|].
  by destruct (loads b).
Qed.

Lemma joblib_load_error (p : string) (w : world blob) (e : exn) :
  fst (joblib_load p w) = inl e -> joblib_load p w = (inl e, w).
Proof.
  intros He. pose proof (joblib_load_world p w) as Hw.
  destruct (joblib_load p w) as [r w1]. simpl in *. by subst.
Qed.

Lemma joblib_load_missing (p : string) (w : world blob) :
  fs w !! p = None ->
  exists e, joblib_load p w = (inl e, w) /\
            (e = FileNotFoundError \/ e = NotADirectoryError).
Proof.
  intros Hp. destruct (read_file_missing _ _ Hp) as (e & Hr & He).
  exists e. split; [|done]. unfold joblib_load, mbind, M_bind. by rewrite Hr.
Qed.

Lemma joblib_load_dir (p : string) (w : world blob) :
  fs w !! p = Some Dir -> joblib_load p w = (inl IsADirectoryError, w).
Proof.
  intros Hp. unfold joblib_load, mbind, M_bind.
  by rewrite (read_file_dir _ _ Hp).
Qed.

(** Predict mode, once the arguments are accepted. *)
Lemma main_predict_eq (cl : CommandLine) (tk p : string) (w : world blob) :
  cl_ticker cl = Some tk -> cl_predict cl = true ->
  cl_model_path cl = Some p -> p <> "" ->
  main cl w =
    match joblib_load p w with
    | (inl e, w1) => (inl e, w1)
    | (inr pipe, w1) =>
        let fetched :=
          dropna price_complete (reset_index (yf_download tk "10d")) in
        let w2 := mkWorld (fs w1) (log w1 ++ [Fetch tk "10d"]) in
        match predict pipe
                (rows (select_X (tail 1 (make_features (tail 4 fetched)))))
        with
        | inl e => (inl e, w2)
        | inr [] => (inl IndexError, w2)
        | inr (v :: _) =>
            (inr tt, mkWorld (fs w2) (log w2 ++ [Stdout (MsgForecast tk v)]))
        end
    end.
Proof.
  intros Ht Hp Hm Hne.
  unfold main, parse_args, mbind, M_bind, mret, M_ret. rewrite Ht, Hp, Hm.
  cbn [predict_flag model_path ticker model_path_missing default].
  replace (String.eqb p "") with false
    by (symmetry; by apply String.eqb_neq).
  change (id p) with p.
  destruct (joblib_load p w) as [[e|pipe] w1]; [done|].
  rewrite download_data_eq. unfold lift, raise, emit. cbv zeta.
  destruct (predict pipe _) as [e|[|v l]]; done.
Qed.

(** Train mode up to the Trainer: one fetch, then [train_model]. *)
Lemma main_train_fails (cl : CommandLine) (tk : string) (w : world blob) (e : exn) :
  cl_ticker cl = Some tk -> cl_predict cl = false ->
  let per := default "5y" (cl_period cl) in
  let w1 := mkWorld (fs w) (log w ++ [Fetch tk per]) in
  let raw := dropna price_complete (reset_index (yf_download tk per)) in
  train_model (make_features raw) (default (2 # 10)%Q (cl_test_size cl)) w1
    = (inl e, w1) ->
  main cl w = (inl e, w1).
Proof.
  intros Ht Hp per w1 raw Htr.
  unfold main, parse_args, mbind, M_bind, mret, M_ret. rewrite Ht, Hp.
  cbn [predict_flag ticker period test_size].
  rewrite download_data_eq. fold per raw w1. by rewrite Htr.
Qed.

End Driver.

(** C1. On a frame of N rows without missing values, make_features returns
    N - 3 rows (none when N <= 3); its row number j is the input row at
    position j + 3, with Day = j + 3 and with Close_lag1, Close_lag2 and
    Close_lag3 equal to the close prices at positions j + 2, j + 1 and j. *)
Theorem make_features_rows (df : DataFrame PriceRow) :
  Forall (fun p => price_complete (snd p) = true) df ->
  length (make_features df) = (length df - 3)%nat /\
  forall j lbl r,
    df !! (j + 3)%nat = Some (lbl, r) ->
    exists c1 c2 c3,
      close_at df (j + 2) = Some c1 /\ close_at df (j + 1) = Some c2 /\
      close_at df j = Some c3 /\
      make_features df !! j =
        Some (lbl, mkFeature r (Z.of_nat (j + 3)) (Some c1) (Some c2) (Some c3)).
Proof.
  intros Hc. destruct (make_features_spec df Hc) as [Hlen Hrow].
  split; [done|]. intros j lbl r Hi.
  destruct (Hrow j lbl r Hi) as (Hj & [c1 E1] & [c2 E2] & [c3 E3]).
  exists c1, c2, c3. by rewrite Hj, E1, E2, E3.
Qed.

(** ** Predict mode *)

Lemma Pipeline_predict_four (sc : StandardScaler) (lr : LinearRegression)
    (d c1 c2 c3 : Q) :
  four_features (PyPipeline sc lr) = true ->
  Pipeline_predict sc lr [[Some d; Some c1; Some c2; Some c3]]
    = inr [(dot (scale_row sc [d; c1; c2; c3]) (coef_ lr) + intercept_ lr)%Q].
Proof.
  intros Hshape. simpl in Hshape.
  apply andb_prop in Hshape as [Hshape Hco].
  apply andb_prop in Hshape as [Hme Hsc].
  apply Nat.eqb_eq in Hme, Hsc, Hco.
  unfold Pipeline_predict, result_bind. simpl check_array.
  rewrite Hme, Hco.
  cbn [has_n_features forallb map values length Nat.eqb negb andb default].
  rewrite (length_scale_row sc _ 4) by done. reflexivity.
Qed.

Lemma Pipeline_predict_width (sc : StandardScaler) (lr : LinearRegression)
    (d c1 c2 c3 : Q) :
  length (mean_ sc) <> 4%nat ->
  Pipeline_predict sc lr [[Some d; Some c1; Some c2; Some c3]]
    = inl (ValueError FeatureCountMismatch).
Proof.
  intros Hme. unfold Pipeline_predict, result_bind. simpl check_array.
  cbn [has_n_features forallb map values length andb default].
  replace (Nat.eqb 4 (length (mean_ sc))) with false; [done|].
  symmetry. apply Nat.eqb_neq. congruence.
Qed.

Section PredictMode.

Context {blob : Type} `{!Collaborators blob}.

(** Predict mode with a model file that loads: the one Feature Row and
    what the run does with it. *)
Lemma main_predict_row (cl : CommandLine) (tk p : string) (b : blob)
    (o : pyobj) (w : world blob) :
  cl_ticker cl = Some tk -> cl_predict cl = true ->
  cl_model_path cl = Some p -> p <> "" ->
  fs w !! p = Some (File b) -> loads b = Some o ->
  let fetched := dropna price_complete (reset_index (yf_download tk "10d")) in
  let n := length fetched in
  let w1 := mkWorld (fs w) (log w ++ [Fetch tk "10d"]) in
  (4 <= n)%nat ->
  exists lbl r c1 c2 c3,
    fetched !! (n - 1)%nat = Some (lbl, r) /\
    close_at fetched (n - 2) = Some c1 /\
    close_at fetched (n - 3) = Some c2 /\
    close_at fetched (n - 4) = Some c3 /\
    tail 1 (make_features (tail 4 fetched))
      = [(lbl, mkFeature r 3 (Some c1) (Some c2) (Some c3))] /\
    main cl w =
      match predict o [[Some 3%Q; Some c1; Some c2; Some c3]] with
      | inl e => (inl e, w1)
      | inr [] => (inl IndexError, w1)
      | inr (v :: _) =>
          (inr tt, mkWorld (fs w) (log w1 ++ [Stdout (MsgForecast tk v)]))
      end.
Proof.
  intros Ht Hp Hm Hne Hfile Hload fetched n w1 Hlen.
  destruct (latest_feature_row fetched (dropna_complete _ _) Hlen)
    as (lbl & r & c1 & c2 & c3 & Hlast & H1 & H2 & H3 & Hrow).
  exists lbl, r, c1, c2, c3. repeat (split; [done|]).
  rewrite (main_predict_eq cl tk p w) by done.
  rewrite (joblib_load_file _ _ _ Hfile), Hload. cbv zeta. fold fetched.
  rewrite Hrow. unfold rows, select_X. cbn [map fst snd feature_vector Day
    Close_lag1 Close_lag2 Close_lag3].
  change (inject_Z 3) with 3%Q. fold w1.
  by destruct (predict o _) as [e|[|v l]].
Qed.

(** A failure to load ends predict mode there. *)
Lemma main_predict_load_error (cl : CommandLine) (tk p : string) (e : exn)
    (w : world blob) :
  cl_ticker cl = Some tk -> cl_predict cl = true ->
  cl_model_path cl = Some p -> p <> "" ->
  fst (joblib_load p w) = inl e ->
  main cl w = (inl e, w).
Proof.
  intros Ht Hp Hm Hne He.
  rewrite (main_predict_eq cl tk p w) by done.
  by rewrite (joblib_load_error _ _ _ He).
Qed.

(** Once the model is loaded, predict mode makes its request. *)
Lemma main_predict_fetches (cl : CommandLine) (tk p : string) (o : pyobj)
    (w : world blob) :
  cl_ticker cl = Some tk -> cl_predict cl = true ->
  cl_model_path cl = Some p -> p <> "" ->
  joblib_load p w = (inr o, w) ->
  exists rest, log (snd (main cl w)) = log w ++ Fetch tk "10d" :: rest.
Proof.
  intros Ht Hp Hm Hne Hl. rewrite (main_predict_eq cl tk p w) by done.
  rewrite Hl. cbv zeta.
  destruct (predict o _) as [e|[|v l]]; cbn [snd log fs].
  - by exists [].
  - by exists [].
  - eexists. by rewrite <- app_assoc.
Qed.

End PredictMode.
Section DriverClaims.

Context {blob : Type} `{!Collaborators blob}.

(** C5 (amended). When the provider returns no rows, download_data
    returns the empty table without raising; in train mode, with a test
    fraction in (0,1), the run then fails in train_model with the error
    of the split check, after exactly one request to the provider and
    with nothing printed, saved or plotted. *)
Theorem empty_fetch_fails_in_split (cl : CommandLine) (tk : string)
    (w : world blob) :
  cl_ticker cl = Some tk -> cl_predict cl = false ->
  let per := default "5y" (cl_period cl) in
  let t := default (2 # 10)%Q (cl_test_size cl) in
  let w1 := mkWorld (fs w) (log w ++ [Fetch tk per]) in
  (0 < t)%Q -> (t < 1)%Q -> yf_download tk per = [] ->
  download_data tk per w = (inr [], w1) /\
  train_model (make_features []) t w1 = (inl (ValueError EmptyTrainSet), w1) /\
  main cl w = (inl (ValueError EmptyTrainSet), w1).
Proof.
  intros Ht Hp per t w1 H0 H1 Hempty.
  assert (Htr : train_model (make_features []) t w1
                = (inl (ValueError EmptyTrainSet), w1)).
  { apply train_model_empty_train; [done..|].
    change (length (make_features [])) with 0%nat.
    unfold split_point. by rewrite n_test_of_zero. }
  split; [|split; [done|]].
  - rewrite download_data_eq, Hempty. reflexivity.
  - apply main_train_fails; [done..|]. fold per. rewrite Hempty. exact Htr.
Qed.

(** C6 (amended). In predict mode the run ends at joblib.load, before
    any request to the provider, with the error of the load: when the
    model path does not exist (FileNotFoundError, or NotADirectoryError
    when a piece of it is a regular file), when it is a directory, and
    when the content cannot be deserialized (the error of the
    deserializer).  Every other content is returned as the object it
    deserializes to, whatever its shape, and the run goes on to its
    request: a pipeline over other than four features fails only when
    predict is called on it, with ValueError, an object without a predict
    method with AttributeError. *)
Theorem joblib_load_cases (cl : CommandLine) (tk p : string) (w : world blob) :
  cl_ticker cl = Some tk -> cl_predict cl = true ->
  cl_model_path cl = Some p -> p <> "" ->
  let fetched := dropna price_complete (reset_index (yf_download tk "10d")) in
  let w1 := mkWorld (fs w) (log w ++ [Fetch tk "10d"]) in
  (fs w !! p = None ->
   exists e, main cl w = (inl e, w) /\
             (e = FileNotFoundError \/ e = NotADirectoryError)) /\
  (fs w !! p = Some Dir -> main cl w = (inl IsADirectoryError, w)) /\
  (forall b, fs w !! p = Some (File b) -> loads b = None ->
             main cl w = (inl (load_failure b), w)) /\
  (forall b o,
     fs w !! p = Some (File b) -> loads b = Some o ->
     joblib_load p w = (inr o, w) /\
     (exists rest, log (snd (main cl w)) = log w ++ Fetch tk "10d" :: rest) /\
     (forall sc lr,
        o = PyPipeline sc lr -> length (mean_ sc) <> 4%nat ->
        (4 <= length fetched)%nat ->
        main cl w = (inl (ValueError FeatureCountMismatch), w1)) /\
     (forall s, o = PyOther s -> main cl w = (inl AttributeError, w1))).
Proof.
  intros Ht Hp Hm Hne fetched w1. split; [|split; [|split]].
  - intros Hnone. destruct (joblib_load_missing _ _ Hnone) as (e & Hl & He).
    exists e. split; [|done].
    apply (main_predict_load_error cl tk p); [done..|]. by rewrite Hl.
  - intros Hdir. apply (main_predict_load_error cl tk p); [done..|].
    by rewrite (joblib_load_dir _ _ Hdir).
  - intros b Hfile Hload. apply (main_predict_load_error cl tk p); [done..|].
    by rewrite (joblib_load_file _ _ _ Hfile), Hload.
  - intros b o Hfile Hload.
    assert (Hl : joblib_load p w = (inr o, w)).
    { by rewrite (joblib_load_file _ _ _ Hfile), Hload. }
    split; [done|]. split; [by apply (main_predict_fetches cl tk p o)|]. split.
    + intros sc lr -> Hw Hlen.
      destruct (main_predict_row cl tk p b _ w Ht Hp Hm Hne Hfile Hload Hlen)
        as (lbl & r & c1 & c2 & c3 & _ & _ & _ & _ & _ & Hmain).
      rewrite Hmain. cbn [predict]. by rewrite Pipeline_predict_width.
    + intros s ->. rewrite (main_predict_eq cl tk p w) by done.
      by rewrite Hl.
Qed.

(** C7. With --predict and no --model_path (absent or empty) the run
    ends with a usage error on standard error and exit status 2; the log
    gains nothing else, so no request to the provider is made, and the
    file system is untouched. *)
Theorem predict_requires_model_path (cl : CommandLine) (w : world blob) :
  cl_predict cl = true ->
  model_path_missing (cl_model_path cl) = true ->
  exists msg,
    main cl w = (inl (SystemExit 2), mkWorld (fs w) (log w ++ [Stderr msg])).
Proof.
  intros Hp Hm. unfold main, parse_args, mbind, M_bind, mret, M_ret.
  destruct (cl_ticker cl) as [tk|]; [|by eexists].
  rewrite Hp. cbn [predict_flag model_path]. rewrite Hm. by eexists.
Qed.

(** C8 (amended). In predict mode with a model file that loads, a
    fetched window of at least 4 rows yields exactly one Feature Row: that
    of the most recent row, with Day 3 and, as lags, the closes of the
    three rows before it.  The loaded object's predict is called on that
    one row; when it returns, the run prints exactly one forecast, the
    first value returned, after its one request.  For a pipeline over
    exactly four features that value is the linear model applied to the
    scaled row; for a pipeline over another number of features nothing is
    printed and the run ends in ValueError. *)
Theorem predict_mode_one_forecast (cl : CommandLine) (tk p : string)
    (b : blob) (o : pyobj) (w : world blob) :
  cl_ticker cl = Some tk -> cl_predict cl = true ->
  cl_model_path cl = Some p -> p <> "" ->
  fs w !! p = Some (File b) -> loads b = Some o ->
  let fetched := dropna price_complete (reset_index (yf_download tk "10d")) in
  let n := length fetched in
  let w1 := mkWorld (fs w) (log w ++ [Fetch tk "10d"]) in
  (4 <= n)%nat ->
  exists lbl r c1 c2 c3,
    fetched !! (n - 1)%nat = Some (lbl, r) /\
    close_at fetched (n - 2) = Some c1 /\
    close_at fetched (n - 3) = Some c2 /\
    close_at fetched (n - 4) = Some c3 /\
    tail 1 (make_features (tail 4 fetched))
      = [(lbl, mkFeature r 3 (Some c1) (Some c2) (Some c3))] /\
    main cl w =
      match predict o [[Some 3%Q; Some c1; Some c2; Some c3]] with
      | inl e => (inl e, w1)
      | inr [] => (inl IndexError, w1)
      | inr (v :: _) =>
          (inr tt, mkWorld (fs w) (log w1 ++ [Stdout (MsgForecast tk v)]))
      end /\
    (forall sc lr,
       o = PyPipeline sc lr -> four_features o = true ->
       main cl w =
         (inr tt,
          mkWorld (fs w)
            (log w ++
               [Fetch tk "10d";
                Stdout (MsgForecast tk
                          (dot (scale_row sc [3; c1; c2; c3]%Q) (coef_ lr)
                           + intercept_ lr)%Q)]))) /\
    (forall sc lr,
       o = PyPipeline sc lr -> length (mean_ sc) <> 4%nat ->
       main cl w = (inl (ValueError FeatureCountMismatch), w1)).
Proof.
  intros Ht Hp Hm Hne Hfile Hload fetched n w1 Hlen.
  destruct (main_predict_row cl tk p b o w Ht Hp Hm Hne Hfile Hload Hlen)
    as (lbl & r & c1 & c2 & c3 & Hlast & H1 & H2 & H3 & Hrow & Hmain).
  exists lbl, r, c1, c2, c3. repeat (split; [done|]). split.
  - intros sc lr -> Hshape. rewrite Hmain. cbn [predict].
    rewrite (Pipeline_predict_four sc lr 3 c1 c2 c3 Hshape).
    unfold w1. cbn [log]. by rewrite <- app_assoc.
  - intros sc lr -> Hw. rewrite Hmain. cbn [predict].
    by rewrite Pipeline_predict_width.
Qed.

End DriverClaims.

(** C9 (amended). In predict mode the Day of the single Feature Row is
    always 3, whatever the length of the fetched window; a row that sits at
    position p >= 3 of a training history gets Day = p there, so the two
    values differ exactly when p is not 3. *)
Theorem predict_day_is_three (fetched hist : DataFrame PriceRow)
    (p lbl : nat) (r : PriceRow) :
  Forall (fun q => price_complete (snd q) = true) fetched ->
  (4 <= length fetched)%nat ->
  Forall (fun q => price_complete (snd q) = true) hist ->
  hist !! p = Some (lbl, r) -> (3 <= p)%nat ->
  exists lbl' f f',
    tail 1 (make_features (tail 4 fetched)) = [(lbl', f)] /\
    Day f = 3 /\
    make_features hist !! (p - 3)%nat = Some (lbl, f') /\
    price f' = r /\ Day f' = Z.of_nat p /\
    (Day f = Day f' <-> p = 3%nat).
Proof.
  intros Hc Hn Hh Hp Hge.
  destruct (latest_feature_row fetched Hc Hn)
    as (lbl' & r' & c1 & c2 & c3 & _ & _ & _ & _ & Hrow).
  destruct (make_features_spec hist Hh) as [_ Hspec].
  replace p with (p - 3 + 3)%nat in Hp by lia.
  destruct (Hspec _ _ _ Hp) as (Hf & _).
  eexists lbl', _, _. split; [exact Hrow|]. split; [done|].
  split; [exact Hf|]. simpl. repeat split; lia.
Qed.

(** ** The statements at sample inputs *)

Lemma complete_forallb {R} (complete : R -> bool) (df : DataFrame R) :
  forallb (fun p => complete (snd p)) df = true ->
  Forall (fun p => complete (snd p) = true) df.
Proof.
  intros Hb. apply Forall_forall. intros p Hp. apply list_elem_of_In in Hp.
  rewrite forallb_forall in Hb. by apply Hb.
Qed.

Lemma first_column_lstsq_length (X : list (list Q)) (y : list Q) :
  length (Sample.first_column_lstsq X y) = n_features X.
Proof.
  unfold Sample.first_column_lstsq. destruct (n_features X); [done|].
  simpl. by rewrite length_replicate.
Qed.

Lemma make_features_rows_witness :
  Forall (fun p => price_complete (snd p) = true) (reset_index Sample.history) /\
  length (make_features (reset_index Sample.history)) = 5%nat.
Proof.
  assert (Hc : Forall (fun p => price_complete (snd p) = true)
                      (reset_index Sample.history)).
  { apply complete_forallb. vm_compute. reflexivity. }
  split; [exact Hc|].
  exact (proj1 (make_features_rows (reset_index Sample.history) Hc)).
Defined.


Lemma train_model_partition_witness :
  exists r w',
    train_model Sample.features (1 # 5) Sample.empty_world = (inr r, w') /\
    tr_train_idx r = [3; 4; 5; 6]%nat /\ tr_test_idx r = [7%nat].
Proof.
  destruct (train_model_partition Sample.features (1 # 5) Sample.empty_world)
    as (Hok & _ & _).
  - apply first_column_lstsq_length.
  - apply complete_forallb. vm_compute. reflexivity.
  - reflexivity.
  - reflexivity.
  - destruct Hok as (r & w' & Hrun & Htr & Hte & _).
    + vm_compute. discriminate.
    + exists r, w'. split; [exact Hrun|]. split; [exact Htr|exact Hte].
Defined.

(** A single row is not partitioned; and with three rows and the test
    fraction 0.6666666666666667 the training partition has one row where
    floor(len * (1 - t)) is 0. *)
Lemma train_model_partition_counterexample :
  (Sample.single_row <> [] /\ (0 < 1 # 2)%Q /\ (1 # 2 < 1)%Q /\
   train_model Sample.single_row (1 # 2) Sample.empty_world
     = (inl (ValueError EmptyTrainSet), Sample.empty_world)) /\
  (length Sample.three_rows = 3%nat /\
   (0 < Sample.two_thirds)%Q /\ (Sample.two_thirds < 1)%Q /\
   is_float Sample.two_thirds /\
   spec_split_point 3 Sample.two_thirds = 0 /\
   exists r w',
     train_model Sample.three_rows Sample.two_thirds Sample.empty_world
       = (inr r, w') /\
     tr_train_idx r = [3%nat] /\ tr_test_idx r = [4; 5]%nat).
Proof.
  split.
  - split; [vm_compute; discriminate|].
    split; [reflexivity|]. split; [reflexivity|].
    vm_compute. reflexivity.
  - repeat (split; [vm_compute; reflexivity|]).
    eexists _, _. split; [vm_compute; reflexivity|]. split; reflexivity.
Qed.

Lemma scaler_from_training_partition_witness :
  exists r w' sc lr,
    train_model Sample.features (1 # 5) Sample.empty_world = (inr r, w') /\
    tr_train_idx r = [3; 4; 5; 6]%nat /\
    tr_pipe r = PyPipeline sc lr /\
    Forall2 Qeq (mean_ sc) [9 # 2; 27 # 2; 25 # 2; 23 # 2]%Q /\
    Forall2 Qeq (var_ sc) [5 # 4; 5 # 4; 5 # 4; 5 # 4]%Q.
Proof.
  destruct (train_model Sample.features (1 # 5) Sample.empty_world)
    as [[e|r] w'] eqn:E; [vm_compute in E; discriminate|].
  destruct (scaler_from_training_partition _ _ _ _ _ E)
    as (Hk & Hlab & _ & (sc & lr & Hp & Hm & Hv & _) & _).
  assert (H4 : length (tr_train_idx r) = 4%nat).
  { assert (H : split_point (length Sample.features) (1 # 5) = 4)
      by (vm_compute; reflexivity).
    rewrite H in Hk. lia. }
  rewrite H4 in Hlab, Hm, Hv.
  exists r, w', sc, lr. split; [reflexivity|].
  split; [by rewrite <- Hlab|]. split; [exact Hp|].
  rewrite Hm, Hv. split; repeat constructor.
Defined.

Lemma train_model_insufficient_witness :
  train_model Sample.features (9 # 10) Sample.empty_world
    = (inl (ValueError EmptyTrainSet), Sample.empty_world).
Proof.
  destruct (train_model_insufficient Sample.features (9 # 10)
              Sample.empty_world) as [[H _] _]; [reflexivity..|].
  apply H. vm_compute. reflexivity.
Defined.

(** With three rows and the test fraction 0.6666666666666667 the split
    point of the specification is 0, so the rows do not suffice for a
    training partition, and the Trainer trains on one row.  Where the
    rows do not suffice for the code either, as with a single row, the
    error is the ValueError of the split check. *)
Lemma train_model_insufficient_counterexample :
  (length Sample.three_rows = 3%nat /\
   (0 < Sample.two_thirds)%Q /\ (Sample.two_thirds < 1)%Q /\
   is_float Sample.two_thirds /\
   spec_split_point 3 Sample.two_thirds = 0 /\
   exists r w',
     train_model Sample.three_rows Sample.two_thirds Sample.empty_world
       = (inr r, w') /\
     length (tr_train_idx r) = 1%nat /\ length (tr_test_idx r) = 2%nat) /\
  (length Sample.single_row = 1%nat /\
   train_model Sample.single_row (1 # 2) Sample.empty_world
     = (inl (ValueError EmptyTrainSet), Sample.empty_world)).
Proof.
  split.
  - repeat (split; [vm_compute; reflexivity|]).
    eexists _, _. split; [vm_compute; reflexivity|]. split; reflexivity.
  - split; vm_compute; reflexivity.
Qed.

Lemma empty_fetch_fails_in_split_witness :
  main Sample.unknown_ticker_args Sample.empty_world
    = (inl (ValueError EmptyTrainSet),
       mkWorld (fs Sample.empty_world) [Fetch "NOPE" "5y"]).
Proof.
  refine (proj2 (proj2 (empty_fetch_fails_in_split Sample.unknown_ticker_args
                          "NOPE" Sample.empty_world _ _ _ _ _)));
    reflexivity.
Defined.

Lemma empty_fetch_counterexample :
  download_data "NOPE" "5y" Sample.empty_world
    = (inr [], mkWorld (fs Sample.empty_world) [Fetch "NOPE" "5y"]) /\
  fst (main Sample.unknown_ticker_args Sample.empty_world)
    = inl (ValueError EmptyTrainSet).
Proof. split; vm_compute; reflexivity. Qed.

(** A file that holds a pipeline over three features, or a dict, loads
    without an error; and the error for a path that does not exist is
    FileNotFoundError. *)
Lemma joblib_load_counterexample :
  four_features Sample.pipeline3 = false /\
  joblib_load "models/aapl_lr.pkl" Sample.other_world
    = (inr Sample.pipeline3, Sample.other_world) /\
  joblib_load "model.pkl" Cases.dict_world
    = (inr (PyOther "dict"), Cases.dict_world) /\
  joblib_load "models/aapl_lr.pkl" Sample.empty_world
    = (inl FileNotFoundError, Sample.empty_world).
Proof. repeat split; vm_compute; reflexivity. Qed.

Lemma joblib_load_cases_witness :
  joblib_load "models/aapl_lr.pkl" Sample.other_world
    = (inr Sample.pipeline3, Sample.other_world) /\
  main Sample.predict_args Sample.other_world
    = (inl (ValueError FeatureCountMismatch),
       mkWorld (fs Sample.other_world) [Fetch "AAPL" "10d"]).
Proof.
  destruct (joblib_load_cases Sample.predict_args "AAPL" "models/aapl_lr.pkl"
              Sample.other_world) as (_ & _ & _ & H);
    [reflexivity|reflexivity|reflexivity|discriminate|].
  destruct (H (Some Sample.pipeline3) Sample.pipeline3) as (Hl & _ & Hw & _);
    [vm_compute; reflexivity|reflexivity|].
  split; [exact Hl|].
  eapply Hw; [reflexivity|vm_compute; lia|vm_compute; lia].
Defined.


Lemma predict_requires_model_path_witness :
  exists msg,
    main Sample.predict_args_no_model Sample.saved_world
      = (inl (SystemExit 2),
         mkWorld (fs Sample.saved_world) (log Sample.saved_world ++ [Stderr msg])).
Proof.
  apply predict_requires_model_path; reflexivity.
Defined.


Lemma predict_mode_one_forecast_witness :
  exists v,
    main Sample.predict_args Sample.saved_world
      = (inr tt,
         mkWorld (fs Sample.saved_world)
                 [Fetch "AAPL" "10d"; Stdout (MsgForecast "AAPL" v)]).
Proof.
  destruct (predict_mode_one_forecast Sample.predict_args "AAPL"
              "models/aapl_lr.pkl" (Some Sample.pipeline) Sample.pipeline
              Sample.saved_world)
    as (lbl & r & c1 & c2 & c3 & _ & _ & _ & _ & _ & _ & Hfour & _);
    [reflexivity|reflexivity|reflexivity|discriminate|
     vm_compute; reflexivity|reflexivity|vm_compute; lia|].
  eexists. eapply Hfour; reflexivity.
Defined.

(** With a loaded pipeline over three features and a window of eight
    rows nothing is printed: the run ends in ValueError. *)
Lemma predict_mode_counterexample :
  joblib_load "models/aapl_lr.pkl" Sample.other_world
    = (inr Sample.pipeline3, Sample.other_world) /\
  length (dropna price_complete (reset_index (yf_download "AAPL" "10d")))
    = 8%nat /\
  main Sample.predict_args Sample.other_world
    = (inl (ValueError FeatureCountMismatch),
       mkWorld (fs Sample.other_world) [Fetch "AAPL" "10d"]).
Proof. repeat split; vm_compute; reflexivity. Qed.


Lemma predict_day_is_three_witness :
  exists lbl f f',
    tail 1 (make_features (tail 4 (reset_index Sample.history))) = [(lbl, f)] /\
    Day f = 3 /\
    make_features (reset_index Sample.history) !! 4%nat = Some (7%nat, f') /\
    Day f' = 7.
Proof.
  destruct (predict_day_is_three (reset_index Sample.history)
              (reset_index Sample.history) 7 7 (Sample.day_row 107 (17 # 1)))
    as (lbl & f & f' & Hrow & Hday & Hf' & _ & Hday' & _).
  - apply complete_forallb. vm_compute. reflexivity.
  - vm_compute. lia.
  - apply complete_forallb. vm_compute. reflexivity.
  - vm_compute. reflexivity.
  - lia.
  - exists lbl, f, f'. repeat split; assumption.
Defined.

(** The row of day 103 sits at position 3 of the sample history: trained on
    that history it gets Day 3, the value predict mode gives it when the
    fetched window ends on that day. *)
Lemma predict_day_counterexample :
  exists lbl f f' r,
    tail 1 (make_features (tail 4 (reset_index (take 4 Sample.history))))
      = [(lbl, f)] /\
    make_features (reset_index Sample.history) !! 0%nat = Some (lbl, f') /\
    Date (price f) = Date (price f') /\
    Day f = Day f' /\
    fst (train_model (make_features (reset_index Sample.history)) (1 # 5)
           Sample.empty_world) = inr r.
Proof.
  eexists _, _, _, _.
  split; [vm_compute; reflexivity|].
  split; [vm_compute; reflexivity|].
  split; [vm_compute; reflexivity|].
  split; vm_compute; reflexivity.
Qed.

(** ** The model at work on small inputs *)

Example sample_days :
  map (fun p => Day (snd p)) Sample.features = [3; 4; 5; 6; 7].
Proof. reflexivity. Qed.

Example sample_lags :
  map (fun p => Close_lag3 (snd p)) Sample.features
    = [Some 10; Some 11; Some 12; Some 13; Some 14]%Q.
Proof. reflexivity. Qed.

Example short_history_has_no_features :
  make_features (reset_index (take 3 Sample.history)) = [].
Proof. reflexivity. Qed.

Example split_of_five : validate_shuffle_split 5 (1 # 5) = inr (4, 1).
Proof. vm_compute. reflexivity. Qed.

Example split_of_fifty_seven : validate_shuffle_split 57 (2 # 10) = inr (45, 12).
Proof. vm_compute. reflexivity. Qed.

Example split_of_one :
  validate_shuffle_split 1 (2 # 10) = inl (ValueError EmptyTrainSet).
Proof. vm_compute. reflexivity. Qed.

Example split_fraction_out_of_range :
  validate_shuffle_split 5 1 = inl (ValueError InvalidTestSize).
Proof. reflexivity. Qed.

(** The numeral 0.28 denotes a float above 28/100: of 25 rows, 8 are test
    rows, where the exact product 7 would give 7. *)
Example split_of_twenty_five :
  validate_shuffle_split 25 (28 # 100) = inr (17, 8) /\
  Qceiling ((28 # 100) * 25) = 7.
Proof. split; vm_compute; reflexivity. Qed.

(** 0.6666666666666667 * 3 is 2.0 in floats, and above 2 exactly. *)
Example split_of_three :
  validate_shuffle_split 3 Sample.two_thirds = inr (1, 2) /\
  Qceiling (Sample.two_thirds * 3) = 3.
Proof. split; vm_compute; reflexivity. Qed.

(** 0.6666666666666667 * 6 is 4.0 in floats: of six rows, two are
    training rows, where floor(6 * (1 - t)) is 1. *)
Example split_of_six :
  validate_shuffle_split 6 Sample.two_thirds = inr (2, 4) /\
  spec_split_point 6 Sample.two_thirds = 1.
Proof. split; vm_compute; reflexivity. Qed.

Example float_of_a_fifth :
  round_float (2 # 10) = (3602879701896397 # 18014398509481984)%Q.
Proof. vm_compute. reflexivity. Qed.

Example model_file_name :
  path_join "models" (lower "AAPL" +:+ "_lr.pkl") = "models/aapl_lr.pkl".
Proof. reflexivity. Qed.

(** A ticker with [..] leads out of the models directory. *)
Example model_file_beside_models :
  realpath (fs Sample.fresh_world) (path_join "models" (lower "../X" +:+ "_lr.pkl"))
    = ["x_lr.pkl"].
Proof. reflexivity. Qed.

(** Two names of one file. *)
Example two_names_of_the_model :
  fs Sample.saved_world !! "./models//aapl_lr.pkl"
    = fs Sample.saved_world !! "models/aapl_lr.pkl" /\
  fs Sample.saved_world !! "/models/../models/aapl_lr.pkl"
    = fs Sample.saved_world !! "models/aapl_lr.pkl" /\
  holds_file (fs Sample.saved_world) "models/aapl_lr.pkl" = true.
Proof. repeat split; vm_compute; reflexivity. Qed.

Example train_run_events :
  map (fun ev => match ev with
                 | Fetch _ _ => 0 | Stdout (MsgMetrics _ _) => 1
                 | Stdout (MsgModelSaved _) => 2 | Stdout (MsgPlotSaved _) => 3
                 | _ => 4
                 end)
      (log (snd (main Sample.train_args Sample.empty_world)))
    = [0; 1; 2; 3].
Proof. vm_compute. reflexivity. Qed.

Example train_then_predict :
  fst (main Sample.predict_args
         (snd (main Sample.train_args Sample.empty_world))) = inr tt.
Proof. vm_compute. reflexivity. Qed.

Example predict_with_three_features :
  fst (main Sample.predict_args Sample.other_world)
    = inl (ValueError FeatureCountMismatch).
Proof. vm_compute. reflexivity. Qed.

(** * Further properties of the program *)

(** ** Feature Builder on frames with missing values *)

Lemma StronglySorted_filter {A} (R : relation A) (f : A -> bool) (l : list A) :
  StronglySorted R l -> StronglySorted R (List.filter f l).
Proof.
  induction 1 as [|x l Hs IH Hx]; simpl; [constructor|].
  destruct (f x); [|exact IH]. constructor; [exact IH|].
  apply Forall_forall. intros y Hy. apply list_elem_of_In in Hy.
  apply List.filter_In in Hy as [Hy _]. rewrite Forall_forall in Hx.
  apply Hx. by apply list_elem_of_In.
Qed.

Lemma StronglySorted_map {A B} (R : relation B) (g : A -> B) (l : list A) :
  StronglySorted (fun x y => R (g x) (g y)) l -> StronglySorted R (map g l).
Proof.
  induction 1 as [|x l Hs IH Hx]; simpl; constructor; [exact IH|].
  apply Forall_map. exact Hx.
Qed.

Lemma StronglySorted_lookup {A} (R : relation A) (l : list A) :
  (forall i j x y, (i < j)%nat -> l !! i = Some x -> l !! j = Some y -> R x y) ->
  StronglySorted R l.
Proof.
  induction l as [|a l IH]; intros H; constructor.
  - apply IH. intros i j x y Hij Hi Hj. by apply (H (S i) (S j) x y); [lia|..].
  - apply Forall_lookup. intros j y Hj. by apply (H 0%nat (S j) a y); [lia|..].
Qed.

Lemma add_features_sorted (df : DataFrame PriceRow) :
  StronglySorted (fun p q => Day (snd p) < Day (snd q)) (add_features df).
Proof.
  apply StronglySorted_lookup. intros i j [l1 f1] [l2 f2] Hij Hi Hj.
  assert (Hi' : (i < length df)%nat).
  { rewrite <- length_add_features. by eapply lookup_lt_Some. }
  assert (Hj' : (j < length df)%nat).
  { rewrite <- length_add_features. by eapply lookup_lt_Some. }
  destruct (lookup_lt_is_Some_2 df i Hi') as [[a r] Ha].
  destruct (lookup_lt_is_Some_2 df j Hj') as [[b s] Hb].
  rewrite (lookup_add_features _ _ _ _ Ha) in Hi.
  rewrite (lookup_add_features _ _ _ _ Hb) in Hj.
  simplify_eq. simpl. lia.
Qed.

Lemma add_features_early_incomplete (df : DataFrame PriceRow) (i lbl : nat)
    (f : FeatureRow) :
  add_features df !! i = Some (lbl, f) -> (i < 3)%nat ->
  feature_complete f = false.
Proof.
  intros Hi Hlt3.
  assert (Hlt : (i < length df)%nat).
  { rewrite <- length_add_features. by eapply lookup_lt_Some. }
  destruct (lookup_lt_is_Some_2 df i Hlt) as [[lbl' r] Hr].
  rewrite (lookup_add_features _ _ _ _ Hr) in Hi. simplify_eq.
  unfold feature_complete. simpl.
  rewrite (lookup_shift_lt 3); [|lia|unfold rows; by rewrite !length_map].
  simpl. by rewrite andb_false_r.
Qed.

(** make_features drops at least the first three rows. *)
Lemma make_features_length_le (df : DataFrame PriceRow) :
  (length (make_features df) <= length df - 3)%nat.
Proof.
  unfold make_features, dropna.
  rewrite <- (take_drop 3 (add_features df)), List.filter_app.
  rewrite filter_all_false.
  - simpl. etrans; [apply List.filter_length_le|].
    rewrite length_drop, length_add_features. lia.
  - apply Forall_lookup. intros i [lbl f] Hi.
    apply lookup_take_Some in Hi as [Hi Hlt3].
    by eapply add_features_early_incomplete.
Qed.

(** Where a kept row comes from. *)
Lemma make_features_row (df : DataFrame PriceRow) (lbl : nat) (f : FeatureRow) :
  (lbl, f) ∈ make_features df ->
  feature_complete f = true /\
  exists i : nat,
    (3 <= i)%nat /\ Day f = Z.of_nat i /\ df !! i = Some (lbl, price f) /\
    Close_lag1 f = close_at df (i - 1) /\
    Close_lag2 f = close_at df (i - 2) /\
    Close_lag3 f = close_at df (i - 3).
Proof.
  intros Hin. apply list_elem_of_In in Hin.
  unfold make_features, dropna in Hin.
  apply List.filter_In in Hin as [Hin Hc]. simpl in Hc. split; [exact Hc|].
  apply list_elem_of_In, list_elem_of_lookup in Hin as [i Hi].
  assert (Hge : (3 <= i)%nat).
  { destruct (decide (3 <= i)%nat) as [|Hn]; [done|].
    rewrite (add_features_early_incomplete df i lbl f) in Hc by (done || lia).
    done. }
  assert (Hlt : (i < length df)%nat).
  { rewrite <- length_add_features. by eapply lookup_lt_Some. }
  destruct (lookup_lt_is_Some_2 df i Hlt) as [[lbl' r] Hr].
  rewrite (lookup_add_features _ _ _ _ Hr) in Hi. injection Hi as -> Hf.
  exists i. subst f. simpl.
  repeat split; try done; by rewrite lag_column by lia.
Qed.

(** Whatever cells are missing in the input, every row make_features keeps
    is without missing cells, stems from an input row at a position at
    least 3, carries that position as Day and the closes of the three rows
    positioned before it as lags; the kept rows are in input order. *)
Theorem make_features_any_input (df : DataFrame PriceRow) :
  (length (make_features df) <= length df - 3)%nat /\
  StronglySorted Z.lt (days (make_features df)) /\
  forall lbl f, (lbl, f) ∈ make_features df ->
    feature_complete f = true /\
    exists i : nat,
      (3 <= i)%nat /\ Day f = Z.of_nat i /\ df !! i = Some (lbl, price f) /\
      Close_lag1 f = close_at df (i - 1) /\
      Close_lag2 f = close_at df (i - 2) /\
      Close_lag3 f = close_at df (i - 3).
Proof.
  split; [apply make_features_length_le|]. split.
  - unfold days. apply StronglySorted_map. unfold make_features, dropna.
    apply StronglySorted_filter, add_features_sorted.
  - apply make_features_row.
Qed.

(** ** Data Fetcher *)

Lemma lookup_reset_index {R} (rs : list R) (i : nat) :
  reset_index rs !! i = (fun r => (i, r)) <$> rs !! i.
Proof.
  unfold reset_index. rewrite lookup_zip_with.
  destruct (rs !! i) as [r|] eqn:Hr.
  - rewrite lookup_seq_lt by (by eapply lookup_lt_Some). reflexivity.
  - by destruct (seq 0 (length rs) !! i).
Qed.

Lemma elem_of_reset_index {R} (rs : list R) (lbl : nat) (r : R) :
  (lbl, r) ∈ reset_index rs <-> rs !! lbl = Some r.
Proof.
  rewrite list_elem_of_lookup. split.
  - intros [i Hi]. rewrite lookup_reset_index in Hi.
    destruct (rs !! i) as [r'|] eqn:Hr; [|done]. simpl in Hi. by simplify_eq.
  - intros Hr. exists lbl. by rewrite lookup_reset_index, Hr.
Qed.

Lemma reset_index_sorted {R} (rs : list R) :
  StronglySorted (fun p q : nat * R => (fst p < fst q)%nat) (reset_index rs).
Proof.
  apply StronglySorted_lookup. intros i j [a x] [b y] Hij Hi Hj.
  rewrite lookup_reset_index in Hi, Hj.
  destruct (rs !! i); [|done]. destruct (rs !! j); [|done].
  simpl in *. simplify_eq. done.
Qed.

Lemma elem_of_dropna {R} (complete : R -> bool) (df : DataFrame R) (p : nat * R) :
  p ∈ dropna complete df <-> p ∈ df /\ complete (snd p) = true.
Proof.
  unfold dropna. rewrite !list_elem_of_In. apply List.filter_In.
Qed.

Lemma labels_sorted_NoDup {R} (df : DataFrame R) :
  StronglySorted lt (labels df) -> NoDup (labels df).
Proof.
  induction 1 as [|x l Hs IH Hx]; constructor; [|exact IH].
  intros Hin. rewrite Forall_forall in Hx. specialize (Hx _ Hin). lia.
Qed.

Section Fetcher.

Context {blob : Type} `{!Collaborators blob}.

(** download_data never raises and makes one request; it keeps exactly the
    rows of the provider's answer that have no missing cell, each labelled
    with its position in that answer, in the provider's order, and leaves
    the file system alone. *)
Theorem download_data_rows (tk per : string) (w : world blob) :
  exists df,
    download_data tk per w
      = (inr df, mkWorld (fs w) (log w ++ [Fetch tk per])) /\
    StronglySorted lt (labels df) /\
    forall lbl r,
      (lbl, r) ∈ df <->
      yf_download tk per !! lbl = Some r /\ price_complete r = true.
Proof.
  eexists. split; [reflexivity|]. split.
  - unfold labels. apply StronglySorted_map. unfold dropna.
    apply StronglySorted_filter, reset_index_sorted.
  - intros lbl r. rewrite elem_of_dropna, elem_of_reset_index. done.
Qed.

End Fetcher.

(** ** How many rows the Trainer needs *)

Section Threshold.

Context {blob : Type} `{!Collaborators blob}.
Hypothesis lstsq_length : forall X y, length (lstsq X y) = n_features X.

(** For a test fraction of at most one half, the default 0.2 included, the
    Trainer succeeds on the features of a history without missing cells
    exactly when the history has at least five rows; with fewer it raises
    the error of the split check. *)
Theorem training_needs_five_rows (raw : DataFrame PriceRow) (t : Q)
    (w : world blob) :
  Forall (fun p => price_complete (snd p) = true) raw ->
  (0 < t)%Q -> (t <= 1 # 2)%Q ->
  ((exists r w', train_model (make_features raw) t w = (inr r, w'))
     <-> (5 <= length raw)%nat) /\
  ((length raw < 5)%nat ->
     train_model (make_features raw) t w = (inl (ValueError EmptyTrainSet), w)).
Proof.
  intros Hc H0 Ht. assert (H1 : (t < 1)%Q) by lra.
  destruct (make_features_spec raw Hc) as [Hlen _].
  assert (Hfail : (length raw < 5)%nat ->
            train_model (make_features raw) t w
              = (inl (ValueError EmptyTrainSet), w)).
  { intros Hn. apply train_model_empty_train; [done..|]. unfold split_point.
    destruct (decide (length (make_features raw) = 0%nat)) as [->|Hne].
    - by rewrite n_test_of_zero.
    - replace (length (make_features raw)) with 1%nat by lia.
      rewrite n_test_of_one; [done|done|lra]. }
  split; [split|exact Hfail].
  - intros (r & w' & Hrun).
    destruct (decide (5 <= length raw)%nat) as [|Hn]; [done|].
    rewrite Hfail in Hrun by lia. done.
  - intros Hn.
    destruct (train_model_ok lstsq_length (make_features raw) t w)
      as (lr & pred & mae & r2 & Hrun & _); [apply dropna_complete|done..| |].
    + pose proof (n_test_of_half (length (make_features raw)) t H0 Ht) as Hh.
      unfold split_point. lia.
    + eauto.
Qed.

End Threshold.

(** ** Missing cells handed to the Trainer *)

Lemma forallb_Forall {A} (f : A -> bool) (l : list A) :
  forallb f l = true <-> Forall (fun x => f x = true) l.
Proof.
  rewrite forallb_forall, Forall_forall. split; intros Hf x Hx; apply Hf.
  - by apply list_elem_of_In.
  - by apply list_elem_of_In.
Qed.

Lemma model_complete_columns (df : DataFrame FeatureRow) :
  forallb (fun p => model_complete (snd p)) df
    = forallb (forallb notna) (rows (select_X df))
      && forallb notna (select_y df).
Proof.
  induction df as [|[lbl r] df IH]; [done|].
  cbn [forallb]. rewrite IH. unfold rows, select_X, select_y. cbn [map fst snd forallb].
  unfold model_complete. cbn [fst snd].
  destruct (notna (Close (price r))), (forallb notna (feature_vector r));
    cbn [andb]; try reflexivity; by rewrite ?andb_false_r.
Qed.

Lemma check_array_nan (X : list (list (option Q))) :
  X <> [] -> forallb (forallb notna) X = false ->
  check_array X = inl (ValueError InputContainsNaN).
Proof. intros Hne Hb. destruct X; [done|]. unfold check_array. by rewrite Hb. Qed.

Lemma all_finite_nan (y : list (option Q)) :
  forallb notna y = false -> all_finite y = inl (ValueError InputContainsNaN).
Proof. intros Hb. unfold all_finite. by rewrite Hb. Qed.

Section MissingCells.

Context {blob : Type} `{!Collaborators blob}.
Hypothesis lstsq_length : forall X y, length (lstsq X y) = n_features X.

(** train_model never fits or scores on a missing cell: when the split
    leaves a training row and some row lacks its target or a lag, it
    raises ValueError (input contains NaN) and prints nothing. *)
Theorem train_model_rejects_missing_cells (df : DataFrame FeatureRow) (t : Q)
    (w : world blob) :
  (0 < t)%Q -> (t < 1)%Q -> 1 <= split_point (length df) t ->
  forallb (fun p => model_complete (snd p)) df = false ->
  train_model df t w = (inl (ValueError InputContainsNaN), w).
Proof.
  intros H0 H1 Hk Hnan.
  assert (Hn : (0 < length df)%nat).
  { pose proof (n_test_of_nonneg (length df) t (Qlt_le_weak _ _ H0)).
    unfold split_point in Hk. lia. }
  pose proof (split_point_lt (length df) t H0 Hn) as Hlt.
  rewrite train_model_unfold, train_model_split by done. cbv zeta.
  replace (split_point (length df) t =? 0) with false
    by (symmetry; apply Z.eqb_neq; lia).
  set (k := Z.to_nat (split_point (length df) t)).
  assert (Htr : rows (select_X (take k df)) <> []).
  { intros E. apply (f_equal length) in E. unfold rows, select_X in E.
    rewrite !length_map, length_take in E. simpl in E. lia. }
  assert (Hte : rows (select_X (drop k df)) <> []).
  { intros E. apply (f_equal length) in E. unfold rows, select_X in E.
    rewrite !length_map, length_drop in E. simpl in E. lia. }
  rewrite <- (take_drop k df), forallb_app, !model_complete_columns in Hnan.
  destruct (forallb (forallb notna) (rows (select_X (take k df)))) eqn:EX1.
  2: { unfold Pipeline_fit, result_bind. by rewrite check_array_nan. }
  destruct (forallb notna (select_y (take k df))) eqn:Ey1.
  2: { unfold Pipeline_fit, result_bind.
       rewrite check_array_ok by (done || by apply forallb_Forall).
       by rewrite all_finite_nan. }
  assert (Hfit0 : exists pipe sc lr,
            pipe = PyPipeline sc lr /\
            Pipeline_fit (rows (select_X (take k df))) (select_y (take k df))
              = inr pipe).
  { unfold Pipeline_fit, result_bind.
    rewrite check_array_ok, all_finite_ok by (done || by apply forallb_Forall).
    by eexists _, _, _. }
  destruct Hfit0 as (pipe & sc & lr0 & Hpipe & Hfit0). rewrite Hfit0.
  destruct (forallb (forallb notna) (rows (select_X (drop k df)))) eqn:EX2.
  2: { subst pipe. unfold predict, Pipeline_predict, result_bind.
       by rewrite check_array_nan. }
  simpl in Hnan.
  destruct (fit_then_predict lstsq_length 4
              (rows (select_X (take k df))) (rows (select_X (drop k df)))
              (select_y (take k df)))
    as (lr & pred & Hfit & Hpred & Hlen & _);
    [done|done|apply rect_select_X|apply rect_select_X|
     by apply forallb_Forall..|].
  rewrite Hfit0 in Hfit. injection Hfit as Hfit. rewrite Hfit, Hpred.
  unfold mean_absolute_error.
  replace (length (select_y (drop k df)) =? length pred)%nat with true.
  2: { symmetry. apply Nat.eqb_eq. rewrite Hlen. unfold rows, select_X, select_y.
       by rewrite !length_map. }
  cbn [negb]. unfold result_bind. by rewrite all_finite_nan.
Qed.

End MissingCells.

(** ** Artifact names *)

Lemma artifact_name_plain (stem suffix : string) :
  no_slash stem = true -> no_slash suffix = true ->
  (2 < String.length suffix)%nat ->
  no_slash (stem +:+ suffix) = true /\ names_entry (stem +:+ suffix) = true.
Proof.
  intros Hs Hx Hl. split.
  - by rewrite no_slash_app, Hs, Hx.
  - apply names_entry_long. rewrite length_app_string. lia.
Qed.

(** ** Files and directories of a run *)

Section Artifacts.

Context {blob : Type}.

Implicit Types (f : files blob) (w : world blob) (k : path).

Lemma put_id f k (x : node blob) : entries f !! k = Some x -> put k x f = f.
Proof.
  intros H. destruct f as [e c]. unfold put. cbn [entries cwd] in *.
  f_equal. by apply insert_id.
Qed.

Lemma with_dir_id f k : is_directory f k = true -> with_dir f k = f.
Proof. intros H. unfold with_dir. by rewrite H. Qed.

Lemma is_directory_with_dir_mono f k k' :
  is_directory f k' = true -> is_directory (with_dir f k) k' = true.
Proof.
  intros H. unfold with_dir. destruct (is_directory f k) eqn:E; [done|].
  by apply is_directory_put_mono.
Qed.

Lemma is_directory_not_file f (rel : path) (b : blob) :
  rel <> [] -> is_directory f (cwd f ++ rel) = true ->
  entries f !! (cwd f ++ rel) <> Some (File b).
Proof.
  intros Hne Hd E. rewrite is_directory_below in Hd by done. by rewrite E in Hd.
Qed.

Lemma below_ne (c : path) (rel rel' : path) :
  rel <> rel' -> c ++ rel <> c ++ rel'.
Proof. intros Hne E. by apply app_inv_head in E. Qed.

Lemma lookup_join f (d name : string) :
  no_slash d = true -> names_entry d = true ->
  no_slash name = true -> names_entry name = true ->
  is_directory f (cwd f ++ [d]) = true ->
  f !! path_join d name =
    if is_directory f (cwd f ++ [d; name]) then Some Dir
    else entries f !! (cwd f ++ [d; name]).
Proof.
  intros Hd1 Hd2 Hn1 Hn2 Hdir. unfold lookup, files_lookup, stat.
  rewrite resolve_join by done. by rewrite Hdir.
Qed.

Lemma mkdir_exist_ok_file (name : string) w :
  holds_file (fs w) name = true ->
  mkdir_exist_ok name w = (inl FileExistsError, w).
Proof.
  unfold holds_file, lookup, files_lookup, stat, mkdir_exist_ok.
  destruct (resolve (fs w) name) as [e|k]; [done|].
  destruct (is_directory (fs w) k) eqn:Ed; [done|].
  destruct (entries (fs w) !! k) as [[b|]|] eqn:Ee; [|done..]. intros _.
  rewrite (ensure_dir_file _ _ b true Ed Ee). by destruct w.
Qed.

Lemma mkdir_exist_ok_free (name : string) w :
  no_slash name = true -> names_entry name = true ->
  free_for_dir (fs w) (cwd (fs w) ++ [name]) ->
  mkdir_exist_ok name w =
    (inr tt, mkWorld (with_dir (fs w) (cwd (fs w) ++ [name])) (log w)).
Proof.
  intros Hs Hn Hfree. rewrite mkdir_exist_ok_plain by done.
  by rewrite ensure_dir_ok.
Qed.

Lemma write_file_join (d name : string) (c : blob) w :
  no_slash d = true -> names_entry d = true ->
  no_slash name = true -> names_entry name = true ->
  is_directory (fs w) (cwd (fs w) ++ [d]) = true ->
  free_for_file (fs w) (cwd (fs w) ++ [d; name]) ->
  write_file (path_join d name) c w =
    (inr tt, mkWorld (put (cwd (fs w) ++ [d; name]) (File c) (fs w)) (log w)).
Proof.
  intros Hd1 Hd2 Hn1 Hn2 Hdir Hfree. unfold write_file.
  rewrite resolve_join by done. rewrite Hdir.
  rewrite (is_directory_below (fs w) [d; name]) by done.
  unfold free_for_file in Hfree.
  by destruct (entries (fs w) !! (cwd (fs w) ++ [d; name])) as [[b|]|].
Qed.

(** The file system after a file was written below each of two
    directories made where missing. *)
Lemma artifacts_in_place f (d1 n1 d2 n2 : string) (c1 c2 : blob) :
  d1 <> d2 ->
  let dir1 := cwd f ++ [d1] in
  let dir2 := cwd f ++ [d2] in
  let file1 := cwd f ++ [d1; n1] in
  let file2 := cwd f ++ [d2; n2] in
  let f' := put file2 (File c2)
              (with_dir (put file1 (File c1) (with_dir f dir1)) dir2) in
  cwd f' = cwd f /\
  is_directory f' dir1 = true /\ is_directory f' dir2 = true /\
  entries f' !! file1 = Some (File c1) /\
  entries f' !! file2 = Some (File c2) /\
  forall k, k <> dir1 -> k <> dir2 -> k <> file1 -> k <> file2 ->
            entries f' !! k = entries f !! k.
Proof.
  intros Hne dir1 dir2 file1 file2 f'.
  assert (N1 : dir1 <> dir2) by (apply below_ne; congruence).
  assert (N2 : file1 <> dir1) by (by apply below_ne).
  assert (N3 : file1 <> dir2) by (by apply below_ne).
  assert (N4 : file2 <> dir1) by (by apply below_ne).
  assert (N5 : file2 <> dir2) by (by apply below_ne).
  assert (N6 : file1 <> file2) by (apply below_ne; congruence).
  subst f'. split; [|split; [|split; [|split; [|split]]]].
  - unfold put. cbn [cwd]. by rewrite !cwd_with_dir.
  - rewrite is_directory_put_ne by done. apply is_directory_with_dir_mono.
    rewrite is_directory_put_ne by done. apply is_directory_with_dir.
  - rewrite is_directory_put_ne by done. apply is_directory_with_dir.
  - unfold put at 1. cbn [entries]. rewrite lookup_insert_ne by done.
    rewrite entries_with_dir_ne by done.
    unfold put. cbn [entries]. by rewrite lookup_insert_eq.
  - unfold put at 1. cbn [entries]. by rewrite lookup_insert_eq.
  - intros k K1 K2 K3 K4.
    unfold put at 1. cbn [entries]. rewrite lookup_insert_ne by done.
    rewrite entries_with_dir_ne by done.
    unfold put. cbn [entries]. rewrite lookup_insert_ne by done.
    by rewrite entries_with_dir_ne.
Qed.

End Artifacts.

(** ** Label lookups of the Reporter *)

Lemma loc_elem_of {R} (df : DataFrame R) (lbl : nat) (r : R) :
  NoDup (labels df) -> (lbl, r) ∈ df -> loc df lbl = Some r.
Proof.
  unfold loc. induction df as [|[a x] df IH]; intros Hnd Hin.
  - by apply elem_of_nil in Hin.
  - simpl in Hnd. apply NoDup_cons in Hnd as [Ha Hnd]. simpl.
    apply elem_of_cons in Hin as [Heq|Hin].
    + injection Heq as -> ->. by rewrite Nat.eqb_refl.
    + destruct (Nat.eqb a lbl) eqn:E; [|by apply IH].
      apply Nat.eqb_eq in E as ->. exfalso. apply Ha.
      unfold labels. apply list_elem_of_In, in_map_iff. exists (lbl, r).
      split; [done|]. by apply list_elem_of_In.
Qed.

Lemma loc_dates_rows (df l : DataFrame FeatureRow) :
  NoDup (labels df) -> (forall p, p ∈ l -> p ∈ df) ->
  loc_dates df (labels l) = inr (dates l).
Proof.
  intros Hnd Hsub. unfold loc_dates.
  assert (Hm : mapM (fun lbl => (fun r => Date (price r)) <$> loc df lbl)
                    (labels l) = Some (dates l)); [|by rewrite Hm].
  induction l as [|[lbl r] l IH]; [done|]. simpl.
  rewrite (loc_elem_of df lbl r) by (done || apply Hsub; left). simpl.
  rewrite IH by (intros p Hp; apply Hsub; by right). done.
Qed.

(** ** Reporter *)

Lemma length_dates (df : DataFrame FeatureRow) : length (dates df) = length df.
Proof. unfold dates. by rewrite length_map. Qed.


Section Reporter.

Context {blob : Type} `{!Collaborators blob}.

(** plot_results on partitions taken from the frame, with a free place for
    the directory and the image. *)
Lemma plot_results_ok (df tr te : DataFrame FeatureRow)
    (y_train y_test : list (option Q)) (pred : list Q) (tk out_dir : string)
    (w : world blob) :
  NoDup (labels df) ->
  (forall p, p ∈ tr -> p ∈ df) -> (forall p, p ∈ te -> p ∈ df) ->
  length y_train = length tr -> length y_test = length te ->
  length pred = length te ->
  no_slash (lower tk) = true ->
  no_slash out_dir = true -> names_entry out_dir = true ->
  let dir := cwd (fs w) ++ [out_dir] in
  let img := cwd (fs w) ++ [out_dir; lower tk +:+ "_lr_plot.png"] in
  free_for_dir (fs w) dir -> free_for_file (fs w) img ->
  plot_results df (labels tr) (labels te) y_train y_test pred tk out_dir w =
    (inr tt,
     mkWorld
       (put img
          (File (savefig
                   (mkFigure (tk +:+ " – Linear Regression forecast")
                      "Date" "Close Price"
                      [mkLine "Train" (dates tr) y_train false;
                       mkLine "Test – Actual" (dates te) y_test false;
                       mkLine "Test – Predicted" (dates te) (map Some pred)
                              true])))
          (with_dir (fs w) dir))
       (log w ++ [Stdout (MsgPlotSaved img)])).
Proof.
  intros Hnd Htr Hte Hy1 Hy2 Hp Htk Hod1 Hod2 dir img Hfile Hdir.
  destruct (artifact_name_plain (lower tk) "_lr_plot.png" Htk eq_refl)
    as [Hn1 Hn2]; [simpl; lia|].
  assert (Hne : dir <> img) by (by apply below_ne).
  unfold plot_results, mbind, M_bind, lift.
  rewrite !loc_dates_rows by done. unfold plt_plot.
  rewrite !length_dates, length_map, Hy1, Hy2, Hp, !Nat.eqb_refl.
  rewrite mkdir_parents_plain, mkdir_exist_ok_free by done. fold dir.
  rewrite write_file_join; cbn [fs log]; rewrite ?cwd_with_dir; try done.
  - unfold print_resolved, emit. cbn [fs log].
    rewrite realpath_join by done. unfold put at 2. cbn [cwd].
    by rewrite cwd_with_dir.
  - apply is_directory_with_dir.
  - unfold free_for_file. by rewrite entries_with_dir_ne.
Qed.

(** plot_results draws the training dates against the training
    targets, the test dates against the test targets and, dashed, against
    the predictions.  For an output directory named by one piece and a
    lower-cased ticker without a slash, it makes the directory where it
    is missing, writes the image into it, replacing an image of that
    name, prints the resolved path of the image and leaves every other
    entry of the file system as it was. *)
Theorem plot_results_writes_one_image (df tr te : DataFrame FeatureRow)
    (y_train y_test : list (option Q)) (pred : list Q) (tk out_dir : string)
    (w : world blob) :
  NoDup (labels df) ->
  (forall p, p ∈ tr -> p ∈ df) -> (forall p, p ∈ te -> p ∈ df) ->
  length y_train = length tr -> length y_test = length te ->
  length pred = length te ->
  no_slash (lower tk) = true ->
  no_slash out_dir = true -> names_entry out_dir = true ->
  let name := path_join out_dir (lower tk +:+ "_lr_plot.png") in
  let dir := cwd (fs w) ++ [out_dir] in
  let img := cwd (fs w) ++ [out_dir; lower tk +:+ "_lr_plot.png"] in
  free_for_dir (fs w) dir -> free_for_file (fs w) img ->
  exists fig w',
    plot_results df (labels tr) (labels te) y_train y_test pred tk out_dir w
      = (inr tt, w') /\
    fig_lines fig =
      [mkLine "Train" (dates tr) y_train false;
       mkLine "Test – Actual" (dates te) y_test false;
       mkLine "Test – Predicted" (dates te) (map Some pred) true] /\
    realpath (fs w) out_dir = dir /\ realpath (fs w) name = img /\
    fs w' !! out_dir = Some Dir /\
    fs w' !! name = Some (File (savefig fig)) /\
    entries (fs w') !! img = Some (File (savefig fig)) /\
    cwd (fs w') = cwd (fs w) /\
    (forall k, k <> img -> k <> dir ->
               entries (fs w') !! k = entries (fs w) !! k) /\
    log w' = log w ++ [Stdout (MsgPlotSaved img)].
Proof.
  intros Hnd Htr Hte Hy1 Hy2 Hp Htk Hod1 Hod2 name dir img Hfile Hdir.
  destruct (artifact_name_plain (lower tk) "_lr_plot.png" Htk eq_refl)
    as [Hn1 Hn2]; [simpl; lia|].
  assert (Hne : dir <> img) by (by apply below_ne).
  set (fig := mkFigure (tk +:+ " – Linear Regression forecast")
                "Date" "Close Price"
                [mkLine "Train" (dates tr) y_train false;
                 mkLine "Test – Actual" (dates te) y_test false;
                 mkLine "Test – Predicted" (dates te) (map Some pred) true]).
  exists fig. eexists.
  split; [by apply plot_results_ok|]. cbn [fs log]. fold dir img fig.
  set (f' := put img (File (savefig fig)) (with_dir (fs w) dir)).
  assert (Hcwd : cwd f' = cwd (fs w))
    by (subst f'; unfold put; cbn [cwd]; by rewrite cwd_with_dir).
  assert (Hd : is_directory f' dir = true).
  { subst f'. rewrite is_directory_put_ne by done. apply is_directory_with_dir. }
  assert (Hi : entries f' !! img = Some (File (savefig fig))).
  { subst f'. unfold put. cbn [entries]. by rewrite lookup_insert_eq. }
  split; [reflexivity|].
  split; [by apply realpath_plain|]. split; [by apply realpath_join|].
  split. { rewrite lookup_plain, Hcwd by done. fold dir. by rewrite Hd. }
  split. { subst name.
           rewrite lookup_join by (done || (rewrite Hcwd; exact Hd)).
           rewrite (is_directory_below f' [out_dir; _]) by done.
           rewrite Hcwd. fold img. by rewrite Hi. }
  split; [done|]. split; [done|]. split; [|done].
  intros k K1 K2. subst f'. unfold put. cbn [entries].
  rewrite lookup_insert_ne by done. by rewrite entries_with_dir_ne.
Qed.

(** When the name of the output directory is taken by a regular file,
    plot_results raises FileExistsError and writes nothing. *)
Theorem plot_results_directory_is_file (df tr te : DataFrame FeatureRow)
    (y_train y_test : list (option Q)) (pred : list Q) (tk out_dir : string)
    (w : world blob) :
  NoDup (labels df) ->
  (forall p, p ∈ tr -> p ∈ df) -> (forall p, p ∈ te -> p ∈ df) ->
  length y_train = length tr -> length y_test = length te ->
  length pred = length te ->
  holds_file (fs w) out_dir = true ->
  plot_results df (labels tr) (labels te) y_train y_test pred tk out_dir w
    = (inl FileExistsError, w).
Proof.
  intros Hnd Htr Hte Hy1 Hy2 Hp Hfile.
  unfold plot_results, mbind, M_bind, lift.
  rewrite !loc_dates_rows by done. unfold plt_plot.
  rewrite !length_dates, length_map, Hy1, Hy2, Hp, !Nat.eqb_refl.
  by rewrite mkdir_parents_file.
Qed.

End Reporter.

(** ** Labels through the Feature Builder *)

Lemma StronglySorted_map_inv {A B} (R : relation B) (g : A -> B) (l : list A) :
  StronglySorted R (map g l) -> StronglySorted (fun x y => R (g x) (g y)) l.
Proof.
  induction l as [|a l IH]; intros Hs; [constructor|].
  simpl in Hs. apply StronglySorted_inv in Hs as [Hs Ha].
  constructor; [by apply IH|]. exact (proj1 (Forall_map g (R (g a)) l) Ha).
Qed.

Lemma labels_add_features (df : DataFrame PriceRow) :
  labels (add_features df) = labels df.
Proof.
  unfold labels. apply list_eq. intros i. rewrite !lookup_map.
  destruct (df !! i) as [[lbl r]|] eqn:Hi.
  - by rewrite (lookup_add_features _ _ _ _ Hi).
  - rewrite (lookup_ge_None_2 (add_features df) i); [done|].
    rewrite length_add_features. by apply lookup_ge_None_1.
Qed.

Lemma make_features_labels_sorted (df : DataFrame PriceRow) :
  StronglySorted lt (labels df) -> StronglySorted lt (labels (make_features df)).
Proof.
  intros Hs. unfold labels at 1. apply StronglySorted_map.
  unfold make_features, dropna. apply StronglySorted_filter.
  apply StronglySorted_map_inv. fold (labels (add_features df)).
  by rewrite labels_add_features.
Qed.

Lemma fetched_features_NoDup (rs : list PriceRow) :
  NoDup (labels (make_features (dropna price_complete (reset_index rs)))).
Proof.
  apply labels_sorted_NoDup, make_features_labels_sorted.
  unfold labels. apply StronglySorted_map. unfold dropna.
  apply StronglySorted_filter, reset_index_sorted.
Qed.


(** ** Train mode end to end *)

Section TrainRun.

Context {blob : Type} `{!Collaborators blob}.
Hypothesis lstsq_length : forall X y, length (lstsq X y) = n_features X.

(** A training run on enough rows, for a ticker whose lower-cased form
    has no ["/"] and with the places of the two directories and the two
    files free. *)
Lemma main_train_ok (cl : CommandLine) (tk : string) (w : world blob) :
  cl_ticker cl = Some tk -> cl_predict cl = false ->
  let per := default "5y" (cl_period cl) in
  let t := default (2 # 10)%Q (cl_test_size cl) in
  let df := make_features
              (dropna price_complete (reset_index (yf_download tk per))) in
  let models := cwd (fs w) ++ ["models"] in
  let reports := cwd (fs w) ++ ["reports"] in
  let model := cwd (fs w) ++ ["models"; lower tk +:+ "_lr.pkl"] in
  let img := cwd (fs w) ++ ["reports"; lower tk +:+ "_lr_plot.png"] in
  (0 < t)%Q -> (t < 1)%Q -> 1 <= split_point (length df) t ->
  no_slash (lower tk) = true ->
  free_for_dir (fs w) models -> free_for_file (fs w) model ->
  free_for_dir (fs w) reports -> free_for_file (fs w) img ->
  exists r mae r2,
    four_features (tr_pipe r) = true /\
    train_model df t (mkWorld (fs w) (log w ++ [Fetch tk per]))
      = (inr r, mkWorld (fs w)
                  (log w ++ [Fetch tk per] ++ [Stdout (MsgMetrics mae r2)])) /\
    let k := Z.to_nat (split_point (length df) t) in
    let png :=
      savefig
        (mkFigure (tk +:+ " – Linear Regression forecast") "Date" "Close Price"
           [mkLine "Train" (dates (take k df)) (select_y (take k df)) false;
            mkLine "Test – Actual" (dates (drop k df)) (select_y (drop k df))
                   false;
            mkLine "Test – Predicted" (dates (drop k df))
                   (map Some (tr_pred r)) true]) in
    main cl w =
      (inr tt,
       mkWorld (put img (File png)
                  (with_dir
                     (put model (File (dumps (tr_pipe r)))
                        (with_dir (fs w) models))
                     reports))
               (log w ++ [Fetch tk per; Stdout (MsgMetrics mae r2);
                          Stdout (MsgModelSaved model);
                          Stdout (MsgPlotSaved img)])).
Proof.
  intros Htk Hp per t df models reports model img H0 H1 Hk Hns Hm1 Hm2 Hr1 Hr2.
  destruct (artifact_name_plain (lower tk) "_lr.pkl" Hns eq_refl)
    as [Hn1 Hn2]; [simpl; lia|].
  assert (N1 : models <> model) by (by apply below_ne).
  assert (N2 : models <> reports) by (by apply below_ne).
  assert (N3 : model <> reports) by (by apply below_ne).
  assert (N4 : models <> img) by (by apply below_ne).
  assert (N5 : model <> img) by (by apply below_ne).
  set (w0 := mkWorld (fs w) (log w ++ [Fetch tk per])).
  destruct (train_model_ok lstsq_length df t w0)
    as (lr & pred & mae & r2 & Hrun & Hlen & Hshape);
    [apply dropna_complete|done..|].
  set (k := Z.to_nat (split_point (length df) t)) in *.
  set (r := mkTrainResult _ _ _ _ _ _) in Hrun.
  exists r, mae, r2. split; [exact Hshape|].
  split; [rewrite Hrun; unfold w0; cbn [fs log]; by rewrite <- app_assoc|].
  cbv zeta. fold k.
  unfold main, parse_args, mbind, M_bind, mret, M_ret. rewrite Htk, Hp.
  cbn [predict_flag ticker period test_size].
  rewrite download_data_eq. fold per t df w0. rewrite Hrun.
  subst w0. cbn [fs log].
  rewrite mkdir_exist_ok_free; [|done|done|exact Hm1].
  cbn [fs log]. fold models.
  unfold joblib_dump.
  rewrite write_file_join; [|done..| |];
    cbn [fs log]; rewrite ?cwd_with_dir; fold models model.
  2: apply is_directory_with_dir.
  2: { unfold free_for_file. by rewrite entries_with_dir_ne. }
  unfold print_resolved at 1. unfold emit at 1. cbn [fs log].
  rewrite realpath_join by done. cbn [put cwd]. rewrite cwd_with_dir.
  fold model. subst r.
  cbn [tr_pipe tr_train_idx tr_test_idx tr_y_train tr_y_test tr_pred].
  rewrite (plot_results_ok df (take k df) (drop k df));
    cbn [fs log put cwd entries tr_train_idx tr_test_idx tr_y_train tr_y_test
         tr_pred]; rewrite ?cwd_with_dir; fold reports img.
  - rewrite <- !app_assoc. reflexivity.
  - apply fetched_features_NoDup.
  - intros p Hin. rewrite <- (take_drop k df). apply elem_of_app. by left.
  - intros p Hin. rewrite <- (take_drop k df). apply elem_of_app. by right.
  - unfold select_y. by rewrite length_map.
  - unfold select_y. by rewrite length_map.
  - exact Hlen.
  - done.
  - done.
  - done.
  - intros b. unfold put. cbn [entries]. rewrite lookup_insert_ne by done.
    rewrite entries_with_dir_ne by done. apply Hr1.
  - unfold free_for_file, put. cbn [entries].
    rewrite lookup_insert_ne by done. by rewrite entries_with_dir_ne.
Qed.

End TrainRun.

Section TrainRunProperties.

Context {blob : Type} `{!Collaborators blob}.
Hypothesis lstsq_length : forall X y, length (lstsq X y) = n_features X.

(** A training run on enough rows, for a ticker whose lower-cased
    form has no slash and with the places of its two directories and two
    files free, succeeds: it fetches once, prints the metrics, saves the
    four-feature pipeline that train_model fitted under models/, then the
    plot under reports/, in this order, printing the resolved path of
    each, and leaves every other entry of the file system as it was. *)
Theorem train_run_saves_model_and_plot (cl : CommandLine) (tk : string)
    (w : world blob) :
  cl_ticker cl = Some tk -> cl_predict cl = false ->
  let per := default "5y" (cl_period cl) in
  let t := default (2 # 10)%Q (cl_test_size cl) in
  let df := make_features
              (dropna price_complete (reset_index (yf_download tk per))) in
  let model_fp := path_join "models" (lower tk +:+ "_lr.pkl") in
  let img_path := path_join "reports" (lower tk +:+ "_lr_plot.png") in
  let models := cwd (fs w) ++ ["models"] in
  let reports := cwd (fs w) ++ ["reports"] in
  let model := cwd (fs w) ++ ["models"; lower tk +:+ "_lr.pkl"] in
  let img := cwd (fs w) ++ ["reports"; lower tk +:+ "_lr_plot.png"] in
  (0 < t)%Q -> (t < 1)%Q -> 1 <= split_point (length df) t ->
  no_slash (lower tk) = true ->
  free_for_dir (fs w) models -> free_for_file (fs w) model ->
  free_for_dir (fs w) reports -> free_for_file (fs w) img ->
  exists r mae r2 w',
    main cl w = (inr tt, w') /\
    fst (train_model df t (mkWorld (fs w) (log w ++ [Fetch tk per]))) = inr r /\
    four_features (tr_pipe r) = true /\
    realpath (fs w) model_fp = model /\ realpath (fs w) img_path = img /\
    fs w' !! model_fp = Some (File (dumps (tr_pipe r))) /\
    holds_file (fs w') img_path = true /\
    fs w' !! "models" = Some Dir /\ fs w' !! "reports" = Some Dir /\
    cwd (fs w') = cwd (fs w) /\
    (forall k, k <> models -> k <> reports -> k <> model -> k <> img ->
               entries (fs w') !! k = entries (fs w) !! k) /\
    log w' = log w ++ [Fetch tk per; Stdout (MsgMetrics mae r2);
                       Stdout (MsgModelSaved model);
                       Stdout (MsgPlotSaved img)].
Proof.
  intros Htk Hp per t df model_fp img_path models reports model img
         H0 H1 Hk Hns Hm1 Hm2 Hr1 Hr2.
  destruct (main_train_ok lstsq_length cl tk w Htk Hp H0 H1 Hk Hns Hm1 Hm2 Hr1 Hr2)
    as (r & mae & r2 & Hshape & Hrun & Hmain).
  cbv zeta in Hmain. fold per t df models reports model img in Hrun, Hmain.
  destruct (artifact_name_plain (lower tk) "_lr.pkl" Hns eq_refl)
    as [Hn1 Hn2]; [simpl; lia|].
  destruct (artifact_name_plain (lower tk) "_lr_plot.png" Hns eq_refl)
    as [Hn3 Hn4]; [simpl; lia|].
  match type of Hmain with _ = (_, mkWorld ?x _) => set (f' := x) in * end.
  destruct (artifacts_in_place (fs w) "models" (lower tk +:+ "_lr.pkl")
              "reports" (lower tk +:+ "_lr_plot.png")
              (dumps (tr_pipe r))
              (savefig
                 (mkFigure (tk +:+ " – Linear Regression forecast") "Date"
                    "Close Price"
                    [mkLine "Train"
                       (dates (take (Z.to_nat (split_point (length df) t)) df))
                       (select_y (take (Z.to_nat (split_point (length df) t)) df))
                       false;
                     mkLine "Test – Actual"
                       (dates (drop (Z.to_nat (split_point (length df) t)) df))
                       (select_y (drop (Z.to_nat (split_point (length df) t)) df))
                       false;
                     mkLine "Test – Predicted"
                       (dates (drop (Z.to_nat (split_point (length df) t)) df))
                       (map Some (tr_pred r)) true])))
    as (Hcwd & Hd1 & Hd2 & He1 & He2 & Hrest); [done|].
  cbv zeta in Hcwd, Hd1, Hd2, He1, He2, Hrest.
  fold models reports model img in Hcwd, Hd1, Hd2, He1, He2, Hrest.
  fold f' in Hcwd, Hd1, Hd2, He1, He2, Hrest.
  eexists r, mae, r2, _. split; [exact Hmain|]. cbn [fs log].
  split; [by rewrite Hrun|]. split; [exact Hshape|].
  split; [by apply realpath_join|]. split; [by apply realpath_join|].
  split. { subst model_fp.
           rewrite lookup_join by (done || (rewrite Hcwd; exact Hd1)).
           rewrite (is_directory_below f' ["models"; _]) by done.
           rewrite Hcwd. fold model. by rewrite He1. }
  split. { unfold holds_file. subst img_path.
           rewrite lookup_join by (done || (rewrite Hcwd; exact Hd2)).
           rewrite (is_directory_below f' ["reports"; _]) by done.
           rewrite Hcwd. fold img. by rewrite He2. }
  split. { rewrite lookup_plain, Hcwd by done. fold models. by rewrite Hd1. }
  split. { rewrite lookup_plain, Hcwd by done. fold reports. by rewrite Hd2. }
  split; [done|]. split; [|done].
  intros k K1 K2 K3 K4. by apply Hrest.
Qed.

(** When the name models is taken by a regular file, a training run
    that gets through the Trainer fails with FileExistsError after the
    metrics are printed; no model and no plot are written. *)
Theorem train_run_models_is_file (cl : CommandLine) (tk : string)
    (w : world blob) :
  cl_ticker cl = Some tk -> cl_predict cl = false ->
  let per := default "5y" (cl_period cl) in
  let t := default (2 # 10)%Q (cl_test_size cl) in
  let df := make_features
              (dropna price_complete (reset_index (yf_download tk per))) in
  (0 < t)%Q -> (t < 1)%Q -> 1 <= split_point (length df) t ->
  holds_file (fs w) "models" = true ->
  exists mae r2,
    main cl w =
      (inl FileExistsError,
       mkWorld (fs w) (log w ++ [Fetch tk per; Stdout (MsgMetrics mae r2)])).
Proof.
  intros Htk Hp per t df H0 H1 Hk Hfile.
  destruct (train_model_ok lstsq_length df t
              (mkWorld (fs w) (log w ++ [Fetch tk per])))
    as (lr & pred & mae & r2 & Hrun & _);
    [apply dropna_complete|done..|].
  exists mae, r2.
  unfold main, parse_args, mbind, M_bind, mret, M_ret. rewrite Htk, Hp.
  cbn [predict_flag ticker period test_size].
  rewrite download_data_eq. fold per t df. rewrite Hrun.
  rewrite mkdir_exist_ok_file by exact Hfile. cbn [fs log].
  by rewrite <- app_assoc.
Qed.

End TrainRunProperties.

Section TestSize.

Context {blob : Type} `{!Collaborators blob}.

(** The command line accepts any number as --test_size: a value outside
    (0,1) is rejected only by the split, after the fetch, whatever the
    rows are; nothing is printed or written. *)
Theorem test_size_out_of_range (cl : CommandLine) (tk : string) (w : world blob) :
  cl_ticker cl = Some tk -> cl_predict cl = false ->
  let per := default "5y" (cl_period cl) in
  let t := default (2 # 10)%Q (cl_test_size cl) in
  (t <= 0)%Q \/ (1 <= t)%Q ->
  main cl w = (inl (ValueError InvalidTestSize),
               mkWorld (fs w) (log w ++ [Fetch tk per])).
Proof.
  intros Htk Hp per t Ht.
  apply main_train_fails; [done..|]. fold per t.
  rewrite train_model_unfold. unfold train_test_split.
  replace (length (select_X _) =? length (select_y _))%nat with true
    by (symmetry; apply Nat.eqb_eq; unfold select_X, select_y;
        by rewrite !length_map).
  cbn [negb]. unfold validate_shuffle_split.
  replace (Qle_bool t 0 || Qle_bool 1 t) with true; [done|].
  symmetry. apply orb_true_iff. rewrite !Qle_bool_iff. exact Ht.
Qed.

End TestSize.


(** ** Predict mode *)

Section PredictRun.

Context {blob : Type} `{!Collaborators blob}.

(** The forecast of predict mode is the pipeline applied to the row
    [3, c1, c2, c3], where c1, c2, c3 are the closes one, two and three
    rows before the most recent fetched row: the most recent close itself
    does not enter the forecast. *)
Theorem predict_forecast_formula (cl : CommandLine) (tk p : string) (b : blob)
    (sc : StandardScaler) (lr : LinearRegression) (w : world blob) :
  cl_ticker cl = Some tk -> cl_predict cl = true ->
  cl_model_path cl = Some p -> p <> "" ->
  fs w !! p = Some (File b) -> loads b = Some (PyPipeline sc lr) ->
  four_features (PyPipeline sc lr) = true ->
  let fetched := dropna price_complete (reset_index (yf_download tk "10d")) in
  let n := length fetched in
  (4 <= n)%nat ->
  exists c1 c2 c3,
    close_at fetched (n - 2) = Some c1 /\
    close_at fetched (n - 3) = Some c2 /\
    close_at fetched (n - 4) = Some c3 /\
    log (snd (main cl w)) =
      log w ++
        [Fetch tk "10d";
         Stdout (MsgForecast tk
                   (dot (scale_row sc [3; c1; c2; c3]%Q) (coef_ lr)
                    + intercept_ lr)%Q)].
Proof.
  intros Ht Hp Hm Hne Hfile Hload Hshape fetched n Hlen.
  destruct (main_predict_row cl tk p b _ w Ht Hp Hm Hne Hfile Hload Hlen)
    as (lbl & r & c1 & c2 & c3 & _ & E1 & E2 & E3 & _ & Hmain).
  exists c1, c2, c3. repeat (split; [done|]).
  rewrite Hmain. cbn [predict].
  rewrite (Pipeline_predict_four sc lr 3 c1 c2 c3 Hshape).
  cbn [snd log]. by rewrite <- app_assoc.
Qed.

(** With fewer than four fetched rows predict mode has no Feature
    Row: after the one fetch, the loaded object's predict is called on a
    matrix without rows.  A pipeline raises ValueError (no samples) and
    an object without a predict method AttributeError, and nothing is
    printed; with any other object the outcome is that of its own
    predict. *)
Theorem predict_too_few_rows (cl : CommandLine) (tk p : string) (b : blob)
    (o : pyobj) (w : world blob) :
  cl_ticker cl = Some tk -> cl_predict cl = true ->
  cl_model_path cl = Some p -> p <> "" ->
  fs w !! p = Some (File b) -> loads b = Some o ->
  (length (dropna price_complete (reset_index (yf_download tk "10d"))) < 4)%nat ->
  let w1 := mkWorld (fs w) (log w ++ [Fetch tk "10d"]) in
  main cl w =
    match predict o [] with
    | inl e => (inl e, w1)
    | inr [] => (inl IndexError, w1)
    | inr (v :: _) =>
        (inr tt, mkWorld (fs w) (log w1 ++ [Stdout (MsgForecast tk v)]))
    end /\
  (forall sc lr, o = PyPipeline sc lr ->
                 main cl w = (inl (ValueError NoSamples), w1)) /\
  (forall s, o = PyOther s -> main cl w = (inl AttributeError, w1)).
Proof.
  intros Ht Hp Hm Hne Hfile Hload Hlen w1.
  assert (Hmain : main cl w =
            match predict o [] with
            | inl e => (inl e, w1)
            | inr [] => (inl IndexError, w1)
            | inr (v :: _) =>
                (inr tt, mkWorld (fs w) (log w1 ++ [Stdout (MsgForecast tk v)]))
            end).
  { rewrite (main_predict_eq cl tk p w) by done.
    rewrite (joblib_load_file _ _ _ Hfile), Hload. cbv zeta.
    set (fetched := dropna _ _) in *.
    assert (Hnone : make_features (tail 4 fetched) = []).
    { apply length_zero_iff_nil.
      pose proof (make_features_length_le (tail 4 fetched)) as Hle.
      unfold tail in Hle at 2. rewrite length_drop in Hle. lia. }
    rewrite Hnone. reflexivity. }
  split; [exact Hmain|]. split.
  - intros sc lr ->. by rewrite Hmain.
  - intros s ->. by rewrite Hmain.
Qed.

(** When the model cannot be loaded, predict mode ends with the
    error of joblib.load before any request to the provider: the world
    is as it was. *)
Theorem predict_load_failure_before_fetch (cl : CommandLine) (tk p : string)
    (e : exn) (w : world blob) :
  cl_ticker cl = Some tk -> cl_predict cl = true ->
  cl_model_path cl = Some p -> p <> "" ->
  fst (joblib_load p w) = inl e ->
  main cl w = (inl e, w).
Proof.
  intros Ht Hp Hm Hne Hload.
  rewrite (main_predict_eq cl tk p w) by done.
  by rewrite (joblib_load_error _ _ _ Hload).
Qed.

End PredictRun.

(** ** Training, then predicting *)

Section TrainThenPredict.

Context {blob : Type} {C : Collaborators blob}.
Hypothesis lstsq_length : forall X y, length (lstsq X y) = n_features X.
Hypothesis loads_dumps : forall o, loads (dumps o) = Some o.

(** The model a training run saves is one predict mode accepts: after
    a successful training run, a predict run for the same ticker with the
    saved file as --model_path, on whatever day, prints one forecast and
    leaves the files as the training run left them, provided the
    provider then answers with at least four complete rows and joblib
    loads what it dumped. *)
Theorem trained_model_serves_predict (cl cl' : CommandLine) (tk : string)
    (w : world blob) (later : string -> string -> list PriceRow) :
  cl_ticker cl = Some tk -> cl_predict cl = false ->
  let per := default "5y" (cl_period cl) in
  let t := default (2 # 10)%Q (cl_test_size cl) in
  let df := make_features
              (dropna price_complete (reset_index (yf_download tk per))) in
  let model_fp := path_join "models" (lower tk +:+ "_lr.pkl") in
  let models := cwd (fs w) ++ ["models"] in
  let reports := cwd (fs w) ++ ["reports"] in
  let model := cwd (fs w) ++ ["models"; lower tk +:+ "_lr.pkl"] in
  let img := cwd (fs w) ++ ["reports"; lower tk +:+ "_lr_plot.png"] in
  (0 < t)%Q -> (t < 1)%Q -> 1 <= split_point (length df) t ->
  no_slash (lower tk) = true ->
  free_for_dir (fs w) models -> free_for_file (fs w) model ->
  free_for_dir (fs w) reports -> free_for_file (fs w) img ->
  cl_ticker cl' = Some tk -> cl_predict cl' = true ->
  cl_model_path cl' = Some model_fp ->
  (4 <= length (dropna price_complete (reset_index (later tk "10d"))))%nat ->
  exists w1 v,
    main cl w = (inr tt, w1) /\
    main (Collaborators0 := with_provider C later) cl' w1 =
      (inr tt,
       mkWorld (fs w1)
               (log w1 ++ [Fetch tk "10d"; Stdout (MsgForecast tk v)])).
Proof.
  intros Htk Hp per t df model_fp models reports model img
         H0 H1 Hk Hns Hm1 Hm2 Hr1 Hr2 Htk' Hp' Hmp Hlen.
  destruct (main_train_ok lstsq_length cl tk w Htk Hp H0 H1 Hk Hns Hm1 Hm2 Hr1 Hr2)
    as (r & mae & r2 & Hshape & Hrun & Hmain).
  cbv zeta in Hmain. fold per t df models reports model img in Hrun, Hmain.
  destruct (artifact_name_plain (lower tk) "_lr.pkl" Hns eq_refl)
    as [Hn1 Hn2]; [simpl; lia|].
  match type of Hmain with context [put img (File ?c) _] =>
    destruct (artifacts_in_place (fs w) "models" (lower tk +:+ "_lr.pkl")
                "reports" (lower tk +:+ "_lr_plot.png")
                (dumps (tr_pipe r)) c)
      as (Hcwd & Hd1 & _ & He1 & _); [done|]
  end.
  cbv zeta in Hcwd, Hd1, He1.
  fold models reports model img in Hcwd, Hd1, He1.
  match type of Hmain with _ = (_, mkWorld ?x ?l) =>
    set (f' := x) in *; set (l' := l) in * end.
  assert (Hfile : f' !! model_fp = Some (File (dumps (tr_pipe r)))).
  { subst model_fp.
    rewrite lookup_join by (done || (rewrite Hcwd; exact Hd1)).
    rewrite (is_directory_below f' ["models"; _]) by done.
    rewrite Hcwd. fold model. by rewrite He1. }
  assert (Hne : model_fp <> "").
  { subst model_fp. by rewrite path_join_relative. }
  destruct (tr_pipe r) as [sc lr|m|s] eqn:Hpipe; [|done..].
  destruct (main_predict_row (Collaborators0 := with_provider C later)
              cl' tk model_fp (dumps (PyPipeline sc lr)) (PyPipeline sc lr)
              (mkWorld f' l') Htk' Hp' Hmp Hne Hfile (loads_dumps _) Hlen)
    as (lbl & r0 & c1 & c2 & c3 & _ & _ & _ & _ & _ & Hpred).
  cbn [predict] in Hpred.
  rewrite (Pipeline_predict_four sc lr 3 c1 c2 c3 Hshape) in Hpred.
  eexists _, _. split; [exact Hmain|]. rewrite Hpred. cbn [fs log].
  by rewrite <- app_assoc.
Qed.

End TrainThenPredict.

(** ** What a run leaves alone *)

Section Footprint.

Context {blob : Type}.

#[local] Existing Instances M_ret M_bind.

Lemma preserves_bind {A B} (P : relation (world blob)) `{!Transitive P}
    (m : M blob A) (k : A -> M blob B) :
  preserves P m -> (forall a, preserves P (k a)) -> preserves P (m ≫= k).
Proof.
  intros Hm Hk w. unfold mbind, M_bind. specialize (Hm w).
  destruct (m w) as [[e|a] w1]; [exact Hm|].
  simpl in Hm. etrans; [exact Hm|]. apply Hk.
Qed.

Lemma preserves_ret {A} (P : relation (world blob)) `{!Reflexive P} (a : A) :
  preserves P (mret a : M blob A).
Proof. intros w. reflexivity. Qed.

Lemma preserves_raise {A} (P : relation (world blob)) `{!Reflexive P} (e : exn) :
  preserves P (raise e : M blob A).
Proof. intros w. reflexivity. Qed.

Lemma preserves_lift {A} (P : relation (world blob)) `{!Reflexive P}
    (r : result A) :
  preserves P (lift r : M blob A).
Proof. intros w. reflexivity. Qed.

Lemma same_files_refl : Reflexive (@same_files blob).
Proof. by intros w. Qed.

Lemma same_files_trans : Transitive (@same_files blob).
Proof. unfold same_files. intros w1 w2 w3 H1 H2. congruence. Qed.

Lemma same_outside_refl names : Reflexive (@same_outside blob names).
Proof. intros w. split; [done|]. by intros k _. Qed.

Lemma same_outside_trans names : Transitive (@same_outside blob names).
Proof.
  intros w1 w2 w3 [C1 H1] [C2 H2]. split; [congruence|].
  intros k Hk. rewrite H2, H1; [done|done|].
  replace (map (realpath (fs w2)) names) with (map (realpath (fs w1)) names);
    [done|].
  apply map_ext. intros p. symmetry. by apply realpath_cwd.
Qed.

#[local] Existing Instances same_files_refl same_files_trans
  same_outside_refl same_outside_trans.

Lemma same_files_outside (names : list string) (w w' : world blob) :
  same_files w w' -> same_outside names w w'.
Proof.
  unfold same_files. intros Hs. split; [by rewrite Hs|].
  intros k _. by rewrite Hs.
Qed.

Lemma preserves_same_files_outside {A} (names : list string) (m : M blob A) :
  preserves same_files m -> preserves (same_outside names) m.
Proof. intros Hm w. apply same_files_outside, Hm. Qed.

Lemma emit_same_files (ev : event) : preserves (@same_files blob) (emit ev).
Proof. by intros w. Qed.

Lemma read_file_same_files (p : string) :
  preserves (@same_files blob) (read_file p).
Proof. intros w. unfold same_files. by rewrite read_file_world. Qed.

Lemma resolved_name_elem_of (names : list string) (name : string)
    (w : world blob) (k : path) :
  name ∈ names -> k ∉ map (realpath (fs w)) names ->
  k <> realpath (fs w) name.
Proof.
  intros Hin Hk ->. apply Hk.
  apply list_elem_of_In, in_map. by apply list_elem_of_In.
Qed.

Lemma mkdir_same_outside (names : list string) (name : string) :
  name ∈ names -> preserves (@same_outside blob names) (mkdir_exist_ok name).
Proof.
  intros Hin w. destruct (mkdir_exist_ok_world name w) as (Hc & _ & He).
  split; [done|]. intros k Hk. apply He. by eapply resolved_name_elem_of.
Qed.

Lemma mkdir_parents_same_outside (names : list string) (name : string) :
  no_slash name = true -> names_entry name = true -> name ∈ names ->
  preserves (@same_outside blob names) (mkdir_parents name).
Proof.
  intros Hs Hn Hin w. rewrite mkdir_parents_plain by done.
  by apply mkdir_same_outside.
Qed.

Lemma write_file_same_outside (names : list string) (p : string) (c : blob) :
  p ∈ names -> preserves (@same_outside blob names) (write_file p c).
Proof.
  intros Hin w. destruct (write_file_world p c w) as (Hc & _ & He).
  split; [done|]. intros k Hk. apply He. by eapply resolved_name_elem_of.
Qed.

Lemma fetches_at_most_refl n : Reflexive (@fetches_at_most blob n).
Proof. intros w. exists []. split; [by rewrite app_nil_r|simpl; lia]. Qed.

Lemma quiet_trans : Transitive (@fetches_at_most blob 0).
Proof.
  intros w1 w2 w3 (l1 & E1 & H1) (l2 & E2 & H2). exists (l1 ++ l2).
  split; [by rewrite E2, E1, app_assoc|].
  rewrite List.filter_app, length_app. lia.
Qed.

#[local] Existing Instances fetches_at_most_refl quiet_trans.

Lemma fetches_bind {A B} (n1 n2 : nat) (m : M blob A) (k : A -> M blob B) :
  preserves (fetches_at_most n1) m ->
  (forall a, preserves (fetches_at_most n2) (k a)) ->
  preserves (fetches_at_most (n1 + n2)) (m ≫= k).
Proof.
  intros Hm Hk w. unfold mbind, M_bind. specialize (Hm w).
  destruct (m w) as [[e|a] w1]; simpl in Hm.
  - destruct Hm as (l & E & Hl). exists l. split; [done|lia].
  - destruct Hm as (l1 & E1 & H1). destruct (Hk a w1) as (l2 & E2 & H2).
    exists (l1 ++ l2). split; [by rewrite E2, E1, app_assoc|].
    rewrite List.filter_app, length_app. lia.
Qed.

Lemma emit_quiet (ev : event) :
  is_fetch ev = false -> preserves (@fetches_at_most blob 0) (emit ev).
Proof.
  intros Hev w. exists [ev]. split; [done|]. simpl. by rewrite Hev.
Qed.

Lemma same_log_quiet {A} (m : M blob A) :
  (forall w, log (snd (m w)) = log w) -> preserves (fetches_at_most 0) m.
Proof.
  intros Hm w. exists []. split; [by rewrite Hm, app_nil_r|simpl; lia].
Qed.

Lemma read_file_quiet (p : string) :
  preserves (@fetches_at_most blob 0) (read_file p).
Proof. apply same_log_quiet. intros w. by rewrite read_file_world. Qed.

Lemma mkdir_quiet (name : string) :
  preserves (@fetches_at_most blob 0) (mkdir_exist_ok name).
Proof.
  apply same_log_quiet. intros w.
  by destruct (mkdir_exist_ok_world name w) as (_ & Hl & _).
Qed.

Lemma mkdir_parents_quiet (name : string) :
  preserves (@fetches_at_most blob 0) (mkdir_parents name).
Proof.
  apply same_log_quiet. intros w. unfold mkdir_parents.
  by destruct (mkdirs _ _ _).
Qed.

Lemma write_file_quiet (p : string) (c : blob) :
  preserves (@fetches_at_most blob 0) (write_file p c).
Proof.
  apply same_log_quiet. intros w.
  by destruct (write_file_world p c w) as (_ & Hl & _).
Qed.

End Footprint.

#[local] Existing Instances M_ret M_bind.
#[local] Existing Instances same_files_refl same_files_trans
  same_outside_refl same_outside_trans fetches_at_most_refl quiet_trans.

Create HintDb effects discriminated.

#[local] Hint Resolve preserves_ret preserves_raise preserves_lift
  emit_same_files read_file_same_files mkdir_same_outside
  mkdir_parents_same_outside write_file_same_outside
  preserves_same_files_outside
  read_file_quiet mkdir_quiet mkdir_parents_quiet write_file_quiet : effects.
#[local] Hint Extern 1 (preserves (fetches_at_most 0) (emit _)) =>
  apply emit_quiet; reflexivity : effects.
#[local] Hint Extern 1 (_ ∈ _) => set_solver : effects.
#[local] Hint Extern 1 (_ = true) => reflexivity : effects.
#[local] Hint Extern 0 (Reflexive _) => typeclasses eauto : effects.

(** One step through a program of [M]. *)
Ltac effects_step :=
  lazymatch goal with
  | |- preserves _ (mbind _ _) =>
      apply preserves_bind; [typeclasses eauto| |intros ?]
  | |- preserves _ (if ?b then _ else _) => destruct b
  | |- preserves _ (match ?x with _ => _ end) => destruct x
  | |- preserves _ (let _ := _ in _) => cbv zeta
  end.

Ltac effects := repeat effects_step; eauto with effects.

Section Programs.

Context {blob : Type} `{!Collaborators blob}.

Lemma ap_error_same_files {A} (msg : string) :
  preserves same_files (ap_error msg : M blob A).
Proof. unfold ap_error. effects. Qed.

Lemma ap_error_quiet {A} (msg : string) :
  preserves (fetches_at_most 0) (ap_error msg : M blob A).
Proof. unfold ap_error. effects. Qed.

Lemma print_resolved_same_files (msg : path -> message) (p : string) :
  preserves same_files (print_resolved msg p : M blob unit).
Proof. by intros w. Qed.

Lemma print_resolved_quiet (msg : path -> message) (p : string) :
  preserves (fetches_at_most 0) (print_resolved msg p : M blob unit).
Proof.
  intros w. exists [Stdout (msg (realpath (fs w) p))]. split; [done|].
  simpl. lia.
Qed.

Lemma joblib_load_same_files (p : string) :
  preserves same_files (joblib_load p).
Proof. unfold joblib_load. effects. Qed.

Lemma joblib_load_quiet (p : string) :
  preserves (fetches_at_most 0) (joblib_load p).
Proof. unfold joblib_load. effects. Qed.

Lemma download_data_same_files (tk per : string) :
  preserves same_files (download_data tk per).
Proof. unfold download_data. effects. Qed.

Lemma download_data_fetches_once (tk per : string) :
  preserves (fetches_at_most 1) (download_data tk per).
Proof. intros w. exists [Fetch tk per]. split; [done|simpl; lia]. Qed.

Lemma train_model_same_files (df : DataFrame FeatureRow) (t : Q) :
  preserves same_files (train_model df t).
Proof. unfold train_model. effects. Qed.

Lemma train_model_quiet (df : DataFrame FeatureRow) (t : Q) :
  preserves (fetches_at_most 0) (train_model df t).
Proof. unfold train_model. effects. Qed.

End Programs.

#[local] Hint Resolve ap_error_same_files ap_error_quiet
  print_resolved_same_files print_resolved_quiet joblib_load_same_files
  joblib_load_quiet download_data_same_files train_model_same_files
  train_model_quiet : effects.

Section ReporterFootprint.

Context {blob : Type} `{!Collaborators blob}.

Lemma plot_results_same_outside (names : list string)
    (df : DataFrame FeatureRow) (train_idx test_idx : list nat)
    (y_train y_test : list (option Q)) (pred : list Q) (tk out_dir : string) :
  no_slash out_dir = true -> names_entry out_dir = true ->
  out_dir ∈ names ->
  path_join out_dir (lower tk +:+ "_lr_plot.png") ∈ names ->
  preserves (same_outside names)
    (plot_results df train_idx test_idx y_train y_test pred tk out_dir).
Proof. intros Hs Hn H1 H2. unfold plot_results. effects. Qed.

Lemma plot_results_quiet (df : DataFrame FeatureRow)
    (train_idx test_idx : list nat) (y_train y_test : list (option Q))
    (pred : list Q) (tk out_dir : string) :
  preserves (fetches_at_most 0)
    (plot_results df train_idx test_idx y_train y_test pred tk out_dir).
Proof. unfold plot_results. effects. Qed.

End ReporterFootprint.

#[local] Hint Resolve plot_results_same_outside plot_results_quiet : effects.

Section Runs.

Context {blob : Type} `{!Collaborators blob}.

Lemma M_ret_bind {A B} (a : A) (k : A -> M blob B) : mret a ≫= k = k a.
Proof. reflexivity. Qed.

Lemma ap_error_bind {A B} (msg : string) (k : A -> M blob B) :
  ap_error msg ≫= k = ap_error msg.
Proof. reflexivity. Qed.

(** Whatever the command line and the outcome, a run leaves the
    working directory where it was and changes no entry of the file
    system other than those that the four names models, reports, the
    model file and the plot file of its ticker resolve to. *)
Theorem main_touches_only_its_artifacts (cl : CommandLine) (w : world blob) :
  let tk := default "" (cl_ticker cl) in
  same_outside
    ["models"; "reports";
     path_join "models" (lower tk +:+ "_lr.pkl");
     path_join "reports" (lower tk +:+ "_lr_plot.png")]
    w (snd (main cl w)).
Proof.
  intros tk. revert w. change (preserves (same_outside
    ["models"; "reports"; path_join "models" (lower tk +:+ "_lr.pkl");
     path_join "reports" (lower tk +:+ "_lr_plot.png")]) (main cl)).
  unfold main, parse_args. subst tk.
  destruct (cl_ticker cl) as [tk|]; [|rewrite ap_error_bind; effects].
  rewrite M_ret_bind. cbn [predict_flag ticker period test_size model_path default from_option id].
  destruct (cl_predict cl); [effects|].
  unfold joblib_dump. effects.
Qed.

(** Predict mode reads only: whatever the outcome, the file system
    is as it was. *)
Theorem predict_mode_read_only (cl : CommandLine) (w : world blob) :
  cl_predict cl = true -> fs (snd (main cl w)) = fs w.
Proof.
  intros Hp. revert w. change (preserves same_files (main cl)).
  unfold main, parse_args.
  destruct (cl_ticker cl) as [tk|]; [|rewrite ap_error_bind; effects].
  rewrite M_ret_bind. cbn [predict_flag]. rewrite Hp. effects.
Qed.

(** Whatever the command line and the outcome, a run keeps the
    events already logged and makes at most one request to the
    provider. *)
Theorem main_fetches_at_most_once (cl : CommandLine) (w : world blob) :
  exists l,
    log (snd (main cl w)) = log w ++ l /\
    (length (List.filter is_fetch l) <= 1)%nat.
Proof.
  revert w. change (preserves (fetches_at_most 1) (main cl)).
  unfold main, parse_args.
  destruct (cl_ticker cl) as [tk|].
  2: { rewrite ap_error_bind. intros w.
       destruct (ap_error_quiet (A:=unit) "the following arguments are required: --ticker" w)
         as (l & E & Hl).
       exists l. split; [exact E|lia]. }
  rewrite M_ret_bind. cbn [predict_flag ticker period test_size model_path].
  destruct (cl_predict cl).
  - apply (fetches_bind 0 1); [effects|intros _].
    apply (fetches_bind 0 1); [effects|intros pipe].
    apply (fetches_bind 1 0); [apply download_data_fetches_once|intros d].
    effects.
  - apply (fetches_bind 1 0); [apply download_data_fetches_once|intros d].
    unfold joblib_dump. effects.
Qed.

End Runs.

(** ** What a returning Trainer guarantees *)

Lemma Pipeline_predict_length (sc : StandardScaler) (lr : LinearRegression)
    (X : list (list (option Q))) (pred : list Q) :
  Pipeline_predict sc lr X = inr pred ->
  length pred = length X /\ forallb (forallb notna) X = true.
Proof.
  unfold Pipeline_predict, result_bind, check_array.
  destruct X as [|x X]; [done|].
  destruct (forallb (forallb notna) (x :: X)); [|done].
  destruct (negb _); [done|]. cbv zeta. destruct (negb _); [done|].
  intros [= <-]. split; [|done].
  simpl. by rewrite !length_map.
Qed.

Lemma mean_absolute_error_complete (y : list (option Q)) (pred : list Q) (v : Q) :
  mean_absolute_error y pred = inr v -> forallb notna y = true.
Proof.
  unfold mean_absolute_error, result_bind, all_finite.
  destruct (negb _); [done|]. by destruct (forallb notna y).
Qed.

Section Returning.

Context {blob : Type} `{!Collaborators blob}.

(** Whenever train_model returns: the test fraction lies in (0,1);
    the training labels followed by the test labels are the labels of
    the input in order, cut at k = len - ceil(t * len) with the float
    product the code computes, where 1 <= k < len; for a float t and
    fewer than 2^53 rows k is floor(len * (1 - t)) or one more; no row
    lacks its target or a lag; the returned object is a pipeline, and the
    predictions are its predictions on the test rows, one per test row;
    and the one line printed carries the mean absolute error and R2 of
    these predictions against the test targets. *)
Theorem train_model_returns (df : DataFrame FeatureRow) (t : Q)
    (w w' : world blob) (r : TrainResult) :
  train_model df t w = (inr r, w') ->
  let n := length df in
  let k := Z.of_nat n - Qceiling (float_mul t (inject_Z (Z.of_nat n))) in
  (0 < t)%Q /\ (t < 1)%Q /\ 1 <= k < Z.of_nat n /\
  (is_float t -> Z.of_nat n < 2 ^ 53 ->
   spec_split_point n t <= k <= spec_split_point n t + 1) /\
  tr_train_idx r ++ tr_test_idx r = labels df /\
  Z.of_nat (length (tr_train_idx r)) = k /\
  tr_y_train r ++ tr_y_test r = select_y df /\
  forallb (fun p => model_complete (snd p)) df = true /\
  (exists sc lr, tr_pipe r = PyPipeline sc lr) /\
  predict (tr_pipe r) (rows (select_X (drop (Z.to_nat k) df))) = inr (tr_pred r) /\
  length (tr_pred r) = length (tr_test_idx r) /\
  exists mae r2,
    mean_absolute_error (tr_y_test r) (tr_pred r) = inr mae /\
    r2_score (tr_y_test r) (tr_pred r) = inr r2 /\
    w' = mkWorld (fs w) (log w ++ [Stdout (MsgMetrics mae r2)]).
Proof.
  intros Hrun n k.
  destruct (train_model_success _ _ _ _ _ Hrun)
    as (H0 & H1 & Hk & Htr & Hte & Hy1 & Hy2 & Hf & Hp & mae & r2 & Hm & Hr & Hw).
  change (split_point (length df) t) with k in *.
  destruct (Pipeline_fit_inv _ _ _ Hf) as (_ & HX1 & Hc1 & Hpipe).
  pose proof Hp as Hp'. rewrite Hpipe in Hp'. cbn [predict] in Hp'.
  destruct (Pipeline_predict_length _ _ _ _ Hp') as [Hlen HX2].
  pose proof (mean_absolute_error_complete _ _ _ Hm) as Hc2.
  split; [done|]. split; [done|]. split; [done|].
  split. { intros Hfl Hn. apply split_point_spec; [by apply Qlt_le_weak..|done|done]. }
  split. { rewrite Htr, Hte. unfold labels. by rewrite <- map_app, take_drop. }
  split. { rewrite Htr. unfold labels. rewrite length_map, length_take.
           subst n. lia. }
  split. { rewrite Hy1, Hy2. unfold select_y. by rewrite <- map_app, take_drop. }
  split. { rewrite <- (take_drop (Z.to_nat k) df), forallb_app.
           rewrite !model_complete_columns. rewrite HX2.
           rewrite Hc2. rewrite !andb_true_r. apply andb_true_intro. split.
           - by apply forallb_Forall.
           - by apply forallb_Forall. }
  split; [by eexists _, _|]. split; [done|].
  split. { rewrite Hlen, Hte. unfold labels, rows, select_X.
           by rewrite !length_map. }
  exists mae, r2. by rewrite Hy2.
Qed.

End Returning.

(** ** Date order through the Fetcher and the Feature Builder *)

Lemma StronglySorted_lookup_inv {A} (R : relation A) (l : list A) :
  StronglySorted R l ->
  forall i j x y, (i < j)%nat -> l !! i = Some x -> l !! j = Some y -> R x y.
Proof.
  induction 1 as [|a l Hs IH Ha]; intros i j x y Hij Hi Hj; [done|].
  destruct j as [|j]; [lia|]. simpl in Hj. destruct i as [|i].
  - simpl in Hi. injection Hi as <-. rewrite Forall_lookup in Ha. by eapply Ha.
  - simpl in Hi. eapply (IH i j); [lia|done..].
Qed.

Lemma make_features_dates_sorted (df : DataFrame PriceRow) :
  StronglySorted Z.lt (map (fun p => Date (snd p)) df) ->
  StronglySorted Z.lt (dates (make_features df)).
Proof.
  intros Hs. apply StronglySorted_map_inv in Hs.
  unfold dates. apply StronglySorted_map. unfold make_features, dropna.
  apply StronglySorted_filter, StronglySorted_lookup.
  intros i j [l1 f1] [l2 f2] Hij Hi Hj.
  assert (Hi' : (i < length df)%nat).
  { rewrite <- length_add_features. by eapply lookup_lt_Some. }
  assert (Hj' : (j < length df)%nat).
  { rewrite <- length_add_features. by eapply lookup_lt_Some. }
  destruct (lookup_lt_is_Some_2 df i Hi') as [[a r] Ha].
  destruct (lookup_lt_is_Some_2 df j Hj') as [[b s] Hb].
  rewrite (lookup_add_features _ _ _ _ Ha) in Hi.
  rewrite (lookup_add_features _ _ _ _ Hb) in Hj.
  injection Hi as <- <-. injection Hj as <- <-. simpl.
  exact (StronglySorted_lookup_inv _ _ Hs i j (a, r) (b, s) Hij Ha Hb).
Qed.

Section DateOrder.

Context {blob : Type} `{!Collaborators blob}.

(** When the provider answers in strictly increasing date order, the
    Feature Rows built from what download_data returns are in strictly
    increasing date order too, with pairwise distinct labels: dropping rows
    never reorders. *)
Theorem fetched_features_in_date_order (tk per : string) (w : world blob)
    (fetched : DataFrame PriceRow) :
  StronglySorted Z.lt (map Date (yf_download tk per)) ->
  fst (download_data tk per w) = inr fetched ->
  StronglySorted Z.lt (dates (make_features fetched)) /\
  NoDup (labels (make_features fetched)).
Proof.
  intros Hs Hf. rewrite download_data_eq in Hf. injection Hf as <-.
  split; [|apply fetched_features_NoDup].
  apply make_features_dates_sorted, StronglySorted_map.
  unfold dropna. apply StronglySorted_filter, StronglySorted_lookup.
  intros i j [a x] [b y] Hij Hi Hj. rewrite lookup_reset_index in Hi, Hj.
  destruct (yf_download tk per !! i) as [x'|] eqn:Ex; [|done].
  destruct (yf_download tk per !! j) as [y'|] eqn:Ey; [|done].
  simpl in Hi, Hj. injection Hi as <- <-. injection Hj as <- <-. simpl.
  apply (StronglySorted_lookup_inv _ _ Hs i j); [done|..];
    by rewrite lookup_map, ?Ex, ?Ey.
Qed.

End DateOrder.

(** ** Training twice *)

Section TrainTwice.

Context {blob : Type} {C : Collaborators blob}.

Lemma train_model_any_world (df : DataFrame FeatureRow) (t : Q)
    (w w' : world blob) :
  fst (train_model df t w) = fst (train_model df t w').
Proof.
  rewrite !train_model_unfold.
  destruct (train_test_split _ _ _) as [e|[[[Xtr Xte] ytr] yte]]; [done|].
  destruct (Pipeline_fit _ _) as [e|pipe]; [done|].
  destruct (predict _ _) as [e|pred]; [done|].
  destruct (mean_absolute_error _ _) as [e|mae]; [done|].
  by destruct (r2_score _ _) as [e|r2].
Qed.

(** The Trainer does not depend on the provider. *)
Lemma train_model_with_provider
    (later : string -> string -> list PriceRow) (df : DataFrame FeatureRow)
    (t : Q) (w : world blob) :
  train_model (Collaborators0 := with_provider C later) df t w
    = train_model df t w.
Proof. reflexivity. Qed.

Hypothesis lstsq_length : forall X y, length (lstsq X y) = n_features X.

(** Training again after a successful training run, on a day when
    the provider answers the request as it did for the first run,
    succeeds too and leaves the file system exactly as the first run
    left it: the model and the plot are replaced by equal ones, nothing
    accumulates. *)
Theorem train_run_twice (cl : CommandLine) (tk : string) (w : world blob)
    (later : string -> string -> list PriceRow) :
  cl_ticker cl = Some tk -> cl_predict cl = false ->
  let per := default "5y" (cl_period cl) in
  let t := default (2 # 10)%Q (cl_test_size cl) in
  let df := make_features
              (dropna price_complete (reset_index (yf_download tk per))) in
  let models := cwd (fs w) ++ ["models"] in
  let reports := cwd (fs w) ++ ["reports"] in
  let model := cwd (fs w) ++ ["models"; lower tk +:+ "_lr.pkl"] in
  let img := cwd (fs w) ++ ["reports"; lower tk +:+ "_lr_plot.png"] in
  (0 < t)%Q -> (t < 1)%Q -> 1 <= split_point (length df) t ->
  no_slash (lower tk) = true ->
  free_for_dir (fs w) models -> free_for_file (fs w) model ->
  free_for_dir (fs w) reports -> free_for_file (fs w) img ->
  later tk per = yf_download tk per ->
  exists w1 w2,
    main cl w = (inr tt, w1) /\
    main (Collaborators0 := with_provider C later) cl w1 = (inr tt, w2) /\
    fs w2 = fs w1.
Proof.
  intros Htk Hp per t df models reports model img
         H0 H1 Hk Hns Hm1 Hm2 Hr1 Hr2 Hsame.
  destruct (main_train_ok lstsq_length cl tk w Htk Hp H0 H1 Hk Hns Hm1 Hm2 Hr1 Hr2)
    as (r & mae & r2 & _ & Hrun & Hmain).
  cbv zeta in Hmain. fold per t df models reports model img in Hrun, Hmain.
  match type of Hmain with context [put img (File ?c) _] =>
    destruct (artifacts_in_place (fs w) "models" (lower tk +:+ "_lr.pkl")
                "reports" (lower tk +:+ "_lr_plot.png")
                (dumps (tr_pipe r)) c)
      as (Hcwd & Hd1 & Hd2 & He1 & He2 & _); [done|]
  end.
  cbv zeta in Hcwd, Hd1, Hd2, He1, He2.
  fold models reports model img in Hcwd, Hd1, Hd2, He1, He2.
  match type of Hmain with _ = (_, mkWorld ?x ?l) =>
    set (f' := x) in *; set (l' := l) in * end.
  destruct (main_train_ok (Collaborators0 := with_provider C later)
              lstsq_length cl tk (mkWorld f' l') Htk Hp)
    as (r' & mae' & r2' & _ & Hrun' & Hmain').
  { exact H0. }
  { exact H1. }
  { cbn [yf_download with_provider]. fold per. rewrite Hsame. exact Hk. }
  { exact Hns. }
  { cbn [fs]. intros b. apply (is_directory_not_file f' ["models"]); [done|].
    rewrite Hcwd. exact Hd1. }
  { cbn [fs]. rewrite Hcwd. unfold free_for_file. fold model.
    change (lower (Collaborators0 := with_provider C later) tk) with (lower tk).
    fold model. by rewrite He1. }
  { cbn [fs]. intros b. apply (is_directory_not_file f' ["reports"]); [done|].
    rewrite Hcwd. exact Hd2. }
  { cbn [fs]. rewrite Hcwd. unfold free_for_file.
    change (lower (Collaborators0 := with_provider C later) tk) with (lower tk).
    fold img. by rewrite He2. }
  cbv zeta in Hmain', Hrun'. cbn [fs log] in Hmain', Hrun'.
  cbn [yf_download with_provider] in Hmain', Hrun'.
  fold per in Hmain', Hrun'. rewrite Hsame in Hmain', Hrun'.
  fold df in Hmain', Hrun'. rewrite Hcwd in Hmain'.
  change (lower (Collaborators0 := with_provider C later) tk) with (lower tk)
    in Hmain'.
  fold models reports model img in Hmain'. fold t in Hmain', Hrun'.
  rewrite train_model_with_provider in Hrun'.
  assert (Hr : r' = r).
  { pose proof (train_model_any_world df t
                  (mkWorld f' (l' ++ [Fetch tk per]))
                  (mkWorld (fs w) (log w ++ [Fetch tk per]))) as Heq.
    rewrite Hrun, Hrun' in Heq. simpl in Heq. by injection Heq. }
  subst r'. eexists _, _. split; [exact Hmain|]. split; [exact Hmain'|].
  cbn [fs].
  change (savefig (Collaborators := with_provider C later)) with savefig.
  change (dumps (Collaborators := with_provider C later)) with dumps.
  rewrite (with_dir_id f' models) by done.
  rewrite (put_id f' model) by done.
  rewrite (with_dir_id f' reports) by done.
  by rewrite (put_id f' img).
Qed.

End TrainTwice.

(** ** The further statements at sample inputs *)

Lemma elem_of_take_frame {A} (k : nat) (l : list A) (x : A) :
  x ∈ take k l -> x ∈ l.
Proof. intros Hx. rewrite <- (take_drop k l). apply elem_of_app. by left. Qed.

Lemma elem_of_drop_frame {A} (k : nat) (l : list A) (x : A) :
  x ∈ drop k l -> x ∈ l.
Proof. intros Hx. rewrite <- (take_drop k l). apply elem_of_app. by right. Qed.

Lemma training_needs_five_rows_witness :
  (exists r w', train_model (make_features (reset_index Sample.history))
                  (1 # 5) Sample.empty_world = (inr r, w')) /\
  train_model (make_features (reset_index (take 4 Sample.history))) (1 # 5)
      Sample.empty_world
    = (inl (ValueError EmptyTrainSet), Sample.empty_world).
Proof.
  split.
  - apply (training_needs_five_rows (Collaborators0 := Sample.collaborators)
             first_column_lstsq_length
             (reset_index Sample.history) (1 # 5) Sample.empty_world).
    + apply complete_forallb. vm_compute. reflexivity.
    + reflexivity.
    + vm_compute. discriminate.
    + vm_compute. lia.
  - apply (training_needs_five_rows (Collaborators0 := Sample.collaborators)
             first_column_lstsq_length
             (reset_index (take 4 Sample.history)) (1 # 5) Sample.empty_world).
    + apply complete_forallb. vm_compute. reflexivity.
    + reflexivity.
    + vm_compute. discriminate.
    + vm_compute. lia.
Defined.

Lemma train_model_rejects_missing_cells_witness :
  train_model Cases.features_with_gap (1 # 5) Sample.empty_world
    = (inl (ValueError InputContainsNaN), Sample.empty_world).
Proof.
  apply (train_model_rejects_missing_cells (Collaborators0 := Sample.collaborators)
             first_column_lstsq_length).
  - reflexivity.
  - reflexivity.
  - vm_compute. discriminate.
  - vm_compute. reflexivity.
Defined.

Lemma plot_results_writes_one_image_witness :
  exists w',
    plot_results Sample.features (labels (take 4 Sample.features))
        (labels (drop 4 Sample.features)) (select_y (take 4 Sample.features))
        (select_y (drop 4 Sample.features)) [17 # 1] "AAPL" "reports"
        Sample.empty_world
      = (inr tt, w') /\
    holds_file (fs w') "reports/aapl_lr_plot.png" = true /\
    log w' = [Stdout (MsgPlotSaved ["reports"; "aapl_lr_plot.png"])].
Proof.
  destruct (plot_results_writes_one_image Sample.features
              (take 4 Sample.features) (drop 4 Sample.features)
              (select_y (take 4 Sample.features))
              (select_y (drop 4 Sample.features)) [17 # 1] "AAPL" "reports"
              Sample.empty_world)
    as (fig & w' & Hrun & _ & _ & _ & _ & Himg & _ & _ & _ & Hlog).
  - apply (bool_decide_unpack _). vm_compute. exact I.
  - apply elem_of_take_frame.
  - apply elem_of_drop_frame.
  - reflexivity.
  - reflexivity.
  - reflexivity.
  - reflexivity.
  - reflexivity.
  - reflexivity.
  - intros b. vm_compute. discriminate.
  - unfold free_for_file. vm_compute. discriminate.
  - exists w'. split; [exact Hrun|]. split; [|exact Hlog].
    unfold holds_file. change "reports/aapl_lr_plot.png"
      with (path_join "reports" (lower "AAPL" +:+ "_lr_plot.png")).
    by rewrite Himg.
Defined.

Lemma plot_results_directory_is_file_witness :
  plot_results Sample.features (labels (take 4 Sample.features))
      (labels (drop 4 Sample.features)) (select_y (take 4 Sample.features))
      (select_y (drop 4 Sample.features)) [17 # 1] "AAPL" "reports"
      Cases.reports_is_file
    = (inl FileExistsError, Cases.reports_is_file).
Proof.
  apply (plot_results_directory_is_file Sample.features
           (take 4 Sample.features) (drop 4 Sample.features)).
  - apply (bool_decide_unpack _). vm_compute. exact I.
  - apply elem_of_take_frame.
  - apply elem_of_drop_frame.
  - reflexivity.
  - reflexivity.
  - reflexivity.
  - vm_compute. reflexivity.
Defined.

Lemma train_run_saves_model_and_plot_witness :
  exists w',
    main Sample.train_args Sample.empty_world = (inr tt, w') /\
    holds_file (fs w') "models/aapl_lr.pkl" = true /\
    holds_file (fs w') "reports/aapl_lr_plot.png" = true /\
    entries (fs w') !! ["notes.txt"] = None.
Proof.
  destruct (train_run_saves_model_and_plot (Collaborators0 := Sample.collaborators)
              first_column_lstsq_length
              Sample.train_args "AAPL" Sample.empty_world)
    as (r & mae & r2 & w' & Hmain & _ & _ & _ & _ & Hmodel & Himg & _ & _ & _
        & Hrest & _).
  - reflexivity.
  - reflexivity.
  - reflexivity.
  - reflexivity.
  - vm_compute. discriminate.
  - reflexivity.
  - intros b. vm_compute. discriminate.
  - unfold free_for_file. vm_compute. discriminate.
  - intros b. vm_compute. discriminate.
  - unfold free_for_file. vm_compute. discriminate.
  - exists w'. split; [exact Hmain|]. split; [|split; [exact Himg|]].
    + unfold holds_file. change "models/aapl_lr.pkl"
        with (path_join "models" (lower "AAPL" +:+ "_lr.pkl")).
      by rewrite Hmodel.
    + rewrite Hrest by (cbn; discriminate). vm_compute. reflexivity.
Defined.

Lemma train_run_models_is_file_witness :
  exists mae r2,
    main Sample.train_args Cases.models_is_file
      = (inl FileExistsError,
         mkWorld (fs Cases.models_is_file)
                 [Fetch "AAPL" "5y"; Stdout (MsgMetrics mae r2)]).
Proof.
  apply (train_run_models_is_file (Collaborators0 := Sample.collaborators)
             first_column_lstsq_length Sample.train_args
           "AAPL" Cases.models_is_file).
  - reflexivity.
  - reflexivity.
  - reflexivity.
  - reflexivity.
  - vm_compute. discriminate.
  - vm_compute. reflexivity.
Defined.

Lemma test_size_out_of_range_witness :
  main Cases.wide_test_size_args Sample.empty_world
    = (inl (ValueError InvalidTestSize),
       mkWorld (fs Sample.empty_world) [Fetch "AAPL" "5y"]).
Proof.
  apply (test_size_out_of_range Cases.wide_test_size_args "AAPL"
           Sample.empty_world); [reflexivity|reflexivity|].
  right. vm_compute. discriminate.
Defined.

Lemma predict_forecast_formula_witness :
  log (snd (main Sample.predict_args Sample.saved_world))
    = [Fetch "AAPL" "10d"; Stdout (MsgForecast "AAPL" 5)].
Proof.
  destruct (predict_forecast_formula Sample.predict_args "AAPL"
              "models/aapl_lr.pkl" (Some Sample.pipeline)
              (mkScaler [3; 12; 11; 10] [1; 1; 1; 1] [1; 1; 1; 1])%Q
              (mkLinear [0; 1; 0; 0] 1)%Q Sample.saved_world)
    as (c1 & c2 & c3 & E1 & E2 & E3 & Hlog);
    [reflexivity|reflexivity|reflexivity|discriminate|
     vm_compute; reflexivity|reflexivity|reflexivity|vm_compute; lia|].
  vm_compute in E1, E2, E3. injection E1 as <-. injection E2 as <-.
  injection E3 as <-. rewrite Hlog. vm_compute. reflexivity.
Defined.

Lemma predict_too_few_rows_witness :
  main Cases.predict_unknown_ticker_args Sample.saved_world
    = (inl (ValueError NoSamples),
       mkWorld (fs Sample.saved_world) [Fetch "NOPE" "10d"]).
Proof.
  destruct (predict_too_few_rows Cases.predict_unknown_ticker_args "NOPE"
              "models/aapl_lr.pkl" (Some Sample.pipeline) Sample.pipeline
              Sample.saved_world)
    as (_ & Hpipe & _);
    [reflexivity|reflexivity|reflexivity|discriminate|
     vm_compute; reflexivity|reflexivity|vm_compute; lia|].
  eapply Hpipe. reflexivity.
Defined.

Lemma predict_load_failure_before_fetch_witness :
  main Sample.predict_args Sample.empty_world
    = (inl FileNotFoundError, Sample.empty_world).
Proof.
  apply (predict_load_failure_before_fetch Sample.predict_args "AAPL"
           "models/aapl_lr.pkl");
    [reflexivity|reflexivity|reflexivity|discriminate|
     vm_compute; reflexivity].
Defined.

Lemma trained_model_serves_predict_witness :
  exists w1 v,
    main Sample.train_args Sample.empty_world = (inr tt, w1) /\
    main (Collaborators0 :=
            with_provider Sample.collaborators (fun _ _ => Sample.history))
         Sample.predict_args w1
      = (inr tt,
         mkWorld (fs w1)
                 (log w1 ++ [Fetch "AAPL" "10d"; Stdout (MsgForecast "AAPL" v)])).
Proof.
  apply (trained_model_serves_predict (C := Sample.collaborators)
           first_column_lstsq_length (fun o => eq_refl)
           Sample.train_args Sample.predict_args "AAPL" Sample.empty_world
           (fun _ _ => Sample.history)).
  - reflexivity.
  - reflexivity.
  - reflexivity.
  - reflexivity.
  - vm_compute. discriminate.
  - reflexivity.
  - intros b. vm_compute. discriminate.
  - unfold free_for_file. vm_compute. discriminate.
  - intros b. vm_compute. discriminate.
  - unfold free_for_file. vm_compute. discriminate.
  - reflexivity.
  - reflexivity.
  - reflexivity.
  - vm_compute. lia.
Defined.

Lemma predict_mode_read_only_witness :
  fs (snd (main Sample.predict_args Sample.saved_world)) = fs Sample.saved_world.
Proof. apply predict_mode_read_only. reflexivity. Defined.

Lemma train_model_returns_witness :
  exists r w',
    train_model Sample.features (1 # 5) Sample.empty_world = (inr r, w') /\
    tr_train_idx r ++ tr_test_idx r = [3; 4; 5; 6; 7]%nat /\
    length (tr_pred r) = 1%nat.
Proof.
  destruct (train_model Sample.features (1 # 5) Sample.empty_world)
    as [[e|r] w'] eqn:E; [vm_compute in E; discriminate|].
  exists r, w'. split; [reflexivity|].
  destruct (train_model_returns Sample.features (1 # 5) Sample.empty_world w' r E)
    as (_ & _ & _ & _ & Hidx & Hk & _ & _ & _ & _ & Hlen & _).
  split; [exact Hidx|]. rewrite Hlen.
  assert (Hfour : split_point (length Sample.features) (1 # 5) = 4)
    by (vm_compute; reflexivity).
  assert (Hfive : length (labels Sample.features) = 5%nat) by reflexivity.
  unfold split_point, n_test_of in Hfour.
  cbv zeta in Hk. rewrite Hfour in Hk.
  apply (f_equal length) in Hidx. rewrite length_app, Hfive in Hidx. lia.
Defined.

Lemma fetched_features_in_date_order_witness :
  StronglySorted Z.lt
    (dates (make_features (dropna price_complete (reset_index Sample.history)))).
Proof.
  refine (proj1 (fetched_features_in_date_order "AAPL" "5y" Sample.empty_world
                   (dropna price_complete (reset_index Sample.history)) _ _)).
  - apply (bool_decide_unpack _). vm_compute. exact I.
  - reflexivity.
Defined.

Lemma train_run_twice_witness :
  exists w1 w2,
    main Sample.train_args Sample.empty_world = (inr tt, w1) /\
    main (Collaborators0 :=
            with_provider Sample.collaborators (fun _ _ => Sample.history))
         Sample.train_args w1 = (inr tt, w2) /\
    fs w2 = fs w1.
Proof.
  apply (train_run_twice (C := Sample.collaborators)
           first_column_lstsq_length Sample.train_args "AAPL"
           Sample.empty_world (fun _ _ => Sample.history)).
  - reflexivity.
  - reflexivity.
  - reflexivity.
  - reflexivity.
  - vm_compute. discriminate.
  - reflexivity.
  - intros b. vm_compute. discriminate.
  - unfold free_for_file. vm_compute. discriminate.
  - intros b. vm_compute. discriminate.
  - unfold free_for_file. vm_compute. discriminate.
  - reflexivity.
Defined.

(** A ticker that leads out of the directories: the model and the plot
    are written beside them. *)
Example train_run_beside_the_directories :
  exists w',
    main (Collaborators0 :=
            with_provider Sample.collaborators (fun _ _ => Sample.history))
         (mkCommandLine (Some "../X") None None None false)
         Sample.empty_world
      = (inr tt, w') /\
    holds_file (fs w') "x_lr.pkl" = true /\
    holds_file (fs w') "x_lr_plot.png" = true /\
    fs w' !! "models/x_lr.pkl" = None.
Proof.
  eexists. split; [vm_compute; reflexivity|].
  repeat split; vm_compute; reflexivity.
Qed.
